(** * Forgejo provisioning tool (misc/forgejo-mng/main.py)

    A shallow embedding of the three provisioning workflows ([repo], [pr],
    [checkout]) and of the helpers they call, followed by theorems about
    the order of their side effects and about their failure handling.

    The tool is a straight-line script that talks to a forge over HTTP,
    to [kubectl] and [git] through subprocesses, to the file system and
    to the clock.  Each workflow is embedded as a finite interaction
    tree ([Prog]): a node is one call to the outside world, its children
    are indexed by the answer.  [run] executes a tree against a handler
    that plays the outside world and records the trace; [exec p tr o]
    says that [tr] is a path through [p] that ends with outcome [o]. *)

From Stdlib Require Import String Ascii ZArith List QArith Bool Lia DecimalString.

Import ListNotations.

Open Scope string_scope.

Open Scope Z_scope.

Set Implicit Arguments.

(* ------------------------------------------------------------------ *)
(** ** Python strings *)
(* ------------------------------------------------------------------ *)

Module PyStr.

Definition nl : string := String (ascii_of_nat 10) EmptyString.

(** [str(n)] for an [int]. *)
Definition of_int (n : Z) : string := NilEmpty.string_of_int (Z.to_int n).

(** [needle in hay]. *)
Fixpoint contains (needle hay : string) : bool :=
  if prefix needle hay then true
  else match hay with
       | EmptyString => false
       | String _ rest => contains needle rest
       end.

(** [s.startswith(p)]. *)
Definition startswith (s p : string) : bool := prefix p s.

(** [s.partition(sep)] for a one-character separator: the text before the
    first [sep], and the text after it when there is one. *)
Fixpoint partition (sep : ascii) (s : string) : string * option string :=
  match s with
  | EmptyString => (EmptyString, None)
  | String c rest =>
      if Ascii.eqb c sep then (EmptyString, Some rest)
      else let '(a, b) := partition sep rest in (String c a, b)
  end.

(** [s.split(sep)[0]]. *)
Definition split_head (sep : ascii) (s : string) : string := fst (partition sep s).

(** [s.rstrip(c)] for a one-character set. *)
Fixpoint rstrip (c : ascii) (s : string) : string :=
  match s with
  | EmptyString => EmptyString
  | String a rest =>
      match rstrip c rest with
      | EmptyString => if Ascii.eqb a c then EmptyString else String a EmptyString
      | r => String a r
      end
  end.

(** [s.lower()], on the ASCII letters. *)
Definition lower_ascii (a : ascii) : ascii :=
  let n := nat_of_ascii a in
  if (Nat.leb 65 n && Nat.leb n 90)%bool then ascii_of_nat (n + 32) else a.

Fixpoint lower (s : string) : string :=
  match s with
  | EmptyString => EmptyString
  | String a rest => String (lower_ascii a) (lower rest)
  end.

(** Truth value of a [str]. *)
Definition truthy (s : string) : bool := negb (String.eqb s EmptyString).

(** Truth value of a [str] or [None]. *)
Definition truthy_opt (s : option string) : bool :=
  match s with Some s => truthy s | None => false end.

End PyStr.

(* ------------------------------------------------------------------ *)
(** ** Python values decoded from JSON *)
(* ------------------------------------------------------------------ *)

(** What [response.json()] yields, and so what [.get] hands to the
    workflows.  JSON numbers are taken to be integers.  A [VDict] lists
    the items of a [dict]: its keys are distinct. *)
#[warnings="-register-all"]

Inductive value : Type :=
| VNone
| VBool (b : bool)
| VInt (n : Z)
| VStr (s : string)
| VList (l : list value)
| VDict (items : list (string * value)).

Module Py.

(** [bool(v)]. *)
Definition truthy (v : value) : bool :=
  match v with
  | VNone => false
  | VBool b => b
  | VInt n => negb (n =? 0)
  | VStr s => PyStr.truthy s
  | VList l => match l with [] => false | _ => true end
  | VDict kv => match kv with [] => false | _ => true end
  end.

(** [v == s] for a [str] [s]. *)
Definition eq_str (v : value) (s : string) : bool :=
  match v with VStr t => String.eqb t s | _ => false end.

Fixpoint lookup (key : string) (items : list (string * value)) : option value :=
  match items with
  | [] => None
  | (k, v) :: rest => if String.eqb k key then Some v else lookup key rest
  end.

Fixpoint chars (s : string) : list value :=
  match s with
  | EmptyString => []
  | String a rest => VStr (String a EmptyString) :: chars rest
  end.

(** The elements a [for] loop visits, [None] when [v] is not iterable. *)
Definition iter (v : value) : option (list value) :=
  match v with
  | VList l => Some l
  | VDict kv => Some (map (fun kv => VStr (fst kv)) kv)
  | VStr s => Some (chars s)
  | _ => None
  end.

End Py.

(* ------------------------------------------------------------------ *)
(** ** The outside world *)
(* ------------------------------------------------------------------ *)

(** Exceptions, as far as the script tells them apart. *)
Inductive exn : Type :=
| FileNotFoundError
| CalledProcessError (returncode : Z) (stderr : option string) (message : string)
| SSLError
| JSONDecodeError
| AttributeError
| TypeError
| OtherError (name : string).

Inductive method : Type := GET | POST | DELETE | HEAD.

(** The REST paths the script builds. *)
Inductive endpoint : Type :=
| EpBase
| EpUserTokens (user : string)
| EpUserToken (user : string) (token_id : string)
| EpRepo (owner repo : string)
| EpOrgRepos (owner : string)
| EpUserRepos
| EpHooks (owner repo : string)
| EpContents (owner repo filepath : string)
| EpPulls (owner repo : string).

(** The f-strings that build the URLs. *)
Definition url_of (forgejo_url : string) (ep : endpoint) : string :=
  match ep with
  | EpBase => forgejo_url
  | EpUserTokens u => forgejo_url ++ "/api/v1/users/" ++ u ++ "/tokens"
  | EpUserToken u i => forgejo_url ++ "/api/v1/users/" ++ u ++ "/tokens/" ++ i
  | EpRepo o r => forgejo_url ++ "/api/v1/repos/" ++ o ++ "/" ++ r
  | EpOrgRepos o => forgejo_url ++ "/api/v1/orgs/" ++ o ++ "/repos"
  | EpUserRepos => forgejo_url ++ "/api/v1/user/repos"
  | EpHooks o r => forgejo_url ++ "/api/v1/repos/" ++ o ++ "/" ++ r ++ "/hooks"
  | EpContents o r f => forgejo_url ++ "/api/v1/repos/" ++ o ++ "/" ++ r ++ "/contents/" ++ f
  | EpPulls o r => forgejo_url ++ "/api/v1/repos/" ++ o ++ "/" ++ r ++ "/pulls"
  end.

(** [auth=(user, password)], or the [headers] dictionary with its two
    entries, or neither. *)
Inductive credentials : Type :=
| BasicAuth (user password : string)
| Headers (authorization content_type : string)
| NoCredentials.

Record http_request : Type := {
  rq_method : method;
  rq_base : string;
  rq_endpoint : endpoint;
  rq_creds : credentials;
  rq_json : option value;
  rq_verify : bool;
  rq_timeout : option Z
}.

Definition rq_url (r : http_request) : string := url_of (rq_base r) (rq_endpoint r).

(** A [requests.Response]: [json_body] is [None] when [.json()] raises. *)
Record http_response : Type := {
  status_code : Z;
  text : string;
  json_body : option value;
  final_url : string
}.

(** One [subprocess.run] call. *)
Record proc_call : Type := {
  argv : list string;
  stdin : option string;
  cwd : option string;
  check : bool
}.

Record completed : Type := {
  returncode : Z;
  stdout : string;
  stderr : string
}.

(** The calls to the outside world, indexed by the type of the answer. *)
Inductive Eff : Type -> Type :=
| Echo (err : bool) (msg : string) : Eff unit
| Http (r : http_request) : Eff (http_response + exn)
| Subprocess (c : proc_call) : Eff (completed + exn)
| Now : Eff Q
| PathExists (p : string) : Eff bool
| PathIsFile (p : string) : Eff bool
| PathIterAny (p : string) : Eff (bool + exn)
| PathResolve (p : string) : Eff string
| MkdirParents (p : string) : Eff (unit + exn)
| ReadText (p : string) : Eff (string + exn)
| OpenBrowser (url : value) : Eff bool
| FilterWarnings : Eff unit.

(* ------------------------------------------------------------------ *)
(** ** Programs *)
(* ------------------------------------------------------------------ *)

Inductive Prog (A : Type) : Type :=
| Ret (a : A)
| Exit (code : Z)
| Raise (e : exn)
| Vis (X : Type) (e : Eff X) (k : X -> Prog A).

Arguments Ret {A} a.
Arguments Exit {A} code.
Arguments Raise {A} e.
Arguments Vis {A X} e k.

Fixpoint bind {A B : Type} (p : Prog A) (f : A -> Prog B) : Prog B :=
  match p with
  | Ret a => f a
  | Exit c => Exit c
  | Raise e => Raise e
  | Vis e k => Vis e (fun x => bind (k x) f)
  end.

Declare Scope prog_scope.

Delimit Scope prog_scope with prog.

Notation "x <- p ;; q" := (bind p (fun x => q))
  (at level 61, p at next level, right associativity) : prog_scope.

Notation "p ;; q" := (bind p (fun _ => q))
  (at level 61, right associativity) : prog_scope.

Open Scope prog_scope.

(** [try: p except ...:] where [h e] is the body of the clause that
    matches [e], if one does.  [sys.exit] is not an [Exception]. *)
Fixpoint try_except {A : Type} (p : Prog A) (h : exn -> option (Prog A)) : Prog A :=
  match p with
  | Ret a => Ret a
  | Exit c => Exit c
  | Raise e => match h e with Some q => q | None => Raise e end
  | Vis e k => Vis e (fun x => try_except (k x) h)
  end.

Definition trigger {X : Type} (e : Eff X) : Prog X := Vis e (fun x => Ret x).

(** A call that returns or raises. *)
Definition raising {X : Type} (e : Eff (X + exn)) : Prog X :=
  Vis e (fun r => match r with inl x => Ret x | inr ex => Raise ex end).

Definition echo (msg : string) : Prog unit := trigger (Echo false msg).

Definition echo_err (msg : string) : Prog unit := trigger (Echo true msg).

Fixpoint for_each {A : Type} (l : list A) (body : A -> Prog unit) : Prog unit :=
  match l with
  | [] => Ret tt
  | a :: rest => body a ;; for_each rest body
  end.

(* ------------------------------------------------------------------ *)
(** ** Running a program *)
(* ------------------------------------------------------------------ *)

Inductive event : Type :=
| Event (X : Type) (e : Eff X) (x : X).

Arguments Event {X} e x.

Inductive outcome (A : Type) : Type :=
| Returned (a : A)
| Exited (code : Z)
| Uncaught (e : exn).

Arguments Returned {A} a.
Arguments Exited {A} code.
Arguments Uncaught {A} e.

(** The exit status of the process: an uncaught exception ends the
    interpreter with status 1. *)
Definition exit_status {A : Type} (o : outcome A) : Z :=
  match o with
  | Returned _ => 0
  | Exited c => c
  | Uncaught _ => 1
  end.

(** The outside world: a state and an answer to every call. *)
Definition handler (W : Type) : Type := forall X : Type, Eff X -> W -> X * W.

Fixpoint run {W A : Type} (h : handler W) (p : Prog A) (w : W) : list event * outcome A * W :=
  match p with
  | Ret a => ([], Returned a, w)
  | Exit c => ([], Exited c, w)
  | Raise e => ([], Uncaught e, w)
  | Vis e k =>
      let '(x, w1) := h _ e w in
      let '(tr, o, w2) := run h (k x) w1 in
      (Event e x :: tr, o, w2)
  end.

Definition trace_of {W A : Type} (r : list event * outcome A * W) : list event := fst (fst r).

Definition outcome_of {W A : Type} (r : list event * outcome A * W) : outcome A := snd (fst r).

Definition world_of {W A : Type} (r : list event * outcome A * W) : W := snd r.

(** [exec p tr o]: some outside world makes [p] perform [tr] and end in [o]. *)
Inductive exec {A : Type} : Prog A -> list event -> outcome A -> Prop :=
| exec_Ret a : exec (Ret a) [] (Returned a)
| exec_Exit c : exec (Exit c) [] (Exited c)
| exec_Raise e : exec (Raise e) [] (Uncaught e)
| exec_Vis X (e : Eff X) k x tr o :
    exec (k x) tr o -> exec (Vis e k) (Event e x :: tr) o.

(* ------------------------------------------------------------------ *)
(** ** Library functions the script calls *)
(* ------------------------------------------------------------------ *)

(** [base64.b64encode], on byte strings. *)
Module Base64.

Definition alphabet : string :=
  "ABCDEFGHIJKLMNOPQRSTUVWXYZabcdefghijklmnopqrstuvwxyz0123456789+/".

Definition digit (n : N) : ascii :=
  match String.get (N.to_nat (n mod 64)) alphabet with
  | Some c => c
  | None => "="%char
  end.

Definition byte (a : ascii) : N := N_of_ascii a.

Fixpoint b64encode (s : string) : string :=
  match s with
  | EmptyString => EmptyString
  | String a EmptyString =>
      let n := (byte a * 65536)%N in
      String (digit (n / 262144)) (String (digit (n / 4096)) "==")
  | String a (String b EmptyString) =>
      let n := (byte a * 65536 + byte b * 256)%N in
      String (digit (n / 262144)) (String (digit (n / 4096)) (String (digit (n / 64)) "="))
  | String a (String b (String c rest)) =>
      let n := (byte a * 65536 + byte b * 256 + byte c)%N in
      String (digit (n / 262144)) (String (digit (n / 4096))
        (String (digit (n / 64)) (String (digit n) (b64encode rest))))
  end.

End Base64.

(** [urllib.parse.ParseResult]. *)
Record parse_result : Type := {
  scheme : string;
  netloc : string;
  path : string
}.

(** [urlunparse] of a scheme, a [netloc] that is not empty, a path, and
    empty parameters, query and fragment, which is how the script calls
    it. *)
Definition urlunparse (scheme netloc path : string) : string :=
  let url := if (PyStr.truthy path && negb (PyStr.startswith path "/"))%bool
             then "/" ++ path else path in
  let url := "//" ++ netloc ++ url in
  if PyStr.truthy scheme then scheme ++ ":" ++ url else url.

(** [int(t)] for a [float] read from the clock: the fraction is dropped. *)
Definition py_int (t : Q) : Z := Z.quot (Qnum t) (Zpos (Qden t)).

(* ------------------------------------------------------------------ *)
(** ** The script *)
(* ------------------------------------------------------------------ *)

Section Script.

(** [repr] of a list or dictionary, and [urllib.parse.urlparse]: library
    functions the script relies on and whose results no property below
    depends on. *)
Variable py_repr : value -> string.

Variable urlparse : string -> parse_result + exn.

(** What an f-string prints for [v]. *)
Definition py_str (v : value) : string :=
  match v with
  | VNone => "None"
  | VBool true => "True"
  | VBool false => "False"
  | VInt n => PyStr.of_int n
  | VStr s => s
  | VList _ | VDict _ => py_repr v
  end.

(** [v.get(key, default)]: only a [dict] has the method. *)
Definition dict_get (v : value) (key : string) (default : value) : Prog value :=
  match v with
  | VDict items =>
      Ret (match Py.lookup key items with Some x => x | None => default end)
  | _ => Raise AttributeError
  end.

(** [response.json()]. *)
Definition json (response : http_response) : Prog value :=
  match json_body response with
  | Some v => Ret v
  | None => Raise JSONDecodeError
  end.

(** [requests.get], [.post], [.delete]: no timeout. *)
Definition requests (m : method) (forgejo_url : string) (ep : endpoint)
    (creds : credentials) (body : option value) (verify_tls : bool) : Prog http_response :=
  raising (Http {| rq_method := m; rq_base := forgejo_url; rq_endpoint := ep;
                   rq_creds := creds; rq_json := body; rq_verify := verify_tls;
                   rq_timeout := None |}).

(** [subprocess.run(argv, capture_output=True, ...)].  With [check=True] a
    non-zero return code is raised by [subprocess.run] itself, as a
    [CalledProcessError]: it is an answer of the outside world. *)
Definition subprocess_run (args : list string) (input : option string)
    (dir : option string) (chk : bool) : Prog completed :=
  raising (Subprocess {| argv := args; stdin := input; cwd := dir; check := chk |}).

(** [status in (201, 200)] and the like. *)
Definition status_in (status : Z) (accepted : list Z) : bool :=
  existsb (Z.eqb status) accepted.

(** [headers = {"Authorization": f"token {token}", "Content-Type": ...}]. *)
Definition token_headers (token : value) : credentials :=
  Headers ("token " ++ py_str token) "application/json".

(** *** [validate_required_config] *)

Definition required_fields : list (string * list string) :=
  [ ("forgejo_url",
     ["GITEA_PASS_SECRET_FOLDER/api-url"; "GITEA_SECRET_FOLDER/api-url";
      "TEST_GITEA_API_URL"; "--forgejo-url"]);
    ("username",
     ["GITEA_PASS_SECRET_FOLDER/username"; "GITEA_SECRET_FOLDER/username";
      "TEST_GITEA_USERNAME"; "--username"]);
    ("password",
     ["GITEA_PASS_SECRET_FOLDER/password"; "GITEA_SECRET_FOLDER/password";
      "TEST_GITEA_PASSWORD"; "--password"]);
    ("repo_owner",
     ["GITEA_PASS_SECRET_FOLDER/repo-owner"; "GITEA_SECRET_FOLDER/repo-owner";
      "TEST_GITEA_REPO_OWNER"; "--repo-owner"]) ].

Definition config : Type := list (string * option string).

(** [config.get(field)]. *)
Fixpoint config_get (c : config) (field : string) : option string :=
  match c with
  | [] => None
  | (k, v) :: rest => if String.eqb k field then v else config_get rest field
  end.

Definition missing (c : config) : list (string * list string) :=
  filter (fun fs => negb (PyStr.truthy_opt (config_get c (fst fs)))) required_fields.

Definition validate_required_config (c : config) : Prog unit :=
  match missing c with
  | [] => Ret tt
  | missing_fields =>
      echo_err "Error: Missing required configuration:" ;;
      for_each missing_fields (fun fs =>
        echo_err (PyStr.nl ++ "  " ++ fst fs ++ " can be provided via:") ;;
        for_each (snd fs) (fun source => echo_err ("    - " ++ source))) ;;
      Exit 1
  end.

(** A configuration value used as a [str]: once the validation has
    returned it is one; on [None] Python raises. *)
Definition as_str (v : option string) : Prog string :=
  match v with
  | Some s => Ret s
  | None => Raise AttributeError
  end.

(** *** [generate_branch_name] *)

Definition generate_branch_name : Prog string :=
  t <- trigger Now ;;
  Ret ("pac-test-" ++ PyStr.of_int (py_int t)).

(** *** [create_file_on_branch] *)

Definition create_file_on_branch (forgejo_url : string) (headers : credentials)
    (owner repo filepath content branch base_branch message : string)
    (verify_tls : bool) : Prog value :=
  let encoded_content := Base64.b64encode content in
  let file_data :=
    VDict [("content", VStr encoded_content); ("message", VStr message);
           ("branch", VStr base_branch); ("new_branch", VStr branch)] in
  response <- requests POST forgejo_url (EpContents owner repo filepath) headers
                (Some file_data) verify_tls ;;
  if negb (status_in (status_code response) [201; 200]) then
    echo_err ("Error creating file: " ++ PyStr.of_int (status_code response)
              ++ " " ++ text response) ;;
    Ret VNone
  else json response.

(** *** [create_pull_request_api] *)

Definition create_pull_request_api (forgejo_url : string) (headers : credentials)
    (owner repo title head base : string) (verify_tls : bool) : Prog value :=
  let pr_data :=
    VDict [("title", VStr title); ("head", VStr head); ("base", VStr base)] in
  response <- requests POST forgejo_url (EpPulls owner repo) headers
                (Some pr_data) verify_tls ;;
  if negb (status_in (status_code response) [201; 200]) then
    echo_err ("Error creating pull request: " ++ PyStr.of_int (status_code response)
              ++ " " ++ text response) ;;
    Ret VNone
  else json response.

(** *** [create_access_token] *)

(** The [for token in tokens] loop, which stops at the first match. *)
Fixpoint delete_existing_token (forgejo_url : string) (auth : string * string)
    (name : string) (verify_tls : bool) (tokens : list value) : Prog unit :=
  match tokens with
  | [] => Ret tt
  | token :: rest =>
      token_name <- dict_get token "name" VNone ;;
      if Py.eq_str token_name name then
        token_id <- dict_get token "id" VNone ;;
        requests DELETE forgejo_url (EpUserToken (fst auth) (py_str token_id))
          (BasicAuth (fst auth) (snd auth)) None verify_tls ;;
        echo ("Deleted existing token: " ++ name)
      else delete_existing_token forgejo_url auth name verify_tls rest
  end.

Definition create_access_token (forgejo_url : string) (auth : string * string)
    (name : string) (verify_tls : bool) : Prog value :=
  try_except
    (response <- requests GET forgejo_url (EpUserTokens (fst auth))
                   (BasicAuth (fst auth) (snd auth)) None verify_tls ;;
     if status_code response =? 200 then
       tokens <- json response ;;
       match Py.iter tokens with
       | Some l => delete_existing_token forgejo_url auth name verify_tls l
       | None => Raise TypeError
       end
     else Ret tt)
    (fun _ => Some (Ret tt)) ;;
  let token_data := VDict [("name", VStr name); ("scopes", VList [VStr "all"])] in
  response <- requests POST forgejo_url (EpUserTokens (fst auth))
                (BasicAuth (fst auth) (snd auth)) (Some token_data) verify_tls ;;
  if status_in (status_code response) [201; 200] then
    body <- json response ;;
    dict_get body "sha1" VNone
  else
    echo ("Warning: Could not create token (status "
          ++ PyStr.of_int (status_code response) ++ "), using password as fallback") ;;
    Ret (VStr (snd auth)).

(** *** [create_webhook] *)

Definition create_webhook (forgejo_url : string) (headers : credentials)
    (owner repo hook_url : string) (verify_tls : bool) : Prog unit :=
  let webhook_data :=
    VDict [("type", VStr "forgejo"); ("active", VBool true);
           ("config", VDict [("url", VStr hook_url); ("content_type", VStr "json")]);
           ("events", VList [VStr "push"; VStr "issue_comment"; VStr "pull_request"])] in
  response <- requests POST forgejo_url (EpHooks owner repo) headers
                (Some webhook_data) verify_tls ;;
  if status_code response =? 201 then echo ("Webhook created: " ++ hook_url)
  else echo ("Warning: Could not create webhook (status "
             ++ PyStr.of_int (status_code response) ++ ")").

(** *** [create_pac_resources] *)

Definition kubectl_create_namespace (namespace : string) : list string :=
  ["kubectl"; "create"; "namespace"; namespace].

Definition kubectl_delete_secret (namespace repo_name : string) : list string :=
  ["kubectl"; "delete"; "secret"; repo_name; "-n"; namespace; "--ignore-not-found=true"].

Definition kubectl_create_secret (namespace repo_name : string) (token : value) : list string :=
  ["kubectl"; "create"; "secret"; "generic"; repo_name;
   "--from-literal=token=" ++ py_str token; "-n"; namespace].

Definition kubectl_delete_repository (namespace repo_name : string) : list string :=
  ["kubectl"; "delete"; "repository"; repo_name; "-n"; namespace;
   "--ignore-not-found=true"].

Definition kubectl_apply : list string := ["kubectl"; "apply"; "-f"; "-"].

Definition repository_yaml (namespace repo_name : string) (repo_url : value)
    (internal_url : string) : string :=
  "apiVersion: pipelinesascode.tekton.dev/v1alpha1" ++ PyStr.nl ++
  "kind: Repository" ++ PyStr.nl ++
  "metadata:" ++ PyStr.nl ++
  "  name: " ++ repo_name ++ PyStr.nl ++
  "  namespace: " ++ namespace ++ PyStr.nl ++
  "spec:" ++ PyStr.nl ++
  "  url: " ++ py_str repo_url ++ PyStr.nl ++
  "  git_provider:" ++ PyStr.nl ++
  "    type: gitea" ++ PyStr.nl ++
  "    url: " ++ internal_url ++ PyStr.nl ++
  "    secret:" ++ PyStr.nl ++
  "      name: " ++ repo_name ++ PyStr.nl ++
  "      key: token" ++ PyStr.nl.

Definition kubectl_not_found : string :=
  "Error: kubectl not found. Please install kubectl or use --no-create-pac-cr".

Definition create_pac_resources (namespace repo_name : string) (repo_url : value)
    (internal_url : string) (token : value) : Prog unit :=
  echo ("Creating PAC resources in namespace: " ++ namespace) ;;
  proceed <-
    try_except
      (result <- subprocess_run (kubectl_create_namespace namespace) None None false ;;
       (if returncode result =? 0 then
          echo ("Namespace " ++ namespace ++ " created")
        else if PyStr.contains "AlreadyExists" (stderr result) then
          echo ("Namespace " ++ namespace ++ " already exists")
        else
          echo_err ("Warning: Could not create namespace: " ++ stderr result)) ;;
       Ret true)
      (fun e => match e with
                | FileNotFoundError => Some (echo_err kubectl_not_found ;; Ret false)
                | _ => None
                end) ;;
  if negb proceed then Ret tt
  else
    subprocess_run (kubectl_delete_secret namespace repo_name) None None false ;;
    result <- subprocess_run (kubectl_create_secret namespace repo_name token)
                None None false ;;
    if returncode result =? 0 then
      echo ("Secret " ++ repo_name ++ " created in namespace " ++ namespace) ;;
      subprocess_run (kubectl_delete_repository namespace repo_name) None None false ;;
      result <- subprocess_run kubectl_apply
                  (Some (repository_yaml namespace repo_name repo_url internal_url))
                  None false ;;
      if returncode result =? 0 then
        echo ("Repository CR " ++ repo_name ++ " created in namespace " ++ namespace)
      else
        echo_err ("Error creating Repository CR: " ++ stderr result)
    else
      echo_err ("Error creating secret: " ++ stderr result).

(** *** The commands *)

(** [ctx.obj], as the [cli] group leaves it. *)
Record context : Type := {
  ctx_forgejo_url : option string;
  ctx_username : option string;
  ctx_password : option string;
  ctx_repo_owner : option string;
  ctx_skip_tls : bool;
  ctx_smee_url : option string;
  ctx_internal_url : option string;
  ctx_webhook_url : string
}.

Definition required_config (ctx : context) : config :=
  [("forgejo_url", ctx_forgejo_url ctx); ("username", ctx_username ctx);
   ("password", ctx_password ctx); ("repo_owner", ctx_repo_owner ctx)].

(** [repo_owner.split("/")[0] if "/" in repo_owner else repo_owner]. *)
Definition owner_of (repo_owner : string) : string :=
  if PyStr.contains "/" repo_owner then PyStr.split_head "/" repo_owner else repo_owner.

Definition default_internal_url : string := "http://forgejo-http.forgejo:3000".

Definition token_failed : string := "Error: Failed to create access token".

(** The arguments and options of [repo]. *)
Record repo_options : Type := {
  repo : string;
  target_ns : string;
  local_repo : string;
  on_org : bool;
  smee_url : string;
  internal_url : string;
  create_pac_cr : bool
}.

Definition repo_command (ctx : context) (a : repo_options) : Prog unit :=
  let repo := repo a in
  let skip_tls := ctx_skip_tls ctx in
  let webhook_url := ctx_webhook_url ctx in
  let smee_url :=
    if (negb (PyStr.truthy (smee_url a)) && PyStr.truthy_opt (ctx_smee_url ctx))%bool
    then match ctx_smee_url ctx with Some s => s | None => smee_url a end
    else smee_url a in
  let internal_url :=
    if (String.eqb (internal_url a) default_internal_url
        && PyStr.truthy_opt (ctx_internal_url ctx))%bool
    then match ctx_internal_url ctx with Some s => s | None => internal_url a end
    else internal_url a in
  let effective_webhook_url := if PyStr.truthy webhook_url then webhook_url else smee_url in
  validate_required_config (required_config ctx) ;;
  forgejo_url <- as_str (ctx_forgejo_url ctx) ;;
  username <- as_str (ctx_username ctx) ;;
  password <- as_str (ctx_password ctx) ;;
  repo_owner <- as_str (ctx_repo_owner ctx) ;;
  let forgejo_url := PyStr.rstrip "/" forgejo_url in
  let verify_tls := negb skip_tls in
  (if skip_tls then trigger FilterWarnings else Ret tt) ;;
  (if PyStr.startswith forgejo_url "http://" then
     try_except
       (test_response <-
          raising (Http {| rq_method := HEAD; rq_base := forgejo_url;
                           rq_endpoint := EpBase; rq_creds := NoCredentials;
                           rq_json := None; rq_verify := verify_tls;
                           rq_timeout := Some 5 |}) ;;
        if (PyStr.startswith (final_url test_response) "https://" && negb skip_tls)%bool
        then echo_err "Warning: HTTP redirects to HTTPS. If you have certificate issues, set TEST_GITEA_SKIP_TLS=true"
        else Ret tt)
       (fun e => match e with
                 | SSLError =>
                     Some (echo_err "Error: SSL certificate verification failed." ;;
                           echo_err "Hint: Set TEST_GITEA_SKIP_TLS=true to skip TLS verification" ;;
                           Exit 1)
                 | _ => Some (Ret tt)
                 end)
   else Ret tt) ;;
  let owner := owner_of repo_owner in
  let auth := (username, password) in
  echo "Creating access token..." ;;
  token <- create_access_token forgejo_url auth repo verify_tls ;;
  (if negb (Py.truthy token) then echo_err token_failed ;; Exit 1 else Ret tt) ;;
  let headers := token_headers token in
  response <- requests DELETE forgejo_url (EpRepo owner repo) headers None verify_tls ;;
  (if status_code response =? 204
   then echo ("Repository " ++ owner ++ "/" ++ repo ++ " deleted")
   else Ret tt) ;;
  let create_ep := if on_org a then EpOrgRepos owner else EpUserRepos in
  let repo_data :=
    VDict [("name", VStr repo); ("private", VBool false); ("auto_init", VBool true);
           ("description", VStr "This is a repo it's a wonderful thing")] in
  response <- requests POST forgejo_url create_ep headers (Some repo_data) verify_tls ;;
  (if negb (status_in (status_code response) [201; 409]) then
     echo_err ("Error creating repository: " ++ PyStr.of_int (status_code response)
               ++ " " ++ text response) ;;
     Exit 1
   else Ret tt) ;;
  repo_info <- json response ;;
  html_url <- dict_get repo_info "html_url" (VStr EmptyString) ;;
  clone_url <- dict_get repo_info "clone_url" (VStr EmptyString) ;;
  echo ("Repository created: " ++ py_str html_url) ;;
  (if PyStr.truthy effective_webhook_url
   then create_webhook forgejo_url headers owner repo effective_webhook_url verify_tls
   else Ret tt) ;;
  let namespace := if PyStr.truthy (target_ns a) then target_ns a else repo in
  (if create_pac_cr a
   then create_pac_resources namespace repo html_url internal_url token
   else Ret tt) ;;
  parsed <- match clone_url with
            | VStr s => match urlparse s with inl p => Ret p | inr e => Raise e end
            | v => Raise (if Py.truthy v then AttributeError else TypeError)
            end ;;
  let auth_url :=
    urlunparse (scheme parsed) ("git:" ++ password ++ "@" ++ netloc parsed) (path parsed) in
  let local_checkout := if PyStr.truthy (local_repo a) then local_repo a else "/tmp/" ++ repo in
  exists_ <- trigger (PathExists local_checkout) ;;
  if exists_ : bool then
    echo ("Directory " ++ local_checkout ++ " already exists, skipping clone") ;;
    echo (PyStr.nl ++ "Local Checkout Directory: " ++ local_checkout) ;;
    echo ("Forgejo Repository URL: " ++ py_str html_url)
  else
    try_except
      (subprocess_run ["git"; "clone"; auth_url; local_checkout] None None true ;;
       echo ("Repository cloned to: " ++ local_checkout) ;;
       subprocess_run ["git"; "checkout"; "-b"; "tektonci"] None (Some local_checkout) true ;;
       echo "Created branch: tektonci")
      (fun e => match e with
                | CalledProcessError _ err msg =>
                    Some (echo_err ("Error during git operations: " ++ msg) ;;
                          (if PyStr.truthy_opt err
                           then echo_err (match err with Some s => s | None => EmptyString end)
                           else Ret tt) ;;
                          Exit 1)
                | _ => None
                end) ;;
    echo (PyStr.nl ++ "Local Checkout Directory: " ++ local_checkout) ;;
    echo ("Forgejo Repository URL: " ++ py_str html_url).

(** The arguments and options of [pr]. *)
Record pr_options : Type := {
  pr_repo : string;
  target_branch : string;
  title : string;
  pipelinerun_file : string;
  no_open : bool
}.

Definition pr_command (ctx : context) (a : pr_options) : Prog unit :=
  let repo := pr_repo a in
  let target_branch := target_branch a in
  let skip_tls := ctx_skip_tls ctx in
  validate_required_config (required_config ctx) ;;
  forgejo_url <- as_str (ctx_forgejo_url ctx) ;;
  username <- as_str (ctx_username ctx) ;;
  password <- as_str (ctx_password ctx) ;;
  repo_owner <- as_str (ctx_repo_owner ctx) ;;
  let forgejo_url := PyStr.rstrip "/" forgejo_url in
  let verify_tls := negb skip_tls in
  (if skip_tls then trigger FilterWarnings else Ret tt) ;;
  let owner := owner_of repo_owner in
  let auth := (username, password) in
  echo "Creating access token..." ;;
  token <- create_access_token forgejo_url auth (repo ++ "-pr") verify_tls ;;
  (if negb (Py.truthy token) then echo_err token_failed ;; Exit 1 else Ret tt) ;;
  let headers := token_headers token in
  branch_name <- generate_branch_name ;;
  exists_ <- trigger (PathExists (pipelinerun_file a)) ;;
  (if negb exists_ then
     echo_err ("Error: PipelineRun file not found: " ++ pipelinerun_file a) ;; Exit 1
   else Ret tt) ;;
  pipelinerun_content <- raising (ReadText (pipelinerun_file a)) ;;
  echo ("Creating branch '" ++ branch_name ++ "' with PipelineRun file...") ;;
  result <- create_file_on_branch forgejo_url headers owner repo ".tekton/pr-noop.yaml"
              pipelinerun_content branch_name target_branch "Add Tekton PipelineRun"
              verify_tls ;;
  (if negb (Py.truthy result) then
     echo_err "Error: Failed to create file on branch" ;; Exit 1
   else Ret tt) ;;
  echo ("File created on branch: " ++ branch_name) ;;
  let title := if negb (PyStr.truthy (title a)) then "Test PR - " ++ branch_name else title a in
  echo "Creating pull request..." ;;
  pr <- create_pull_request_api forgejo_url headers owner repo title branch_name
          target_branch verify_tls ;;
  (if negb (Py.truthy pr) then
     echo_err "Error: Failed to create pull request" ;; Exit 1
   else Ret tt) ;;
  pr_url <- dict_get pr "html_url" (VStr EmptyString) ;;
  pr_number <- dict_get pr "number" (VStr EmptyString) ;;
  (if negb (no_open a) then trigger (OpenBrowser pr_url) ;; Ret tt else Ret tt) ;;
  echo (PyStr.nl ++ "Pull Request Created!") ;;
  echo ("PR Number: " ++ py_str pr_number) ;;
  echo ("PR URL: " ++ py_str pr_url) ;;
  echo ("Branch: " ++ branch_name) ;;
  echo ("Target Branch: " ++ target_branch).

Definition destination_is_file (destination : string) : string :=
  "Error: Destination " ++ destination ++ " is a file".

Definition destination_not_empty : string :=
  "Error: Destination already exists and is not empty".

Definition checkout_command (ctx : context) (repo destination : string) : Prog unit :=
  let skip_tls := ctx_skip_tls ctx in
  validate_required_config (required_config ctx) ;;
  forgejo_url <- as_str (ctx_forgejo_url ctx) ;;
  username <- as_str (ctx_username ctx) ;;
  password <- as_str (ctx_password ctx) ;;
  repo_owner <- as_str (ctx_repo_owner ctx) ;;
  let forgejo_url := PyStr.rstrip "/" forgejo_url in
  let verify_tls := negb skip_tls in
  (if skip_tls then trigger FilterWarnings else Ret tt) ;;
  let '(owner, repo_name) :=
    if PyStr.contains "/" repo then
      match PyStr.partition "/" repo with
      | (o, Some r) => (o, r)
      | (o, None) => (o, EmptyString)
      end
    else (owner_of repo_owner, repo) in
  dest_path <- trigger (PathResolve destination) ;;
  exists_ <- trigger (PathExists dest_path) ;;
  (if exists_ : bool then
     is_file <- trigger (PathIsFile dest_path) ;;
     (if is_file : bool then echo_err (destination_is_file destination) ;; Exit 1
      else Ret tt) ;;
     any_entry <- raising (PathIterAny dest_path) ;;
     if any_entry : bool then echo_err destination_not_empty ;; Exit 1 else Ret tt
   else raising (MkdirParents dest_path)) ;;
  let auth := (username, password) in
  echo "Creating access token..." ;;
  token <- create_access_token forgejo_url auth ("checkout-" ++ repo_name) verify_tls ;;
  (if negb (Py.truthy token) then echo_err token_failed ;; Exit 1 else Ret tt) ;;
  parsed <- match urlparse forgejo_url with inl p => Ret p | inr e => Raise e end ;;
  let clone_url :=
    scheme parsed ++ "://" ++ netloc parsed ++ "/" ++ owner ++ "/" ++ repo_name ++ ".git" in
  let auth_url :=
    urlunparse (scheme parsed) ("git:" ++ py_str token ++ "@" ++ netloc parsed)
      ("/" ++ owner ++ "/" ++ repo_name ++ ".git") in
  try_except
    (echo ("Cloning " ++ owner ++ "/" ++ repo_name ++ " to " ++ destination ++ "...") ;;
     subprocess_run ["git"; "clone"; auth_url; dest_path] None None true ;;
     echo ("Repository cloned successfully to: " ++ destination) ;;
     echo ("Repository URL: " ++ clone_url))
    (fun e => match e with
              | CalledProcessError _ err msg =>
                  Some (echo_err ("Error cloning repository: " ++ msg) ;;
                        (match err with
                         | Some error_msg =>
                             if PyStr.truthy error_msg then
                               echo_err error_msg ;;
                               if (PyStr.contains "not found" (PyStr.lower error_msg)
                                   || PyStr.contains "repository not found" (PyStr.lower error_msg))%bool
                               then echo_err (PyStr.nl ++ "Repository " ++ owner ++ "/"
                                              ++ repo_name ++ " may not exist")
                               else Ret tt
                             else Ret tt
                         | None => Ret tt
                         end) ;;
                        Exit 1)
              | _ => None
              end).

End Script.

Arguments validate_required_config : simpl never.
Arguments create_access_token : simpl never.
Arguments create_webhook : simpl never.
Arguments create_pac_resources : simpl never.
Arguments create_file_on_branch : simpl never.
Arguments create_pull_request_api : simpl never.
Arguments generate_branch_name : simpl never.
Arguments String.append : simpl never.
Arguments PyStr.of_int : simpl never.
Arguments PyStr.contains : simpl never.
Arguments PyStr.rstrip : simpl never.
Arguments PyStr.startswith : simpl never.
Arguments PyStr.truthy : simpl never.
Arguments owner_of : simpl never.
Arguments urlunparse : simpl never.
Arguments repository_yaml : simpl never.
Arguments Base64.b64encode : simpl never.
Arguments status_in : simpl never.

Open Scope list_scope.

Unset Implicit Arguments.

(* ------------------------------------------------------------------ *)
(** ** Loading the configuration *)
(* ------------------------------------------------------------------ *)

Section Configuration.

(** [str(Path(folder) / key)], the join of [pathlib], and [s.strip()]:
    two library functions; what is proved of the code below holds
    whatever they return. *)
Variable path_join : string -> string -> string.
Variable strip : string -> string.

(** *** [read_secret] *)

Definition pass_show (folder key : string) : list string :=
  ["pass"; "show"; folder ++ "/" ++ key]%string.

(** A [return] inside the [try] block hands the secret back; every other
    path, an exception included, ends at the final [return None]. *)
Definition read_secret (folder key method : string) : Prog (option string) :=
  try_except
    (if String.eqb method "pass" then
       result <- subprocess_run (pass_show folder key) None None false ;;
       if returncode result =? 0 then Ret (Some (strip (stdout result)))
       else Ret None
     else
       let secret_path := path_join folder key in
       exists_ <- trigger (PathExists secret_path) ;;
       is_file <- (if exists_ : bool then trigger (PathIsFile secret_path) else Ret false) ;;
       if is_file : bool then
         content <- raising (ReadText secret_path) ;;
         let content := strip content in
         if PyStr.truthy content then Ret (Some content) else Ret None
       else Ret None)
    (fun _ => Some (Ret None)).

(** *** [load_secrets_from_folder] *)

(** The names of the secrets and the keys they are stored under, in the
    order of the dictionary. *)
Definition secret_mappings : list (string * string) :=
  [ ("api-url", "api_url"); ("username", "username"); ("password", "password");
    ("repo-owner", "repo_owner"); ("smee", "smee_url"); ("skip-tls", "skip_tls");
    ("internal-url", "internal_url") ]%string.

(** [d[key] = v]. *)
Fixpoint dict_set (d : list (string * value)) (key : string) (v : value)
    : list (string * value) :=
  match d with
  | [] => [(key, v)]
  | (k, x) :: rest =>
      if String.eqb k key then (k, v) :: rest else (k, x) :: dict_set rest key v
  end.

(** [v.lower() in ("true", "1", "yes")]. *)
Definition is_yes (v : string) : bool :=
  existsb (String.eqb (PyStr.lower v)) ["true"; "1"; "yes"]%string.

(** The [for file_key, config_key in secret_mappings.items()] loop. *)
Fixpoint load_each (folder method : string) (mappings : list (string * string))
    (secrets : list (string * value)) : Prog (list (string * value)) :=
  match mappings with
  | [] => Ret secrets
  | (file_key, config_key) :: rest =>
      found <- read_secret folder file_key method ;;
      load_each folder method rest
        (match found with
         | Some v =>
             if PyStr.truthy v then
               if String.eqb config_key "skip_tls"
               then dict_set secrets config_key (VBool (is_yes v))
               else dict_set secrets config_key (VStr v)
             else secrets
         | None => secrets
         end)
  end.

(** A folder that is given: neither [None] nor empty. *)
Definition given (folder : option string) : option string :=
  match folder with
  | Some f => if PyStr.truthy f then Some f else None
  | None => None
  end.

Definition load_secrets_from_folder (pass_folder secret_folder : option string)
    : Prog (list (string * value)) :=
  match given pass_folder, given secret_folder with
  | None, None => Ret []
  | Some folder, _ => load_each folder "pass" secret_mappings []
  | None, Some folder => load_each folder "cat" secret_mappings []
  end.

(** *** [cli] *)

(** What the group reads of the process environment: the two folder
    variables and the result of [shutil.which("pass")]. *)
Record environment : Type := {
  GITEA_PASS_SECRET_FOLDER : option string;
  GITEA_SECRET_FOLDER : option string;
  which_pass : option string
}.

(** The options of the group, as [click] hands them over: from the
    command line or from the variable of the option. *)
Record cli_options : Type := {
  opt_forgejo_url : option string;
  opt_username : option string;
  opt_password : option string;
  opt_repo_owner : option string;
  opt_skip_tls : bool;
  opt_webhook_url : string
}.

Definition of_opt (s : option string) : value :=
  match s with Some t => VStr t | None => VNone end.

(** [d.get(key, default)] on a dictionary. *)
Definition get (d : list (string * value)) (key : string) (default : value) : value :=
  match Py.lookup key d with Some v => v | None => default end.

(** [a or b]. *)
Definition py_or (a b : value) : value := if Py.truthy a then a else b.

(** The group callback; the result is [ctx.obj]. *)
Definition cli (env : environment) (o : cli_options) : Prog (list (string * value)) :=
  let pass_folder := GITEA_PASS_SECRET_FOLDER env in
  let secret_folder := GITEA_SECRET_FOLDER env in
  (if (PyStr.truthy_opt pass_folder && negb (PyStr.truthy_opt (which_pass env)))%bool then
     echo_err "Error: GITEA_PASS_SECRET_FOLDER is set but 'pass' command not found" ;;
     echo_err "Install pass (password-store) or use GITEA_SECRET_FOLDER instead" ;;
     Exit 1
   else Ret tt) ;;
  folder_secrets <- load_secrets_from_folder pass_folder secret_folder ;;
  Ret [ ("forgejo_url",
         py_or (get folder_secrets "api_url" VNone) (of_opt (opt_forgejo_url o)));
        ("username",
         py_or (get folder_secrets "username" VNone) (of_opt (opt_username o)));
        ("password",
         py_or (get folder_secrets "password" VNone) (of_opt (opt_password o)));
        ("repo_owner",
         py_or (get folder_secrets "repo_owner" VNone) (of_opt (opt_repo_owner o)));
        ("skip_tls", get folder_secrets "skip_tls" (VBool (opt_skip_tls o)));
        ("smee_url", get folder_secrets "smee_url" VNone);
        ("internal_url", get folder_secrets "internal_url" VNone);
        ("webhook_url", VStr (opt_webhook_url o)) ]%string.

End Configuration.

Arguments read_secret : simpl never.

(* ------------------------------------------------------------------ *)
(** ** Reading traces *)
(* ------------------------------------------------------------------ *)

(** The request and the answer of an HTTP event. *)
Definition http_of (ev : event) : option (http_request * (http_response + exn)) :=
  match ev with
  | Event e x =>
      match e in Eff X return X -> option (http_request * (http_response + exn)) with
      | Http r => fun x => Some (r, x)
      | _ => fun _ => None
      end x
  end.

(** The call and the answer of a subprocess event. *)
Definition proc_of (ev : event) : option (proc_call * (completed + exn)) :=
  match ev with
  | Event e x =>
      match e in Eff X return X -> option (proc_call * (completed + exn)) with
      | Subprocess c => fun x => Some (c, x)
      | _ => fun _ => None
      end x
  end.

(** The stream and the text of an [echo]. *)
Definition echo_of (ev : event) : option (bool * string) :=
  match ev with
  | Event e _ =>
      match e with
      | Echo err msg => Some (err, msg)
      | _ => None
      end
  end.

Definition is_http (ev : event) : bool :=
  match http_of ev with Some _ => true | None => false end.

Definition is_subprocess (ev : event) : bool :=
  match proc_of ev with Some _ => true | None => false end.

Definition is_echo (ev : event) : bool :=
  match echo_of ev with Some _ => true | None => false end.

Definition method_eqb (m1 m2 : method) : bool :=
  match m1, m2 with
  | GET, GET | POST, POST | DELETE, DELETE | HEAD, HEAD => true
  | _, _ => false
  end.

(** An HTTP request with method [m] to an endpoint accepted by [on]. *)
Definition is_request (m : method) (on : endpoint -> bool) (ev : event) : bool :=
  match http_of ev with
  | Some (rq, _) => (method_eqb (rq_method rq) m && on (rq_endpoint rq))%bool
  | None => false
  end.

Definition ep_tokens (ep : endpoint) : bool :=
  match ep with EpUserTokens _ => true | _ => false end.

Definition ep_repo (ep : endpoint) : bool :=
  match ep with EpRepo _ _ => true | _ => false end.

Definition ep_create_repo (ep : endpoint) : bool :=
  match ep with EpOrgRepos _ | EpUserRepos => true | _ => false end.

Definition ep_pulls (ep : endpoint) : bool :=
  match ep with EpPulls _ _ => true | _ => false end.

(** The request that creates a token. *)
Definition is_token_post : event -> bool := is_request POST ep_tokens.

(** The request that deletes the repository. *)
Definition is_repo_delete : event -> bool := is_request DELETE ep_repo.

(** The request that creates the repository. *)
Definition is_repo_create : event -> bool := is_request POST ep_create_repo.

(** The request that creates the pull request. *)
Definition is_pull_post : event -> bool := is_request POST ep_pulls.

(** A [kubectl] call. *)
Definition is_kubectl (ev : event) : bool :=
  match proc_of ev with
  | Some (c, _) => match argv c with
                   | prog :: _ => String.eqb prog "kubectl"
                   | [] => false
                   end
  | None => false
  end.

(** The trace from the first event that satisfies [P] on. *)
Fixpoint from_first (P : event -> bool) (tr : list event) : list event :=
  match tr with
  | [] => []
  | ev :: rest => if P ev then tr else from_first P rest
  end.

(** No event of the trace satisfies [P]. *)
Definition never (P : event -> bool) (tr : list event) : bool :=
  forallb (fun ev => negb (P ev)) tr.

(* ------------------------------------------------------------------ *)
(** ** Scripted outside worlds, for the examples *)
(* ------------------------------------------------------------------ *)

Module Sim.

(** A world without memory: every call is answered from a table. *)
Record world : Type := {
  http : http_request -> http_response + exn;
  proc : proc_call -> completed + exn;
  clock : Q;
  path_exists : string -> bool;
  path_is_file : string -> bool;
  path_nonempty : string -> bool;
  read_text : string -> string + exn
}.

Definition answer (s : world) : handler unit :=
  fun X e w =>
    match e in Eff X return X * unit with
    | Echo _ _ => (tt, w)
    | Http r => (http s r, w)
    | Subprocess c => (proc s c, w)
    | Now => (clock s, w)
    | PathExists p => (path_exists s p, w)
    | PathIsFile p => (path_is_file s p, w)
    | PathIterAny p => (inl (path_nonempty s p), w)
    | PathResolve p => (p, w)
    | MkdirParents _ => (inl tt, w)
    | ReadText p => (read_text s p, w)
    | OpenBrowser _ => (true, w)
    | FilterWarnings => (tt, w)
    end.

(** Stand-ins for the two library functions: a fixed text for [repr], and
    a parser of plain [scheme://host/path] addresses. *)
Definition repr (_ : value) : string := "<object>"%string.

Definition urlparse (s : string) : parse_result + exn :=
  match PyStr.partition ":" s with
  | (sch, Some rest) =>
      if PyStr.startswith rest "//" then
        match PyStr.partition "/" (substring 2 (String.length rest - 2) rest) with
        | (host, Some p) => inl {| scheme := sch; netloc := host; path := String "/" p |}
        | (host, None) => inl {| scheme := sch; netloc := host; path := EmptyString |}
        end
      else inl {| scheme := sch; netloc := EmptyString; path := rest |}
  | (_, None) => inl {| scheme := EmptyString; netloc := EmptyString; path := s |}
  end.

Definition ok (status : Z) (body : option value) : http_response + exn :=
  inl {| status_code := status; text := EmptyString; json_body := body;
         final_url := EmptyString |}.

Definition done (rc : Z) (err : string) : completed + exn :=
  inl {| returncode := rc; stdout := EmptyString; stderr := err |}.

(** A complete configuration. *)
Definition ctx : context :=
  {| ctx_forgejo_url := Some "http://forge:3000/"%string;
     ctx_username := Some "alice"%string;
     ctx_password := Some "pw"%string;
     ctx_repo_owner := Some "alice"%string;
     ctx_skip_tls := false;
     ctx_smee_url := None;
     ctx_internal_url := None;
     ctx_webhook_url := EmptyString |}.

(** [repo demo], with the defaults of the options. *)
Definition demo : repo_options :=
  {| repo := "demo"; target_ns := EmptyString; local_repo := EmptyString;
     on_org := false; smee_url := EmptyString;
     internal_url := default_internal_url; create_pac_cr := true |}.

End Sim.

Module TokenExamples.

(** A forge that lists no token and answers the token request with
    [status] and a body that carries a secret. *)
Definition forge (status : Z) (body : option value) : Sim.world :=
  {| Sim.http := fun r =>
       match rq_method r with
       | POST => Sim.ok status body
       | _ => Sim.ok 200 (Some (VList []))
       end;
     Sim.proc := fun _ => inr FileNotFoundError;
     Sim.clock := 0;
     Sim.path_exists := fun _ => true;
     Sim.path_is_file := fun _ => false;
     Sim.path_nonempty := fun _ => false;
     Sim.read_text := fun _ => inl EmptyString |}.

Definition secret : list (string * value) := [("sha1"%string, VStr "s3cr3t")].

(** The forge answers 204, a 2xx status, with the secret in the body. *)
Definition no_content :=
  run (Sim.answer (forge 204 (Some (VDict secret))))
    (create_access_token Sim.repr "http://forge:3000" ("alice", "pw")%string "demo" true) tt.

End TokenExamples.

Module PacExamples.

(** A cluster that refuses to create namespaces and accepts the rest. *)
Definition refusing : Sim.world :=
  {| Sim.http := fun _ => Sim.ok 200 None;
     Sim.proc := fun c =>
       match argv c with
       | _ :: "create"%string :: "namespace"%string :: _ =>
           Sim.done 1 "Error from server (Forbidden)"
       | _ => Sim.done 0 EmptyString
       end;
     Sim.clock := 0;
     Sim.path_exists := fun _ => true;
     Sim.path_is_file := fun _ => false;
     Sim.path_nonempty := fun _ => false;
     Sim.read_text := fun _ => inl EmptyString |}.

Definition forbidden :=
  run (Sim.answer refusing)
    (create_pac_resources Sim.repr "demo" "demo" (VStr "http://forge:3000/alice/demo")
       default_internal_url (VStr "s3cr3t")) tt.

End PacExamples.

Module RepoExamples.

(** A forge that lists no token and answers the token request with
    [token_body], on a machine on which [kubectl] is absent and the local
    directory exists. *)
Definition machine (token_body : value) : Sim.world :=
  {| Sim.http := fun r =>
       match rq_method r, rq_endpoint r with
       | GET, _ => Sim.ok 200 (Some (VList []))
       | POST, EpUserTokens _ => Sim.ok 201 (Some token_body)
       | POST, _ =>
           Sim.ok 201 (Some (VDict [("html_url"%string, VStr "http://forge:3000/alice/demo");
                                    ("clone_url"%string,
                                     VStr "http://forge:3000/alice/demo.git")]))
       | _, _ => Sim.ok 404 None
       end;
     Sim.proc := fun c =>
       match argv c with
       | "kubectl"%string :: _ => inr FileNotFoundError
       | _ => Sim.done 0 EmptyString
       end;
     Sim.clock := 0;
     Sim.path_exists := fun _ => true;
     Sim.path_is_file := fun _ => false;
     Sim.path_nonempty := fun _ => false;
     Sim.read_text := fun _ => inl EmptyString |}.

(** The token request succeeds; [kubectl] is absent. *)
Definition no_kubectl :=
  run (Sim.answer (machine (VDict [("sha1"%string, VStr "s3cr3t")])))
    (repo_command Sim.repr Sim.urlparse Sim.ctx Sim.demo) tt.

(** The forge answers the token request with 201 and a body without [sha1]. *)
Definition no_sha1 :=
  run (Sim.answer (machine (VDict [])))
    (repo_command Sim.repr Sim.urlparse Sim.ctx Sim.demo) tt.

(** The same answer, for [create_access_token] alone. *)
Definition token_without_sha1 :=
  run (Sim.answer (machine (VDict [])))
    (create_access_token Sim.repr "http://forge:3000" ("alice", "pw")%string "demo" true) tt.

End RepoExamples.

Module DeleteExamples.

(** The forge of [RepoExamples], on a network that drops the request
    that deletes the repository. *)
Definition machine : Sim.world :=
  let served := RepoExamples.machine (VDict [("sha1"%string, VStr "s3cr3t")]) in
  {| Sim.http := fun r =>
       match rq_method r, rq_endpoint r with
       | DELETE, EpRepo _ _ => inr (OtherError "ConnectionError")
       | _, _ => Sim.http served r
       end;
     Sim.proc := Sim.proc served;
     Sim.clock := Sim.clock served;
     Sim.path_exists := Sim.path_exists served;
     Sim.path_is_file := Sim.path_is_file served;
     Sim.path_nonempty := Sim.path_nonempty served;
     Sim.read_text := Sim.read_text served |}.

Definition dropped :=
  run (Sim.answer machine) (repo_command Sim.repr Sim.urlparse Sim.ctx Sim.demo) tt.

End DeleteExamples.

(* ------------------------------------------------------------------ *)
(** ** A forge that keeps tokens *)
(* ------------------------------------------------------------------ *)

(** The token API of the forge, for one user: the listing, the deletion
    by identifier and the creation.  Every request is served.  A [strict]
    forge refuses to create a token under a name in use, as the forge of
    the specification does; a forge that is not [strict] accepts it. *)
Module Forge.

Record token : Type := {
  token_id : Z;
  token_name : string;
  token_sha1 : string
}.

Record state : Type := {
  tokens : list token;
  next_id : Z;
  strict : bool
}.

(** A token as the listing shows it: without its secret. *)
Definition listed_token (t : token) : value :=
  VDict [("id"%string, VInt (token_id t)); ("name"%string, VStr (token_name t));
         ("sha1"%string, VStr EmptyString)].

Definition has_name (name : string) (t : token) : bool :=
  String.eqb (token_name t) name.

Definition has_id (id : string) (t : token) : bool :=
  String.eqb (PyStr.of_int (token_id t)) id.

(** The valid tokens that bear [name]. *)
Definition named (name : string) (s : state) : list token :=
  filter (has_name name) (tokens s).

Definition secret (id : Z) : string := ("sha1-" ++ PyStr.of_int id)%string.

Definition serve (r : http_request) (s : state) : (http_response + exn) * state :=
  match rq_method r, rq_endpoint r with
  | GET, EpUserTokens _ =>
      (Sim.ok 200 (Some (VList (map listed_token (tokens s)))), s)
  | DELETE, EpUserToken _ id =>
      (Sim.ok 204 None,
       {| tokens := filter (fun t => negb (has_id id t)) (tokens s);
          next_id := next_id s; strict := strict s |})
  | POST, EpUserTokens _ =>
      match rq_json r with
      | Some (VDict items) =>
          match Py.lookup "name" items with
          | Some (VStr name) =>
              if (strict s && existsb (has_name name) (tokens s))%bool then
                (Sim.ok 400 None, s)
              else
                (Sim.ok 201
                   (Some (VDict [("id"%string, VInt (next_id s));
                                 ("name"%string, VStr name);
                                 ("sha1"%string, VStr (secret (next_id s)))])),
                 {| tokens := tokens s
                              ++ [{| token_id := next_id s; token_name := name;
                                     token_sha1 := secret (next_id s) |}];
                    next_id := next_id s + 1; strict := strict s |})
          | _ => (Sim.ok 422 None, s)
          end
      | _ => (Sim.ok 422 None, s)
      end
  | _, _ => (Sim.ok 404 None, s)
  end.

Definition answer : handler state :=
  fun X e s =>
    match e in Eff X return X * state with
    | Http r => serve r s
    | Echo _ _ => (tt, s)
    | Subprocess _ => (inr FileNotFoundError, s)
    | Now => (0%Q, s)
    | PathExists _ => (false, s)
    | PathIsFile _ => (false, s)
    | PathIterAny _ => (inl false, s)
    | PathResolve p => (p, s)
    | MkdirParents _ => (inl tt, s)
    | ReadText _ => (inl EmptyString, s)
    | OpenBrowser _ => (true, s)
    | FilterWarnings => (tt, s)
    end.

End Forge.

Module ForgeExamples.

(** A forge that holds a token [demo], made earlier, and another one. *)
Definition used : Forge.state :=
  {| Forge.tokens :=
       [ {| Forge.token_id := 3; Forge.token_name := "other";
            Forge.token_sha1 := Forge.secret 3 |};
         {| Forge.token_id := 7; Forge.token_name := "demo";
            Forge.token_sha1 := Forge.secret 7 |} ];
     Forge.next_id := 8;
     Forge.strict := true |}.

Definition ensure_demo : Prog value :=
  create_access_token Sim.repr "http://forge:3000" ("alice", "pw")%string "demo" true.

End ForgeExamples.

(* ------------------------------------------------------------------ *)
(** ** Statements about executions *)
(* ------------------------------------------------------------------ *)

(** [always p Q]: every execution of [p] satisfies [Q]. *)
Definition always {A : Type} (p : Prog A) (Q : list event -> outcome A -> Prop) : Prop :=
  forall tr o, exec p tr o -> Q tr o.

(** What an execution of [p] looks like, by the head of [p]. *)
Definition exec_shape {A : Type} (p : Prog A) (tr : list event) (o : outcome A) : Prop :=
  match p with
  | Ret a => tr = [] /\ o = Returned a
  | Exit c => tr = [] /\ o = Exited c
  | Raise e => tr = [] /\ o = Uncaught e
  | Vis e k => exists x tr', tr = Event e x :: tr' /\ exec (k x) tr' o
  end.

(** What [bind p f] does after [p] ended in [o1] with trace [tr1]. *)
Definition then_ {A B : Type} (f : A -> Prog B) (Q : list event -> outcome B -> Prop)
    (tr1 : list event) (o1 : outcome A) : Prop :=
  match o1 with
  | Returned a => always (f a) (fun tr2 o => Q (tr1 ++ tr2) o)
  | Exited c => Q tr1 (Exited c)
  | Uncaught e => Q tr1 (Uncaught e)
  end.

(** What [try_except p h] does after [p] ended in [o1] with trace [tr1]. *)
Definition caught {A : Type} (h : exn -> option (Prog A))
    (Q : list event -> outcome A -> Prop) (tr1 : list event) (o1 : outcome A) : Prop :=
  match o1 with
  | Uncaught e =>
      match h e with
      | Some q => always q (fun tr2 o => Q (tr1 ++ tr2) o)
      | None => Q tr1 (Uncaught e)
      end
  | o => Q tr1 o
  end.

(** [behaves P R p]: [p] only performs events accepted by [P] and ends in
    an outcome accepted by [R]. *)
Definition behaves {A : Type} (P : event -> bool) (R : outcome A -> Prop) (p : Prog A) : Prop :=
  always p (fun tr o => forallb P tr = true /\ R o).

(** The outcomes of a call that cannot end the process. *)
Definition no_exit {A : Type} (o : outcome A) : Prop :=
  match o with Exited _ => False | _ => True end.

(* ------------------------------------------------------------------ *)
(** ** Vocabulary: token creation *)
(* ------------------------------------------------------------------ *)

Definition ep_token (ep : endpoint) : bool :=
  match ep with EpUserToken _ _ => true | _ => false end.

(** What [create_access_token] does before it asks for the new token:
    listing the tokens, deleting one, reporting the deletion. *)
Definition token_cleanup (ev : event) : bool :=
  (is_echo ev || is_request GET ep_tokens ev || is_request DELETE ep_token ev)%bool.

(** The request for the new token. *)
Definition token_request (forgejo_url : string) (auth : string * string) (name : string)
    (verify_tls : bool) : http_request :=
  {| rq_method := POST; rq_base := forgejo_url; rq_endpoint := EpUserTokens (fst auth);
     rq_creds := BasicAuth (fst auth) (snd auth);
     rq_json := Some (VDict [("name"%string, VStr name);
                             ("scopes"%string, VList [VStr "all"])]);
     rq_verify := verify_tls; rq_timeout := None |}.

Definition token_warning (status : Z) : string :=
  ("Warning: Could not create token (status " ++ PyStr.of_int status
   ++ "), using password as fallback")%string.

(** The [sha1] entry of the answer to [token_request]. *)
Definition sha1_of (items : list (string * value)) : value :=
  match Py.lookup "sha1" items with Some v => v | None => VNone end.

(** What follows the answer [x] to [token_request]: the rest of the trace
    and the outcome. *)
Definition token_answer (auth : string * string) (x : http_response + exn)
    (post : list event) (o : outcome value) : Prop :=
  match x with
  | inl response =>
      if status_in (status_code response) [201; 200] then
        post = [] /\
        match json_body response with
        | Some (VDict items) => o = Returned (sha1_of items)
        | Some _ => o = Uncaught AttributeError
        | None => o = Uncaught JSONDecodeError
        end
      else
        post = [Event (Echo false (token_warning (status_code response))) tt] /\
        o = Returned (VStr (snd auth))
  | inr e => post = [] /\ o = Uncaught e
  end.

(** [on_first P R]: the trace from its first [P] event on, and the
    outcome, satisfy [R]. *)
Definition on_first {A : Type} (P : event -> bool)
    (R : list event -> outcome A -> Prop) : list event -> outcome A -> Prop :=
  fun tr o => R (from_first P tr) o.

(** The configuration is complete. *)
Definition configured (ctx : context) : Prop :=
  PyStr.truthy_opt (ctx_forgejo_url ctx) = true
  /\ PyStr.truthy_opt (ctx_username ctx) = true
  /\ PyStr.truthy_opt (ctx_password ctx) = true
  /\ PyStr.truthy_opt (ctx_repo_owner ctx) = true.

(** The events of [create_access_token]. *)
Definition token_event (ev : event) : bool :=
  (token_cleanup ev || is_token_post ev)%bool.

(** The request that lists the tokens. *)
Definition list_request (forgejo_url : string) (auth : string * string)
    (verify_tls : bool) : http_request :=
  {| rq_method := GET; rq_base := forgejo_url; rq_endpoint := EpUserTokens (fst auth);
     rq_creds := BasicAuth (fst auth) (snd auth); rq_json := None;
     rq_verify := verify_tls; rq_timeout := None |}.

(** The request that deletes the token [token_id]. *)
Definition delete_request (py_repr : value -> string) (forgejo_url : string)
    (auth : string * string) (verify_tls : bool) (token_id : value) : http_request :=
  {| rq_method := DELETE; rq_base := forgejo_url;
     rq_endpoint := EpUserToken (fst auth) (py_str py_repr token_id);
     rq_creds := BasicAuth (fst auth) (snd auth); rq_json := None;
     rq_verify := verify_tls; rq_timeout := None |}.

Definition name_of (items : list (string * value)) : value :=
  match Py.lookup "name" items with Some v => v | None => VNone end.

Definition id_of (items : list (string * value)) : value :=
  match Py.lookup "id" items with Some v => v | None => VNone end.

(** The first token of a listing that bears [name], when the listing
    holds JSON objects up to it. *)
Fixpoint stale_token (name : string) (listing : list value)
    : option (list (string * value)) :=
  match listing with
  | [] => None
  | VDict items :: rest =>
      if Py.eq_str (name_of items) name then Some items else stale_token name rest
  | _ :: _ => None
  end.

(** The listing a [for] loop goes through after the answer [x] to
    [list_request]: empty unless the answer has status 200 and a body that
    can be iterated. *)
Definition listed (x : http_response + exn) : list value :=
  match x with
  | inl response =>
      if status_code response =? 200 then
        match json_body response with
        | Some v => match Py.iter v with Some l => l | None => [] end
        | None => []
        end
      else []
  | inr _ => []
  end.

Definition token_deleted (name : string) : string :=
  ("Deleted existing token: " ++ name)%string.

(** The events between the listing and the token request: the deletion
    of the stale token and its report, or nothing. *)
Definition cleanup (py_repr : value -> string) (forgejo_url : string)
    (auth : string * string) (name : string) (verify_tls : bool)
    (listing : list value) (tr : list event) : Prop :=
  match stale_token name listing with
  | Some items =>
      exists y,
        tr = Event (Http (delete_request py_repr forgejo_url auth verify_tls (id_of items))) y
             :: match y with
                | inl _ => [Event (Echo false (token_deleted name)) tt]
                | inr _ => []
                end
  | None => tr = []
  end.

(** The state after the loop of [create_access_token] went through the
    listing of [toks]. *)
Definition after_cleanup (name : string) (toks : list Forge.token) (s : Forge.state)
    : Forge.state :=
  match find (Forge.has_name name) toks with
  | Some t =>
      {| Forge.tokens :=
           filter (fun t' => negb (Forge.has_id (PyStr.of_int (Forge.token_id t)) t'))
             (Forge.tokens s);
         Forge.next_id := Forge.next_id s; Forge.strict := Forge.strict s |}
  | None => s
  end.

(* ------------------------------------------------------------------ *)
(** ** Vocabulary: the [pr] workflow *)
(* ------------------------------------------------------------------ *)

(** The name of the branch made at time [t]. *)
Definition branch_at (t : Q) : string :=
  ("pac-test-" ++ PyStr.of_int (py_int t))%string.

Definition is_clock (ev : event) : bool :=
  match ev with
  | Event e _ => match e with Now => true | _ => false end
  end.

(** A look at the file system. *)
Definition is_path (ev : event) : bool :=
  match ev with
  | Event e _ =>
      match e with
      | PathExists _ | PathIsFile _ | PathIterAny _ | PathResolve _
      | MkdirParents _ | ReadText _ => true
      | _ => false
      end
  end.

(** The events of [create_file_on_branch]. *)
Definition ep_contents (ep : endpoint) : bool :=
  match ep with EpContents _ _ _ => true | _ => false end.

Definition file_event (ev : event) : bool :=
  (is_echo ev || is_request POST ep_contents ev)%bool.

(** The request that creates the pull request. *)
Definition pull_request (forgejo_url : string) (headers : credentials)
    (owner repo title head base : string) (verify_tls : bool) : http_request :=
  {| rq_method := POST; rq_base := forgejo_url; rq_endpoint := EpPulls owner repo;
     rq_creds := headers;
     rq_json := Some (VDict [("title"%string, VStr title); ("head"%string, VStr head);
                             ("base"%string, VStr base)]);
     rq_verify := verify_tls; rq_timeout := None |}.

(* ------------------------------------------------------------------ *)
(** ** Vocabulary: cluster registration *)
(* ------------------------------------------------------------------ *)

(** The subprocess calls of a trace, with their answers. *)
Definition calls (tr : list event) : list (proc_call * (completed + exn)) :=
  flat_map (fun ev => match proc_of ev with Some c => [c] | None => [] end) tr.

Definition kubectl (args : list string) (input : option string) : proc_call :=
  {| argv := args; stdin := input; cwd := None; check := false |}.

(** The [kubectl] calls of [create_pac_resources], in the order of the
    source. *)
Definition pac_script (py_repr : value -> string) (namespace repo_name : string)
    (repo_url : value) (internal_url : string) (token : value) : list proc_call :=
  [ kubectl (kubectl_create_namespace namespace) None;
    kubectl (kubectl_delete_secret namespace repo_name) None;
    kubectl (kubectl_create_secret py_repr namespace repo_name token) None;
    kubectl (kubectl_delete_repository namespace repo_name) None;
    kubectl kubectl_apply
      (Some (repository_yaml py_repr namespace repo_name repo_url internal_url)) ].

(** The events of [create_pac_resources]. *)
Definition pac_event (ev : event) : bool := (is_echo ev || is_kubectl ev)%bool.

(** The events of [create_webhook]. *)
Definition ep_hooks (ep : endpoint) : bool :=
  match ep with EpHooks _ _ => true | _ => false end.

Definition webhook_event (ev : event) : bool :=
  (is_echo ev || is_request POST ep_hooks ev)%bool.

Definition pac_started (namespace : string) : string :=
  ("Creating PAC resources in namespace: " ++ namespace)%string.

(* ------------------------------------------------------------------ *)
(** ** More statements about executions *)
(* ------------------------------------------------------------------ *)

(** The outcomes of code that ends the process with status 1 only. *)
Definition exits_1 {A : Type} (o : outcome A) : Prop :=
  match o with Exited c => c = 1 | _ => True end.

(** [led_by P R]: the trace is a run of events accepted by [P] followed
    by a rest that satisfies [R] with the outcome. *)
Definition led_by {A : Type} (P : event -> bool)
    (R : list event -> outcome A -> Prop) : list event -> outcome A -> Prop :=
  fun tr o => exists pre rest, tr = pre ++ rest /\ forallb P pre = true /\ R rest o.

(* ------------------------------------------------------------------ *)
(** ** Vocabulary: the [repo] workflow *)
(* ------------------------------------------------------------------ *)

(** The owner the commands address: the configured owner up to its
    first [/]. *)
Definition configured_owner (ctx : context) : string :=
  match ctx_repo_owner ctx with
  | Some repo_owner => owner_of repo_owner
  | None => EmptyString
  end.

Definition repo_deleted (owner repo : string) : string :=
  ("Repository " ++ owner ++ "/" ++ repo ++ " deleted")%string.

(** The address of the forge the commands use: the configured one
    without its trailing [/]. *)
Definition configured_url (ctx : context) : string :=
  match ctx_forgejo_url ctx with
  | Some forgejo_url => PyStr.rstrip "/" forgejo_url
  | None => EmptyString
  end.

(** The [html_url] entry of the answer to the creation request. *)
Definition html_url_of (items : list (string * value)) : value :=
  match Py.lookup "html_url" items with Some v => v | None => VStr EmptyString end.

Definition repo_created (py_repr : value -> string) (html_url : value) : string :=
  ("Repository created: " ++ py_str py_repr html_url)%string.

Definition repo_not_created (response : http_response) : string :=
  ("Error creating repository: " ++ PyStr.of_int (status_code response)
   ++ " " ++ text response)%string.

(** The namespace of the registration: [--target-ns], or the name of the
    repository. *)
Definition namespace_of (a : repo_options) : string :=
  if PyStr.truthy (target_ns a) then target_ns a else repo a.

(* ------------------------------------------------------------------ *)
(** ** Vocabulary: the token guard and the [checkout] workflow *)
(* ------------------------------------------------------------------ *)

(** What a command does from its token request on: the request carries
    the configured, non-empty password, and the command prints
    [token_failed] and exits with status 1 exactly when the answer has
    status 200 or 201 and a JSON object for a body whose [sha1] entry is
    missing or empty. *)
Definition token_guard (ctx : context) (rest : list event) (o : outcome unit) : Prop :=
  match rest with
  | [] => True
  | first :: post =>
      exists rq x user password,
        first = Event (Http rq) x
        /\ rq_creds rq = BasicAuth user password
        /\ ctx_password ctx = Some password
        /\ PyStr.truthy password = true
        /\ ((post = [Event (Echo true token_failed) tt] /\ o = Exited 1)
            <-> (exists response items,
                   x = inl response
                   /\ status_in (status_code response) [201; 200] = true
                   /\ json_body response = Some (VDict items)
                   /\ Py.truthy (sha1_of items) = false))
  end.

(** Neither a request to the forge nor a look at the file system. *)
Definition offline (ev : event) : bool := negb (is_http ev || is_path ev).

(** What [checkout] does from its first look at the file system on:
    only a run with an incomplete configuration has none. *)
Definition destination_check (ctx : context) (destination : string) (rest : list event)
    (o : outcome unit) : Prop :=
  ~ configured ctx /\ rest = [] /\ o = Exited 1
  \/ exists d b post,
       rest = Event (PathResolve destination) d :: Event (PathExists d) b :: post
       /\ if b : bool then
            exists f post',
              post = Event (PathIsFile d) f :: post'
              /\ if f : bool then
                   post' = [Event (Echo true (destination_is_file destination)) tt]
                   /\ o = Exited 1
                 else
                   exists y post'',
                     post' = Event (PathIterAny d) y :: post''
                     /\ match y with
                        | inl true =>
                            post'' = [Event (Echo true destination_not_empty) tt]
                            /\ o = Exited 1
                        | inl false => True
                        | inr e => post'' = [] /\ o = Uncaught e
                        end
          else
            exists m post', post = Event (MkdirParents d) m :: post'.

(** The title of the pull request: the one supplied, or the one made
    from the name of the branch. *)
Definition title_for (b : pr_options) (branch_name : string) : string :=
  if PyStr.truthy (title b) then title b else ("Test PR - " ++ branch_name)%string.

(* ------------------------------------------------------------------ *)
(** ** Vocabulary: the configuration *)
(* ------------------------------------------------------------------ *)

(** The call [read_secret] makes to the password store. *)
Definition pass_call (folder key : string) : proc_call :=
  {| argv := pass_show folder key; stdin := None; cwd := None; check := false |}.

(** The secret read from the answer [x] of the password store. *)
Definition pass_secret (strip : string -> string) (x : completed + exn) : option string :=
  match x with
  | inl result =>
      if returncode result =? 0 then Some (strip (stdout result)) else None
  | inr _ => None
  end.

(** The secret read from the content [c] of a file. *)
Definition file_secret (strip : string -> string) (c : string + exn) : option string :=
  match c with
  | inl content =>
      if PyStr.truthy (strip content) then Some (strip content) else None
  | inr _ => None
  end.

(** What [read_secret] does with a plain file at [p]: it asks whether [p]
    exists and is a file before it reads it. *)
Definition file_read (strip : string -> string) (p : string) (tr : list event)
    (o : outcome (option string)) : Prop :=
  (tr = [Event (PathExists p) false] /\ o = Returned None)
  \/ (tr = [Event (PathExists p) true; Event (PathIsFile p) false] /\ o = Returned None)
  \/ (exists c,
        tr = [Event (PathExists p) true; Event (PathIsFile p) true; Event (ReadText p) c]
        /\ o = Returned (file_secret strip c)).

(** A look at one of the files [paths]. *)
Definition looks_at (paths : list string) (ev : event) : bool :=
  match ev with
  | Event e _ =>
      match e with
      | PathExists p | PathIsFile p | ReadText p => existsb (String.eqb p) paths
      | _ => false
      end
  end.

(** The files of a folder of secrets. *)
Definition secret_files (path_join : string -> string -> string) (folder : string)
    : list string :=
  map (fun m => path_join folder (fst m)) secret_mappings.

(** An entry of the dictionary of secrets: a text that is not empty
    under one of the seven keys, a truth value under [skip_tls]. *)
Definition secret_entry (k : string) (v : value) : Prop :=
  In k (map snd secret_mappings)
  /\ if String.eqb k "skip_tls" then exists b, v = VBool b
     else exists s, v = VStr s /\ PyStr.truthy s = true.

(** [ctx.obj] for a context. *)
Definition obj_of (c : context) : list (string * value) :=
  [ ("forgejo_url", of_opt (ctx_forgejo_url c));
    ("username", of_opt (ctx_username c));
    ("password", of_opt (ctx_password c));
    ("repo_owner", of_opt (ctx_repo_owner c));
    ("skip_tls", VBool (ctx_skip_tls c));
    ("smee_url", of_opt (ctx_smee_url c));
    ("internal_url", of_opt (ctx_internal_url c));
    ("webhook_url", VStr (ctx_webhook_url c)) ]%string.

(** A value of the context that comes from the folder is not empty. *)
Definition from_folder (v : option string) : Prop :=
  exists s, v = Some s /\ PyStr.truthy s = true.

(** The [pass] binary is needed and absent. *)
Definition pass_missing (env : environment) : bool :=
  (PyStr.truthy_opt (GITEA_PASS_SECRET_FOLDER env)
   && negb (PyStr.truthy_opt (which_pass env)))%bool.

Definition pass_missing_report : list event :=
  [ Event (Echo true "Error: GITEA_PASS_SECRET_FOLDER is set but 'pass' command not found") tt;
    Event (Echo true "Install pass (password-store) or use GITEA_SECRET_FOLDER instead") tt ].

(** The first of two optional values that is there. *)
Definition or_else (a b : option string) : option string :=
  match a with Some _ => a | None => b end.

(** A machine with a folder of plain-text secrets: [files p] is the
    content of the file at [p], if there is one. *)
Module Folder.

Definition world (files : string -> option string) : Sim.world :=
  {| Sim.http := fun _ => inr (OtherError "ConnectionError");
     Sim.proc := fun _ => inr FileNotFoundError;
     Sim.clock := 0;
     Sim.path_exists := fun p => match files p with Some _ => true | None => false end;
     Sim.path_is_file := fun p => match files p with Some _ => true | None => false end;
     Sim.path_nonempty := fun _ => false;
     Sim.read_text := fun p => match files p with
                               | Some content => inl content
                               | None => inr FileNotFoundError
                               end |}.

(** The secret [key] of [folder]: the stripped content of its file,
    unless the file is missing or blank. *)
Definition secret (path_join : string -> string -> string) (strip : string -> string)
    (files : string -> option string) (folder key : string) : option string :=
  match files (path_join folder key) with
  | Some content => file_secret strip (inl content)
  | None => None
  end.

(** The context the group builds from the folder and the options. *)
Definition resolved (path_join : string -> string -> string) (strip : string -> string)
    (files : string -> option string) (folder : string) (o : cli_options) : context :=
  {| ctx_forgejo_url := or_else (secret path_join strip files folder "api-url") (opt_forgejo_url o);
     ctx_username := or_else (secret path_join strip files folder "username") (opt_username o);
     ctx_password := or_else (secret path_join strip files folder "password") (opt_password o);
     ctx_repo_owner := or_else (secret path_join strip files folder "repo-owner") (opt_repo_owner o);
     ctx_skip_tls := match secret path_join strip files folder "skip-tls" with
                     | Some v => is_yes v
                     | None => opt_skip_tls o
                     end;
     ctx_smee_url := secret path_join strip files folder "smee";
     ctx_internal_url := secret path_join strip files folder "internal-url";
     ctx_webhook_url := opt_webhook_url o |}.

(** For the examples: a join of plain paths, and a stand-in for
    [str.strip] that removes the characters Python counts as white space
    among the code points below 256 (9 to 13, 28 to 32, 133 and 160). *)
Definition join (folder key : string) : string := (folder ++ "/" ++ key)%string.

Definition is_space (a : ascii) : bool :=
  let n := nat_of_ascii a in
  ((Nat.leb 9 n && Nat.leb n 13) || (Nat.leb 28 n && Nat.leb n 32)
   || Nat.eqb n 133 || Nat.eqb n 160)%bool.

Fixpoint lstrip_space (s : string) : string :=
  match s with
  | EmptyString => EmptyString
  | String a rest => if is_space a then lstrip_space rest else s
  end.

Fixpoint rstrip_space (s : string) : string :=
  match s with
  | EmptyString => EmptyString
  | String a rest =>
      match rstrip_space rest with
      | EmptyString => if is_space a then EmptyString else String a EmptyString
      | r => String a r
      end
  end.

Definition strip (s : string) : string := lstrip_space (rstrip_space s).

(** A folder for the examples: an address with a trailing newline, a
    blank user name, and [no] for [skip-tls]. *)

Definition demo (p : string) : option string :=
  if String.eqb p "/secrets/api-url" then Some ("https://forge.example" ++ PyStr.nl)%string
  else if String.eqb p "/secrets/username" then Some "  "%string
  else if String.eqb p "/secrets/skip-tls" then Some "no"%string
  else None.

Definition options : cli_options :=
  {| opt_forgejo_url := Some "http://localhost:3000"%string;
     opt_username := Some "alice"%string;
     opt_password := Some "pw"%string;
     opt_repo_owner := None;
     opt_skip_tls := true;
     opt_webhook_url := EmptyString |}.

Definition env : environment :=
  {| GITEA_PASS_SECRET_FOLDER := None;
     GITEA_SECRET_FOLDER := Some "/secrets"%string;
     which_pass := None |}.

End Folder.

(** The context the options alone give. *)
Definition from_options (o : cli_options) : context :=
  {| ctx_forgejo_url := opt_forgejo_url o;
     ctx_username := opt_username o;
     ctx_password := opt_password o;
     ctx_repo_owner := opt_repo_owner o;
     ctx_skip_tls := opt_skip_tls o;
     ctx_smee_url := None;
     ctx_internal_url := None;
     ctx_webhook_url := opt_webhook_url o |}.

(* ------------------------------------------------------------------ *)
(** ** Vocabulary: the required configuration *)
(* ------------------------------------------------------------------ *)

(** The four fields every command needs. *)
Definition required_names : list string :=
  ["forgejo_url"; "username"; "password"; "repo_owner"]%string.

(** The lines printed for one missing field: its name, then the places
    it can be provided from. *)
Definition missing_report (fs : string * list string) : list event :=
  Event (Echo true (PyStr.nl ++ "  " ++ fst fs ++ " can be provided via:")%string) tt
  :: map (fun source => Event (Echo true ("    - " ++ source)%string) tt) (snd fs).

Definition missing_header : event :=
  Event (Echo true "Error: Missing required configuration:") tt.

Module ContextExamples.

(** The context of the examples, without its password. *)
Definition without_password : context :=
  {| ctx_forgejo_url := Some "http://forge:3000/"%string;
     ctx_username := Some "alice"%string;
     ctx_password := None;
     ctx_repo_owner := Some "alice"%string;
     ctx_skip_tls := false;
     ctx_smee_url := None;
     ctx_internal_url := None;
     ctx_webhook_url := EmptyString |}.

(** [pr demo --no-open], with the defaults of the other options. *)
Definition pr_demo : pr_options :=
  {| pr_repo := "demo"; target_branch := "main"; title := EmptyString;
     pipelinerun_file := "pr-noop.yaml"; no_open := true |}.

End ContextExamples.

(* ------------------------------------------------------------------ *)
(** ** Vocabulary: where the requests go *)
(* ------------------------------------------------------------------ *)

(** One of the two addresses of the tokens of [user]. *)
Definition tokens_of (user : string) (ep : endpoint) : bool :=
  match ep with
  | EpUserTokens u | EpUserToken u _ => String.eqb u user
  | _ => false
  end.

(** An event that is not a request, or a request to [forgejo_url], with
    [verify_tls], that carries the password only as the basic
    authentication of [user] on the addresses of the tokens of [user], a
    header on the other addresses of the API, and no credentials on a
    [HEAD] request to the forge itself. *)
Definition sent_to (forgejo_url : string) (verify_tls : bool) (user password : string)
    (ev : event) : bool :=
  match http_of ev with
  | Some (rq, _) =>
      (String.eqb (rq_base rq) forgejo_url
       && Bool.eqb (rq_verify rq) verify_tls
       && match rq_creds rq with
          | BasicAuth u p =>
              String.eqb u user && String.eqb p password
              && tokens_of user (rq_endpoint rq)
          | Headers _ content_type =>
              String.eqb content_type "application/json"
              && match rq_endpoint rq with
                 | EpBase | EpUserTokens _ | EpUserToken _ _ => false
                 | _ => true
                 end
          | NoCredentials =>
              method_eqb (rq_method rq) HEAD
              && match rq_endpoint rq with EpBase => true | _ => false end
          end)%bool
  | None => true
  end.

Definition configured_user (ctx : context) : string :=
  match ctx_username ctx with Some username => username | None => EmptyString end.

Definition configured_password (ctx : context) : string :=
  match ctx_password ctx with Some password => password | None => EmptyString end.

(** The requests of a command go to the configured forge. *)
Definition to_the_forge (ctx : context) (tr : list event) : Prop :=
  forallb (sent_to (configured_url ctx) (negb (ctx_skip_tls ctx)) (configured_user ctx)
             (configured_password ctx)) tr = true.

(* ------------------------------------------------------------------ *)
(** ** Vocabulary: the programs a command runs *)
(* ------------------------------------------------------------------ *)

(** An event that is not a subprocess, or the run of one of [programs]. *)
Definition runs (programs : list string) (ev : event) : bool :=
  match proc_of ev with
  | Some (c, _) =>
      match argv c with
      | prog :: _ => existsb (String.eqb prog) programs
      | [] => false
      end
  | None => true
  end.

(** The events of [create_pull_request_api]. *)
Definition pull_event (ev : event) : bool := (is_echo ev || is_pull_post ev)%bool.

(* ------------------------------------------------------------------ *)
(** ** Vocabulary: the probe of the forge *)
(* ------------------------------------------------------------------ *)

(** The [HEAD] request [repo] sends to a forge with an [http] address,
    to see whether it redirects to [https]. *)
Definition probe (forgejo_url : string) (verify_tls : bool) : http_request :=
  {| rq_method := HEAD; rq_base := forgejo_url; rq_endpoint := EpBase;
     rq_creds := NoCredentials; rq_json := None; rq_verify := verify_tls;
     rq_timeout := Some 5 |}.

Definition redirect_warning : string :=
  "Warning: HTTP redirects to HTTPS. If you have certificate issues, set TEST_GITEA_SKIP_TLS=true".

Definition ssl_report : list event :=
  [ Event (Echo true "Error: SSL certificate verification failed.") tt;
    Event (Echo true "Hint: Set TEST_GITEA_SKIP_TLS=true to skip TLS verification") tt ].

Definition token_announced : event := Event (Echo false "Creating access token...") tt.

(** What [repo] does from its first request on. *)
Definition probe_check (ctx : context) (rest : list event) (o : outcome unit) : Prop :=
  match rest with
  | [] => exit_status o = 1
  | first :: post =>
      exists rq x,
        first = Event (Http rq) x
        /\ if PyStr.startswith (configured_url ctx) "http://" then
             rq = probe (configured_url ctx) (negb (ctx_skip_tls ctx))
             /\ match x with
                | inl response =>
                    exists post',
                      post = (if (PyStr.startswith (final_url response) "https://"
                                  && negb (ctx_skip_tls ctx))%bool
                              then [Event (Echo true redirect_warning) tt]
                              else [])
                             ++ token_announced :: post'
                | inr SSLError => post = ssl_report /\ o = Exited 1
                | inr _ => exists post', post = token_announced :: post'
                end
           else
             rq = list_request (configured_url ctx)
                    (configured_user ctx, configured_password ctx)
                    (negb (ctx_skip_tls ctx))
  end.

(* ------------------------------------------------------------------ *)
(** ** Vocabulary: the webhook *)
(* ------------------------------------------------------------------ *)

(** The address the webhook delivers to: the webhook URL of the group,
    else the [--smee-url] of [repo], else the relay of the folder of
    secrets; empty when none is given. *)
Definition effective_webhook_url (ctx : context) (a : repo_options) : string :=
  if PyStr.truthy (ctx_webhook_url ctx) then ctx_webhook_url ctx
  else if PyStr.truthy (smee_url a) then smee_url a
  else match ctx_smee_url ctx with Some s => s | None => EmptyString end.

Definition webhook_data (hook_url : string) : value :=
  VDict [ ("type", VStr "forgejo"); ("active", VBool true);
          ("config", VDict [("url", VStr hook_url); ("content_type", VStr "json")]);
          ("events", VList [VStr "push"; VStr "issue_comment"; VStr "pull_request"]) ]%string.

(** The request that creates the webhook. *)
Definition hook_request (forgejo_url : string) (headers : credentials)
    (owner repo hook_url : string) (verify_tls : bool) : http_request :=
  {| rq_method := POST; rq_base := forgejo_url; rq_endpoint := EpHooks owner repo;
     rq_creds := headers; rq_json := Some (webhook_data hook_url);
     rq_verify := verify_tls; rq_timeout := None |}.

(** The line printed after the answer to [hook_request]. *)
Definition hook_report (hook_url : string) (response : http_response) : string :=
  if status_code response =? 201 then ("Webhook created: " ++ hook_url)%string
  else ("Warning: Could not create webhook (status "
        ++ PyStr.of_int (status_code response) ++ ")")%string.

(** What follows the answer [x] to [hook_request] in [create_webhook]. *)
Definition hook_answer (hook_url : string) (x : http_response + exn)
    (post : list event) (o : outcome unit) : Prop :=
  match x with
  | inl response =>
      post = [Event (Echo false (hook_report hook_url response)) tt] /\ o = Returned tt
  | inr e => post = [] /\ o = Uncaught e
  end.

(** What [repo] does from its webhook request on: the report, then the
    registration in the cluster when it is requested, the clone step
    otherwise. *)
Definition hook_check (ctx : context) (a : repo_options) (rest : list event)
    (o : outcome unit) : Prop :=
  match rest with
  | [] => exit_status o = 1
  | first :: post =>
      exists rq x,
        first = Event (Http rq) x
        /\ rq_endpoint rq = EpHooks (configured_owner ctx) (repo a)
        /\ rq_json rq = Some (webhook_data (effective_webhook_url ctx a))
        /\ match x with
           | inl response =>
               exists post',
                 post = Event (Echo false
                                 (hook_report (effective_webhook_url ctx a) response)) tt
                        :: post'
                 /\ if create_pac_cr a then
                      exists post'',
                        post' = Event (Echo false (pac_started (namespace_of a))) tt :: post''
                    else
                      match post' with
                      | [] => exists e, o = Uncaught e
                      | next :: _ => exists path b, next = Event (PathExists path) b
                      end
           | inr e => post = [] /\ o = Uncaught e
           end
  end.

(* ------------------------------------------------------------------ *)
(** ** Vocabulary: the clone step of [repo] *)
(* ------------------------------------------------------------------ *)

(** The local directory of [repo]: [--local-repo], or [/tmp/<repo>]. *)
Definition local_checkout (a : repo_options) : string :=
  if PyStr.truthy (local_repo a) then local_repo a else ("/tmp/" ++ repo a)%string.

(** A [git] call: the output is captured and a failure is raised. *)
Definition git (args : list string) (dir : option string) : proc_call :=
  {| argv := "git"%string :: args; stdin := None; cwd := dir; check := true |}.

(** The address [repo] clones from: the clone address the forge
    returned, with [git] and the password as user information. *)
Definition password_url (password : string) (parsed : parse_result) : string :=
  urlunparse (scheme parsed) ("git:" ++ password ++ "@" ++ netloc parsed)%string
    (path parsed).

(** The two lines that end a run of [repo]. *)
Definition repo_summary (py_repr : value -> string) (a : repo_options) (html_url : value)
    : list event :=
  [ Event (Echo false (PyStr.nl ++ "Local Checkout Directory: " ++ local_checkout a)%string) tt;
    Event (Echo false ("Forgejo Repository URL: " ++ py_str py_repr html_url)%string) tt ].

(** How [repo] ends after a [git] call that raised [e]: the failure of
    the call is reported, with what [git] printed, before the exit; any
    other exception is not caught. *)
Definition git_failed (e : exn) (post : list event) (o : outcome unit) : Prop :=
  match e with
  | CalledProcessError _ err msg =>
      post = Event (Echo true ("Error during git operations: " ++ msg)%string) tt
             :: match err with
                | Some s => if PyStr.truthy s then [Event (Echo true s) tt] else []
                | None => []
                end
      /\ o = Exited 1
  | _ => post = [] /\ o = Uncaught e
  end.

(** The clone address in the answer of the forge. *)
Definition clone_url_of (items : list (string * value)) : value :=
  match Py.lookup "clone_url" items with
  | Some v => v
  | None => VStr EmptyString
  end.

(** What [repo] does from its look at the local directory on, after the
    forge answered the creation of the repository with the object
    [items]. *)
Definition clone_check (py_repr : value -> string)
    (urlparse : string -> parse_result + exn) (ctx : context) (a : repo_options)
    (items : list (string * value)) (rest : list event) (o : outcome unit) : Prop :=
  match rest with
  | [] => exit_status o = 1
  | first :: post =>
      exists b : bool,
        first = Event (PathExists (local_checkout a)) b
        /\ if b then
             post = Event (Echo false ("Directory " ++ local_checkout a
                                       ++ " already exists, skipping clone")%string) tt
                    :: repo_summary py_repr a (html_url_of items)
             /\ o = Returned tt
           else
             exists clone_url parsed x post',
               clone_url_of items = VStr clone_url
               /\ urlparse clone_url = inl parsed
               /\ post = Event (Subprocess
                                  (git ["clone";
                                        password_url (configured_password ctx) parsed;
                                        local_checkout a]%string None)) x
                         :: post'
               /\ match x with
                  | inl _ =>
                      exists y post'',
                        post' = Event (Echo false ("Repository cloned to: "
                                                   ++ local_checkout a)%string) tt
                                :: Event (Subprocess
                                            (git ["checkout"; "-b"; "tektonci"]%string
                                               (Some (local_checkout a)))) y
                                :: post''
                        /\ match y with
                           | inl _ =>
                               post'' = Event (Echo false "Created branch: tektonci") tt
                                        :: repo_summary py_repr a (html_url_of items)
                               /\ o = Returned tt
                           | inr e => git_failed e post'' o
                           end
                  | inr e => git_failed e post' o
                  end
  end.

(** What [repo] does from the request that creates the repository on,
    when the forge answers with a JSON object. *)
Definition after_creation (R : list (string * value) -> list event -> outcome unit -> Prop)
    (rest : list event) (o : outcome unit) : Prop :=
  match rest with
  | [] => exit_status o = 1
  | creation :: post =>
      exists rq x,
        creation = Event (Http rq) x
        /\ match x with
           | inl response =>
               match json_body response with
               | Some (VDict items) => R items post o
               | _ => exit_status o = 1
               end
           | inr _ => exit_status o = 1
           end
  end.

(* ------------------------------------------------------------------ *)
(** ** Vocabulary: the token of a run *)
(* ------------------------------------------------------------------ *)

(** The token a command works with after the answer [x] to its token
    request: the [sha1] entry of a body that is a JSON object, under
    status 200 or 201, and the password under any other status. *)
Definition token_of (password : string) (x : http_response + exn) : value :=
  match x with
  | inl response =>
      if status_in (status_code response) [201; 200] then
        match json_body response with
        | Some (VDict items) => sha1_of items
        | _ => VNone
        end
      else VStr password
  | inr _ => VNone
  end.

(** The [Authorization] header made from a token. *)
Definition authorization (py_repr : value -> string) (token : value) : string :=
  ("token " ++ py_str py_repr token)%string.

(** An event that is not a request, or a request with the header made
    from [token]. *)
Definition authorized_by (py_repr : value -> string) (token : value) (ev : event) : bool :=
  match http_of ev with
  | Some (rq, _) =>
      match rq_creds rq with
      | Headers a _ => String.eqb a (authorization py_repr token)
      | _ => false
      end
  | None => true
  end.

(** The same arguments. *)
Fixpoint same_args (l1 l2 : list string) : bool :=
  match l1, l2 with
  | [], [] => true
  | a1 :: r1, a2 :: r2 => (String.eqb a1 a2 && same_args r1 r2)%bool
  | _, _ => false
  end.

Arguments same_args : simpl never.

(** An event that is not the creation of a cluster secret, or the
    creation of the secret [repo_name] of [namespace] with [token] as its
    content. *)
Definition stores (py_repr : value -> string) (namespace repo_name : string)
    (token : value) (ev : event) : bool :=
  match proc_of ev with
  | Some (c, _) =>
      match argv c with
      | _ :: "create"%string :: "secret"%string :: _ =>
          same_args (argv c) (kubectl_create_secret py_repr namespace repo_name token)
      | _ => true
      end
  | None => true
  end.

Definition shares (py_repr : value -> string) (namespace repo_name : string)
    (token : value) (ev : event) : bool :=
  (authorized_by py_repr token ev && stores py_repr namespace repo_name token ev)%bool.

(** What a command does from its token request on: every later request
    carries the header made from the token of the run, and a cluster
    secret holds that token. *)
Definition token_shared (py_repr : value -> string) (password namespace repo_name : string)
    (rest : list event) (o : outcome unit) : Prop :=
  match rest with
  | [] => exit_status o = 1
  | asked :: post =>
      exists rq x,
        asked = Event (Http rq) x
        /\ forallb (shares py_repr namespace repo_name (token_of password x)) post = true
  end.

(** What a command does from its token request on: the request asks
    for a token named [name], and what follows satisfies [R] for the
    token of the run. *)
Definition from_token_request (password name : string)
    (R : value -> list event -> outcome unit -> Prop) (rest : list event)
    (o : outcome unit) : Prop :=
  match rest with
  | [] => exit_status o = 1
  | asked :: post =>
      exists rq x,
        asked = Event (Http rq) x
        /\ rq_json rq = Some (VDict [("name", VStr name); ("scopes", VList [VStr "all"])]%string)
        /\ R (token_of password x) post o
  end.

(* ------------------------------------------------------------------ *)
(** ** Vocabulary: what [repo] registers in the cluster *)
(* ------------------------------------------------------------------ *)

(** The address of the forge as the cluster sees it: the
    [--internal-url] option when it is not the default, else the address
    of the folder of secrets when there is one, else the default. *)
Definition effective_internal_url (ctx : context) (a : repo_options) : string :=
  if String.eqb (internal_url a) default_internal_url then
    match ctx_internal_url ctx with
    | Some s => if PyStr.truthy s then s else default_internal_url
    | None => default_internal_url
    end
  else internal_url a.

Definition same_text (s1 s2 : option string) : bool :=
  match s1, s2 with
  | Some t1, Some t2 => String.eqb t1 t2
  | None, None => true
  | _, _ => false
  end.

(** The same call. *)
Definition same_call (c1 c2 : proc_call) : bool :=
  (same_args (argv c1) (argv c2) && same_text (stdin c1) (stdin c2)
   && same_text (cwd c1) (cwd c2) && Bool.eqb (check c1) (check c2))%bool.

Arguments same_call : simpl never.

(** An event that is not a [kubectl] call, or one of the calls of
    [script]. *)
Definition in_script (script : list proc_call) (ev : event) : bool :=
  match proc_of ev with
  | Some (c, _) =>
      match argv c with
      | "kubectl"%string :: _ => existsb (same_call c) script
      | _ => true
      end
  | None => true
  end.

(** What [repo] does, with [token] for a token, from the request that
    creates the repository on: when the forge answers with a JSON object,
    the [kubectl] calls that follow are those of the registration of the
    repository under the address the forge returned. *)
Definition registration (py_repr : value -> string) (ctx : context) (a : repo_options)
    (token : value) : list event -> outcome unit -> Prop :=
  after_creation
    (fun items post _ =>
       forallb (in_script
                  (pac_script py_repr (namespace_of a) (repo a) (html_url_of items)
                     (effective_internal_url ctx a) token))
         post = true).

(* ------------------------------------------------------------------ *)
(** ** Vocabulary: the file and the pull request of [pr] *)
(* ------------------------------------------------------------------ *)

(** The body of the request that commits a file to a new branch. *)
Definition file_data (content branch base_branch message : string) : value :=
  VDict [ ("content", VStr (Base64.b64encode content)); ("message", VStr message);
          ("branch", VStr base_branch); ("new_branch", VStr branch) ]%string.

(** The request that commits a file to a new branch. *)
Definition file_request (forgejo_url : string) (headers : credentials)
    (owner repo filepath content branch base_branch message : string) (verify_tls : bool)
    : http_request :=
  {| rq_method := POST; rq_base := forgejo_url;
     rq_endpoint := EpContents owner repo filepath; rq_creds := headers;
     rq_json := Some (file_data content branch base_branch message);
     rq_verify := verify_tls; rq_timeout := None |}.

(** The line [create_file_on_branch] and [create_pull_request_api] print
    for an answer they take as a failure. *)
Definition api_error (what : string) (response : http_response) : string :=
  (what ++ PyStr.of_int (status_code response) ++ " " ++ text response)%string.

(** What follows the answer [x] to the request of one of the two
    functions: under status 200 or 201 the decoded body is returned and
    nothing is printed; under any other status the error is printed and
    [None] is returned. *)
Definition api_answer (what : string) (x : http_response + exn) (post : list event)
    (o : outcome value) : Prop :=
  match x with
  | inl response =>
      if status_in (status_code response) [201; 200] then
        post = []
        /\ o = match json_body response with
               | Some v => Returned v
               | None => Uncaught JSONDecodeError
               end
      else
        post = [Event (Echo true (api_error what response)) tt] /\ o = Returned VNone
  | inr e => post = [] /\ o = Uncaught e
  end.

Definition file_failed : event :=
  Event (Echo true "Error: Failed to create file on branch") tt.

Definition pull_failed : event :=
  Event (Echo true "Error: Failed to create pull request") tt.

(** What [pr] does after the answer [x] to the request that commits the
    file: it goes on when the answer has status 200 or 201 and a body
    that is true in Python; it stops when the status is another one, and
    also when the body is an empty object, an empty list, an empty text,
    [null], [false] or [0]. *)
Definition file_answer (branch : string) (x : http_response + exn) (post : list event)
    (o : outcome unit) : Prop :=
  match x with
  | inl response =>
      if status_in (status_code response) [201; 200] then
        match json_body response with
        | Some v =>
            if Py.truthy v then
              exists post',
                post = Event (Echo false ("File created on branch: " ++ branch)%string) tt
                       :: Event (Echo false "Creating pull request...") tt :: post'
            else post = [file_failed] /\ o = Exited 1
        | None => post = [] /\ o = Uncaught JSONDecodeError
        end
      else
        post = [Event (Echo true (api_error "Error creating file: " response)) tt;
                file_failed]
        /\ o = Exited 1
  | inr e => post = [] /\ o = Uncaught e
  end.

(** What [pr] does from the reading of the clock on: the time [t] it
    reads names the branch, and what follows satisfies [R] for it. *)
Definition after_clock (R : Q -> list event -> outcome unit -> Prop) (rest : list event)
    (o : outcome unit) : Prop :=
  match rest with
  | [] => exit_status o = 1
  | asked :: post => exists t, asked = Event Now t /\ R t post o
  end.

(** What [pr] does once it has read the time [t]: it looks for the
    PipelineRun file, reads it and commits it to the branch named after
    [t]. *)
Definition file_step (ctx : context) (b : pr_options) (t : Q) (post : list event)
    (o : outcome unit) : Prop :=
  exists (found : bool) (post0 : list event),
    post = Event (PathExists (pipelinerun_file b)) found :: post0
    /\ if found then
         exists c post',
           post0 = Event (ReadText (pipelinerun_file b)) c :: post'
           /\ match c with
              | inl content =>
                  exists rq x post'',
                    post' = Event (Echo false ("Creating branch '" ++ branch_at t
                                               ++ "' with PipelineRun file...")%string) tt
                            :: Event (Http rq) x :: post''
                    /\ rq_method rq = POST
                    /\ rq_endpoint rq
                       = EpContents (configured_owner ctx) (pr_repo b)
                           ".tekton/pr-noop.yaml"
                    /\ rq_json rq
                       = Some (file_data content (branch_at t) (target_branch b)
                                 "Add Tekton PipelineRun")
                    /\ file_answer (branch_at t) x post'' o
              | inr e => post' = [] /\ o = Uncaught e
              end
       else
         post0 = [Event (Echo true ("Error: PipelineRun file not found: "
                                    ++ pipelinerun_file b)%string) tt]
         /\ o = Exited 1.

(** The opening of the web browser. *)
Definition is_browser (ev : event) : bool :=
  match ev with
  | Event e _ => match e with OpenBrowser _ => true | _ => false end
  end.

(** The five lines that end a run of [pr]. *)
Definition pr_summary (py_repr : value -> string) (b : pr_options)
    (items : list (string * value)) (branch : string) : list event :=
  [ Event (Echo false (PyStr.nl ++ "Pull Request Created!")%string) tt;
    Event (Echo false ("PR Number: "
                       ++ py_str py_repr
                            (match Py.lookup "number" items with
                             | Some v => v
                             | None => VStr EmptyString
                             end))%string) tt;
    Event (Echo false ("PR URL: " ++ py_str py_repr (html_url_of items))%string) tt;
    Event (Echo false ("Branch: " ++ branch)%string) tt;
    Event (Echo false ("Target Branch: " ++ target_branch b)%string) tt ].

(** What [pr] does from the request for the pull request on, on the
    branch named after the time [t]. *)
Definition pull_step (py_repr : value -> string) (b : pr_options) (t : Q)
    (rest : list event) (o : outcome unit) : Prop :=
  match rest with
  | [] => exit_status o = 1
  | first :: post =>
      exists rq x,
        first = Event (Http rq) x
        /\ match x with
           | inl response =>
               if status_in (status_code response) [201; 200] then
                 match json_body response with
                 | Some v =>
                     if Py.truthy v then
                       match v with
                       | VDict items =>
                           exists opened : bool,
                             post = (if no_open b then []
                                     else [Event (OpenBrowser (html_url_of items)) opened])
                                    ++ pr_summary py_repr b items (branch_at t)
                             /\ o = Returned tt
                       | _ => post = [] /\ o = Uncaught AttributeError
                       end
                     else post = [pull_failed] /\ o = Exited 1
                 | None => post = [] /\ o = Uncaught JSONDecodeError
                 end
               else
                 post = [Event (Echo true (api_error "Error creating pull request: "
                                             response)) tt;
                         pull_failed]
                 /\ o = Exited 1
           | inr e => post = [] /\ o = Uncaught e
           end
  end.

(** What [pr] does once it has read the time [t], from the request for
    the pull request on. *)
Definition pull_after (py_repr : value -> string) (b : pr_options) (t : Q)
    (post : list event) (o : outcome unit) : Prop :=
  pull_step py_repr b t (from_first is_pull_post post) o.

(* ------------------------------------------------------------------ *)
(** ** Vocabulary: the clone of [checkout] *)
(* ------------------------------------------------------------------ *)

(** The owner and the name [checkout] reads from its argument: the two
    sides of the first [/], or the configured owner and the argument. *)
Definition checkout_target (ctx : context) (repo : string) : string * string :=
  if PyStr.contains "/" repo then
    match PyStr.partition "/" repo with
    | (o, Some r) => (o, r)
    | (o, None) => (o, EmptyString)
    end
  else (configured_owner ctx, repo).

(** The address [checkout] clones from: the address of the forge with
    the repository as path and with [git] and the token as user
    information. *)
Definition token_url (py_repr : value -> string) (token : value) (parsed : parse_result)
    (target : string * string) : string :=
  urlunparse (scheme parsed) ("git:" ++ py_str py_repr token ++ "@" ++ netloc parsed)%string
    ("/" ++ fst target ++ "/" ++ snd target ++ ".git")%string.

(** The address [checkout] prints. *)
Definition public_url (parsed : parse_result) (target : string * string) : string :=
  (scheme parsed ++ "://" ++ netloc parsed ++ "/" ++ fst target ++ "/" ++ snd target
   ++ ".git")%string.

(** How [checkout] ends after a [git clone] that raised [e]: the failure
    is reported with what [git] printed and, when that holds [not found]
    in any case, with the hint that the repository may not exist. *)
Definition checkout_failed (target : string * string) (e : exn) (post : list event)
    (o : outcome unit) : Prop :=
  match e with
  | CalledProcessError _ err msg =>
      post = Event (Echo true ("Error cloning repository: " ++ msg)%string) tt
             :: match err with
                | Some error_msg =>
                    if PyStr.truthy error_msg then
                      Event (Echo true error_msg) tt
                      :: (if PyStr.contains "not found" (PyStr.lower error_msg)
                          then [Event (Echo true (PyStr.nl ++ "Repository " ++ fst target
                                                  ++ "/" ++ snd target
                                                  ++ " may not exist")%string) tt]
                          else [])
                    else []
                | None => []
                end
      /\ o = Exited 1
  | _ => post = [] /\ o = Uncaught e
  end.

(** The first program [checkout] runs after its token request, with
    [token] for a token and [dest_path] for the resolved destination:
    [git clone], from the address with the token. *)
Definition clone_call (py_repr : value -> string)
    (urlparse : string -> parse_result + exn) (ctx : context) (repo dest_path : string)
    (token : value) (rest : list event) (o : outcome unit) : Prop :=
  match rest with
  | [] => exit_status o = 1
  | first :: _ =>
      exists parsed x,
        urlparse (configured_url ctx) = inl parsed
        /\ first = Event (Subprocess
                            (git ["clone";
                                  token_url py_repr token parsed (checkout_target ctx repo);
                                  dest_path]%string None)) x
  end.

(** What [checkout] does from its first look at the file system on: it
    resolves the destination, and what follows satisfies [R] for the
    resolved path. *)
Definition from_resolution (destination : string)
    (R : string -> list event -> outcome unit -> Prop) (rest : list event)
    (o : outcome unit) : Prop :=
  match rest with
  | [] => exit_status o = 1
  | resolved :: after =>
      exists dest_path,
        resolved = Event (PathResolve destination) dest_path /\ R dest_path after o
  end.

(** What [checkout] does with the resolved destination [dest_path]. *)
Definition clone_step (py_repr : value -> string)
    (urlparse : string -> parse_result + exn) (ctx : context) (repo dest_path : string)
    : list event -> outcome unit -> Prop :=
  on_first is_token_post
    (from_token_request (configured_password ctx)
       ("checkout-" ++ snd (checkout_target ctx repo))
       (fun token post o =>
          clone_call py_repr urlparse ctx repo dest_path token
            (from_first is_subprocess post) o)).

(** How [checkout] ends, from the first program it runs on. *)
Definition clone_end (urlparse : string -> parse_result + exn) (ctx : context)
    (repo destination : string) (rest : list event) (o : outcome unit) : Prop :=
  match rest with
  | [] => exit_status o = 1
  | first :: post =>
      exists auth_url dest_path x,
        first = Event (Subprocess (git ["clone"; auth_url; dest_path]%string None)) x
        /\ match x with
           | inl _ =>
               exists parsed,
                 urlparse (configured_url ctx) = inl parsed
                 /\ post = [ Event (Echo false ("Repository cloned successfully to: "
                                                ++ destination)%string) tt;
                             Event (Echo false
                                      ("Repository URL: "
                                       ++ public_url parsed
                                            (checkout_target ctx repo))%string) tt ]
                 /\ o = Returned tt
           | inr e => checkout_failed (checkout_target ctx repo) e post o
           end
  end.

(* ------------------------------------------------------------------ *)
(** ** Vocabulary: runs that go through *)
(* ------------------------------------------------------------------ *)

Module CheckoutExamples.

(** [checkout alice/demo /tmp/demo] on the machine of [RepoExamples]:
    the destination is an empty directory and every request is
    answered. *)
Definition machine : Sim.world :=
  RepoExamples.machine (VDict [("sha1"%string, VStr "s3cr3t")]).

Definition cloned :=
  run (Sim.answer machine)
    (checkout_command Sim.repr Sim.urlparse Sim.ctx "alice/demo" "/tmp/demo") tt.

End CheckoutExamples.

(** An answer of the forge that lets a command go on: the request did
    not raise, and the token request gave a token that can be used. *)
Definition answered (password : string) (ev : event) : bool :=
  match http_of ev with
  | Some (_, x) =>
      match x with
      | inl _ => if is_token_post ev then Py.truthy (token_of password x) else true
      | inr _ => false
      end
  | None => true
  end.

(** An answer of the file system that lets [checkout] go on: the
    destination is not a file and holds no entry, or its parents can be
    made. *)
Definition destination_free (ev : event) : bool :=
  match ev with
  | Event e x =>
      match e in Eff X return X -> bool with
      | PathIsFile _ => fun is_file => negb is_file
      | PathIterAny _ =>
          fun y => match y with inl any_entry => negb any_entry | inr _ => false end
      | MkdirParents _ => fun m => match m with inl _ => true | inr _ => false end
      | _ => fun _ => true
      end x
  end.

(** [given_that G Q]: [Q] holds when every answer of the run is accepted
    by [G]. *)
Definition given_that {A : Type} (G : event -> bool)
    (Q : list event -> outcome A -> Prop) : list event -> outcome A -> Prop :=
  fun tr o => forallb G tr = true -> Q tr o.

(** [after_first P K]: the trace has an event accepted by [P], and what
    follows the first one satisfies [K]. *)
Definition after_first {A : Type} (P : event -> bool)
    (K : list event -> outcome A -> Prop) : list event -> outcome A -> Prop :=
  fun tr o =>
    match from_first P tr with
    | [] => False
    | _ :: post => K post o
    end.

Definition reached {A : Type} : list event -> outcome A -> Prop := fun _ _ => True.

(** [passes P]: the code returns, without an event accepted by [P]. *)
Definition passes {A : Type} (P : event -> bool) : list event -> outcome A -> Prop :=
  fun tr o => never P tr = true /\ exists a, o = Returned a.

(** An answer to the creation of the repository that lets [repo] go
    on: status 201 or 409, with a JSON object for a body. *)
Definition created (ev : event) : bool :=
  match http_of ev with
  | Some (_, inl response) =>
      if is_repo_create ev then
        (status_in (status_code response) [201; 409]
         && match json_body response with Some (VDict _) => true | _ => false end)%bool
      else true
  | _ => true
  end.

(** An answer to the creation of the repository of which the
    [clone_url] is a text that can be parsed. *)
Definition clonable (urlparse : string -> parse_result + exn) (ev : event) : bool :=
  match http_of ev with
  | Some (_, inl response) =>
      if is_repo_create ev then
        match json_body response with
        | Some (VDict items) =>
            match clone_url_of items with
            | VStr clone_url =>
                match urlparse clone_url with inl _ => true | inr _ => false end
            | _ => false
            end
        | _ => true
        end
      else true
  | _ => true
  end.

(** A program that was run returned. *)
Definition ran (ev : event) : bool :=
  match proc_of ev with
  | Some (_, inr _) => false
  | _ => true
  end.

(** An answer of the file system that lets [pr] go on: the file is
    there and can be read. *)
Definition readable (ev : event) : bool :=
  match ev with
  | Event e x =>
      match e in Eff X return X -> bool with
      | PathExists _ => fun found => found
      | ReadText _ => fun c => match c with inl _ => true | inr _ => false end
      | _ => fun _ => true
      end x
  end.

(** An answer to the commit of the file that lets [pr] go on: status
    200 or 201, with a body that is true in Python. *)
Definition committed (ev : event) : bool :=
  match http_of ev with
  | Some (_, inl response) =>
      if is_request POST ep_contents ev then
        (status_in (status_code response) [201; 200]
         && match json_body response with Some v => Py.truthy v | None => false end)%bool
      else true
  | _ => true
  end.

(* ------------------------------------------------------------------ *)
(** ** Reasoning about executions *)
(* ------------------------------------------------------------------ *)

Lemma run_exec {W A : Type} (h : handler W) (p : Prog A) (w : W) :
  exec p (trace_of (run h p w)) (outcome_of (run h p w)).
Proof.
  revert w. induction p as [a | c | e | X e k IH]; intros w; simpl.
  - constructor.
  - constructor.
  - constructor.
  - destruct (h X e w) as [x w1] eqn:Hh.
    specialize (IH x w1).
    destruct (run h (k x) w1) as [[tr o] w2].
    unfold trace_of, outcome_of in *. simpl in *.
    constructor. exact IH.
Qed.

Lemma always_run {W A : Type} (p : Prog A) (Q : list event -> outcome A -> Prop) :
  always p Q ->
  forall (h : handler W) (w : W), Q (trace_of (run h p w)) (outcome_of (run h p w)).
Proof. intros H h w. apply H. apply run_exec. Qed.

Lemma exec_inv {A : Type} (p : Prog A) tr o : exec p tr o -> exec_shape p tr o.
Proof. destruct 1; simpl; eauto. Qed.

Lemma always_Ret {A : Type} (a : A) (Q : list event -> outcome A -> Prop) :
  Q [] (Returned a) -> always (Ret a) Q.
Proof. intros H tr o He. apply exec_inv in He. destruct He; subst. exact H. Qed.

Lemma always_Exit {A : Type} c (Q : list event -> outcome A -> Prop) :
  Q [] (Exited c) -> always (Exit c) Q.
Proof. intros H tr o He. apply exec_inv in He. destruct He; subst. exact H. Qed.

Lemma always_Raise {A : Type} e (Q : list event -> outcome A -> Prop) :
  Q [] (Uncaught e) -> always (Raise e) Q.
Proof. intros H tr o He. apply exec_inv in He. destruct He; subst. exact H. Qed.

Lemma always_Vis {A X : Type} (e : Eff X) (k : X -> Prog A)
    (Q : list event -> outcome A -> Prop) :
  (forall x, always (k x) (fun tr o => Q (Event e x :: tr) o)) ->
  always (Vis e k) Q.
Proof.
  intros H tr o He. apply exec_inv in He. destruct He as (x & tr' & -> & He).
  apply (H x). exact He.
Qed.

Lemma always_mono {A : Type} (p : Prog A) (Q Q' : list event -> outcome A -> Prop) :
  always p Q -> (forall tr o, Q tr o -> Q' tr o) -> always p Q'.
Proof. intros H HQ tr o He. apply HQ, H, He. Qed.

Lemma always_bind {A B : Type} (p : Prog A) (f : A -> Prog B)
    (Q : list event -> outcome B -> Prop) :
  always p (then_ f Q) -> always (bind p f) Q.
Proof.
  revert Q. induction p as [a | c | e | X e k IH]; intros Q H; simpl.
  - specialize (H [] (Returned a) (exec_Ret a)). exact H.
  - apply always_Exit. exact (H [] (Exited c) (exec_Exit c)).
  - apply always_Raise. exact (H [] (Uncaught e) (exec_Raise e)).
  - apply always_Vis. intros x. apply IH.
    intros tr o He.
    specialize (H (Event e x :: tr) o (exec_Vis e k x He)).
    destruct o; simpl in *; exact H.
Qed.

Lemma always_try {A : Type} (p : Prog A) (h : exn -> option (Prog A))
    (Q : list event -> outcome A -> Prop) :
  always p (caught h Q) -> always (try_except p h) Q.
Proof.
  revert Q. induction p as [a | c | e | X e k IH]; intros Q H; simpl.
  - apply always_Ret. exact (H [] (Returned a) (exec_Ret a)).
  - apply always_Exit. exact (H [] (Exited c) (exec_Exit c)).
  - specialize (H [] (Uncaught e) (exec_Raise e)). simpl in H.
    destruct (h e); [exact H | apply always_Raise; exact H].
  - apply always_Vis. intros x. apply IH.
    intros tr o He.
    specialize (H (Event e x :: tr) o (exec_Vis e k x He)).
    destruct o; simpl in *; exact H.
Qed.

Lemma behaves_weaken {A : Type} (P P' : event -> bool) (R R' : outcome A -> Prop) p :
  behaves P R p ->
  (forall ev, P ev = true -> P' ev = true) ->
  (forall o, R o -> R' o) ->
  behaves P' R' p.
Proof.
  intros H HP HR. eapply always_mono; [exact H |].
  intros tr o [Htr Ho]. split; [| auto].
  rewrite forallb_forall in *. auto.
Qed.

Lemma from_first_skip (P : event -> bool) (tr1 tr2 : list event) :
  never P tr1 = true -> from_first P (tr1 ++ tr2) = from_first P tr2.
Proof.
  unfold never. induction tr1 as [| ev tr1 IH]; simpl; [reflexivity |].
  intros H. apply andb_prop in H. destruct H as [Hev Htr].
  destruct (P ev); [discriminate | auto].
Qed.

Lemma from_first_none (P : event -> bool) (tr : list event) :
  never P tr = true -> from_first P tr = [].
Proof.
  intros H. rewrite <- (app_nil_r tr). rewrite from_first_skip by exact H. reflexivity.
Qed.

(** Stepping over a call of which no event satisfies [P]. *)
Lemma always_bind_skip {A B : Type} (P : event -> bool) (R1 : outcome A -> Prop)
    (p : Prog A) (f : A -> Prog B) (R : list event -> outcome B -> Prop) :
  behaves (fun ev => negb (P ev)) R1 p ->
  (forall o1, R1 o1 ->
     match o1 with
     | Returned a => always (f a) (fun tr o => R (from_first P tr) o)
     | Exited c => R [] (Exited c)
     | Uncaught e => R [] (Uncaught e)
     end) ->
  always (bind p f) (fun tr o => R (from_first P tr) o).
Proof.
  intros Hp Hk. apply always_bind.
  eapply always_mono; [exact Hp |].
  intros tr1 o1 [Htr Ho]. specialize (Hk o1 Ho).
  destruct o1; simpl.
  - eapply always_mono; [exact Hk |]. intros tr o HR.
    rewrite from_first_skip by exact Htr. exact HR.
  - rewrite from_first_none by exact Htr. exact Hk.
  - rewrite from_first_none by exact Htr. exact Hk.
Qed.

Lemma behaves_Ret {A : Type} (P : event -> bool) (R : outcome A -> Prop) (a : A) :
  R (Returned a) -> behaves P R (Ret a).
Proof. intros H. apply always_Ret. split; [reflexivity | exact H]. Qed.

Lemma behaves_Exit {A : Type} (P : event -> bool) (R : outcome A -> Prop) c :
  R (Exited c) -> behaves P R (Exit c).
Proof. intros H. apply always_Exit. split; [reflexivity | exact H]. Qed.

Lemma behaves_Raise {A : Type} (P : event -> bool) (R : outcome A -> Prop) e :
  R (Uncaught e) -> behaves P R (Raise e).
Proof. intros H. apply always_Raise. split; [reflexivity | exact H]. Qed.

Lemma behaves_Vis {A X : Type} (P : event -> bool) (R : outcome A -> Prop)
    (e : Eff X) (k : X -> Prog A) :
  (forall x, P (Event e x) = true) ->
  (forall x, behaves P R (k x)) ->
  behaves P R (Vis e k).
Proof.
  intros HP Hk. apply always_Vis. intros x.
  eapply always_mono; [apply (Hk x) |].
  intros tr o [Htr Ho]. split; [| exact Ho].
  simpl. rewrite HP, Htr. reflexivity.
Qed.

Lemma behaves_bind {A B : Type} (P : event -> bool) (R1 : outcome A -> Prop)
    (R : outcome B -> Prop) (p : Prog A) (f : A -> Prog B) :
  behaves P R1 p ->
  (forall o1, R1 o1 ->
     match o1 with
     | Returned a => behaves P R (f a)
     | Exited c => R (Exited c)
     | Uncaught e => R (Uncaught e)
     end) ->
  behaves P R (bind p f).
Proof.
  intros Hp Hf. apply always_bind.
  eapply always_mono; [exact Hp |].
  intros tr1 o1 [Htr Ho]. specialize (Hf o1 Ho).
  destruct o1; simpl; [| split; assumption | split; assumption].
  eapply always_mono; [exact Hf |].
  intros tr2 o [Htr2 Ho2]. split; [| exact Ho2].
  rewrite forallb_app, Htr, Htr2. reflexivity.
Qed.

Lemma behaves_try {A : Type} (P : event -> bool) (R1 R : outcome A -> Prop)
    (p : Prog A) (h : exn -> option (Prog A)) :
  behaves P R1 p ->
  (forall o1, R1 o1 ->
     match o1 with
     | Uncaught e => match h e with
                     | Some q => behaves P R q
                     | None => R (Uncaught e)
                     end
     | o => R o
     end) ->
  behaves P R (try_except p h).
Proof.
  intros Hp Hh. apply always_try.
  eapply always_mono; [exact Hp |].
  intros tr1 o1 [Htr Ho]. specialize (Hh o1 Ho).
  destruct o1; simpl; try (split; assumption).
  destruct (h e); [| split; assumption].
  eapply always_mono; [exact Hh |].
  intros tr2 o [Htr2 Ho2]. split; [| exact Ho2].
  rewrite forallb_app, Htr, Htr2. reflexivity.
Qed.

(** The term on which the next step of a program depends. *)
Ltac innermost x :=
  lazymatch x with
  | match ?y with _ => _ end => innermost y
  | _ => x
  end.

Ltac head_scrutinee p :=
  lazymatch p with
  | bind ?q _ => head_scrutinee q
  | try_except ?q _ => head_scrutinee q
  | match ?x with _ => _ end => innermost x
  end.

(** Stepping through straight-line code that only performs events
    accepted by the predicate at hand. *)
Ltac quiet_step :=
  lazymatch goal with
  | |- behaves _ _ (Ret _) => apply behaves_Ret; simpl; auto
  | |- behaves _ _ (Exit _) => apply behaves_Exit; simpl; auto
  | |- behaves _ _ (Raise _) => apply behaves_Raise; simpl; auto
  | |- behaves _ _ (Vis _ _) =>
      apply behaves_Vis; [intros ?; reflexivity | intros ?]
  | |- behaves _ _ ?p =>
      first [ let x := head_scrutinee p in destruct x eqn:?
            | progress simpl
            | progress unfold echo, echo_err, trigger, raising, requests,
                subprocess_run, json, dict_get, as_str ]
  end.

Ltac quiet := repeat quiet_step.

(* ------------------------------------------------------------------ *)
(** ** Token creation *)
(* ------------------------------------------------------------------ *)

Lemma delete_existing_token_quiet py_repr forgejo_url auth name verify_tls tokens :
  behaves token_cleanup no_exit
    (delete_existing_token py_repr forgejo_url auth name verify_tls tokens).
Proof.
  induction tokens as [| token rest IH]; simpl.
  - quiet.
  - destruct token; simpl; quiet; exact IH.
Qed.

Lemma token_cleanup_quiet py_repr forgejo_url auth name verify_tls :
  behaves token_cleanup (fun o => o = Returned tt)
    (try_except
       (response <- requests GET forgejo_url (EpUserTokens (fst auth))
                      (BasicAuth (fst auth) (snd auth)) None verify_tls ;;
        if status_code response =? 200 then
          tokens <- json response ;;
          match Py.iter tokens with
          | Some l => delete_existing_token py_repr forgejo_url auth name verify_tls l
          | None => Raise TypeError
          end
        else Ret tt)
       (fun _ => Some (Ret tt))).
Proof.
  eapply behaves_try with (R1 := no_exit).
  - quiet. apply delete_existing_token_quiet.
  - intros [[] | c | e] H; simpl in *; auto; try contradiction.
    quiet.
Qed.

Lemma create_access_token_shape py_repr forgejo_url auth name verify_tls :
  always (create_access_token py_repr forgejo_url auth name verify_tls)
    (fun tr o => exists pre x post,
       tr = pre ++ Event (Http (token_request forgejo_url auth name verify_tls)) x :: post
       /\ forallb token_cleanup pre = true
       /\ token_answer auth x post o).
Proof.
  unfold create_access_token. apply always_bind.
  eapply always_mono; [apply token_cleanup_quiet |].
  intros tr1 o1 [Htr1 ->]. simpl.
  apply always_Vis. intros x.
  fold (token_request forgejo_url auth name verify_tls).
  assert (Hshape : forall post o, token_answer auth x post o ->
            exists pre x0 post0,
              tr1 ++ Event (Http (token_request forgejo_url auth name verify_tls)) x :: post
              = pre ++ Event (Http (token_request forgejo_url auth name verify_tls)) x0 :: post0
              /\ forallb token_cleanup pre = true /\ token_answer auth x0 post0 o).
  { intros post o H. exists tr1, x, post. auto. }
  destruct x as [response | e]; simpl.
  - destruct (status_in (status_code response) [201; 200]) eqn:Hst.
    + unfold json. destruct (json_body response) as [body |] eqn:Hbody; simpl.
      * destruct body; simpl;
          first [apply always_Ret | apply always_Raise];
          apply Hshape; simpl; rewrite Hst, Hbody; auto.
      * apply always_Raise. apply Hshape; simpl; rewrite Hst, Hbody; auto.
    + apply always_Vis. intros []. apply always_Ret.
      apply Hshape; simpl; rewrite Hst; auto.
  - apply always_Raise. apply Hshape; simpl; auto.
Qed.

Ltac event_cases :=
  let X := fresh "X" in
  let e := fresh "e" in
  let x := fresh "x" in
  intros [X e x]; destruct e; simpl; try reflexivity; try discriminate.

Lemma forallb_never (P P' : event -> bool) (tr : list event) :
  (forall ev, P ev = true -> P' ev = false) ->
  forallb P tr = true -> never P' tr = true.
Proof.
  intros H Htr. unfold never. rewrite forallb_forall in *.
  intros ev Hin. rewrite (H ev); auto.
Qed.

Lemma token_cleanup_not_post ev : token_cleanup ev = true -> is_token_post ev = false.
Proof.
  revert ev. event_cases.
  unfold token_cleanup, is_token_post, is_request, is_echo. simpl.
  destruct (rq_method r), (rq_endpoint r); simpl; auto; discriminate.
Qed.

(** C3 (amended). The token request is the first POST of
    [create_access_token].  When it is answered with status 200 or 201 the
    function returns the [sha1] entry of the body ([None] when the body
    has none) and prints nothing; when it is answered with any other
    status, 2xx or not, it prints the warning and returns the password,
    without raising and without ending the process. *)
Theorem create_access_token_fallback :
  forall (py_repr : value -> string) (W : Type) (h : handler W) (w : W)
         (forgejo_url : string) (auth : string * string) (name : string)
         (verify_tls : bool),
    let r := run h (create_access_token py_repr forgejo_url auth name verify_tls) w in
    exists x post,
      from_first is_token_post (trace_of r)
      = Event (Http (token_request forgejo_url auth name verify_tls)) x :: post
      /\ match x with
         | inl response =>
             if status_in (status_code response) [201; 200] then
               post = [] /\
               match json_body response with
               | Some (VDict items) => outcome_of r = Returned (sha1_of items)
               | Some _ => outcome_of r = Uncaught AttributeError
               | None => outcome_of r = Uncaught JSONDecodeError
               end
             else
               post = [Event (Echo false (token_warning (status_code response))) tt]
               /\ outcome_of r = Returned (VStr (snd auth))
         | inr e => post = [] /\ outcome_of r = Uncaught e
         end.
Proof.
  intros py_repr W h w forgejo_url auth name verify_tls r.
  destruct (always_run _ _
              (create_access_token_shape py_repr forgejo_url auth name verify_tls)
              h w) as (pre & x & post & Htr & Hpre & Hans).
  fold r in Htr, Hans.
  exists x, post. split.
  - rewrite Htr. rewrite from_first_skip.
    + reflexivity.
    + eapply forallb_never; [| exact Hpre]. apply token_cleanup_not_post.
  - exact Hans.
Qed.

(** C3, as stated, fails: 204 is a 2xx status, the body carries the
    secret, and the function prints the warning and returns the password. *)
Lemma create_access_token_204_returns_password :
  trace_of TokenExamples.no_content
  = [ Event (Http {| rq_method := GET; rq_base := "http://forge:3000";
                     rq_endpoint := EpUserTokens "alice";
                     rq_creds := BasicAuth "alice" "pw"; rq_json := None;
                     rq_verify := true; rq_timeout := None |})
        (Sim.ok 200 (Some (VList [])));
      Event (Http (token_request "http://forge:3000" ("alice", "pw")%string "demo" true))
        (Sim.ok 204 (Some (VDict TokenExamples.secret)));
      Event (Echo false (token_warning 204)) tt ]
  /\ 200 <= 204 < 300
  /\ outcome_of TokenExamples.no_content = Returned (VStr "pw")
  /\ outcome_of TokenExamples.no_content <> Returned (sha1_of TokenExamples.secret).
Proof.
  split; [| split; [| split]].
  - vm_compute. reflexivity.
  - lia.
  - vm_compute. reflexivity.
  - vm_compute. discriminate.
Qed.

(* ------------------------------------------------------------------ *)
(** ** Stepping up to the first event of interest *)
(* ------------------------------------------------------------------ *)

Lemma on_first_Vis_skip {A X : Type} (P : event -> bool)
    (R : list event -> outcome A -> Prop) (e : Eff X) (k : X -> Prog A) :
  (forall x, P (Event e x) = false) ->
  (forall x, always (k x) (on_first P R)) ->
  always (Vis e k) (on_first P R).
Proof.
  intros HP Hk. apply always_Vis. intros x.
  eapply always_mono; [apply (Hk x) |].
  intros tr o H. unfold on_first in *. simpl. rewrite HP. exact H.
Qed.

Lemma on_first_Vis_hit {A X : Type} (P : event -> bool)
    (R : list event -> outcome A -> Prop) (e : Eff X) (k : X -> Prog A) :
  (forall x, P (Event e x) = true) ->
  (forall x, always (k x) (fun tr o => R (Event e x :: tr) o)) ->
  always (Vis e k) (on_first P R).
Proof.
  intros HP Hk. apply always_Vis. intros x.
  eapply always_mono; [apply (Hk x) |].
  intros tr o H. unfold on_first in *. simpl. rewrite HP. exact H.
Qed.

Lemma on_first_bind_skip {A B : Type} (P : event -> bool) (R1 : outcome A -> Prop)
    (p : Prog A) (f : A -> Prog B) (R : list event -> outcome B -> Prop) :
  behaves (fun ev => negb (P ev)) R1 p ->
  (forall o1, R1 o1 ->
     match o1 with
     | Returned a => always (f a) (on_first P R)
     | Exited c => R [] (Exited c)
     | Uncaught e => R [] (Uncaught e)
     end) ->
  always (bind p f) (on_first P R).
Proof. apply always_bind_skip. Qed.

Lemma on_first_Ret {A : Type} (P : event -> bool)
    (R : list event -> outcome A -> Prop) (a : A) :
  R [] (Returned a) -> always (Ret a) (on_first P R).
Proof. intros H. apply always_Ret. exact H. Qed.

Lemma on_first_Exit {A : Type} (P : event -> bool)
    (R : list event -> outcome A -> Prop) c :
  R [] (Exited c) -> always (Exit c) (on_first P R).
Proof. intros H. apply always_Exit. exact H. Qed.

Lemma on_first_Raise {A : Type} (P : event -> bool)
    (R : list event -> outcome A -> Prop) e :
  R [] (Uncaught e) -> always (Raise e) (on_first P R).
Proof. intros H. apply always_Raise. exact H. Qed.

Lemma always_any {A : Type} (p : Prog A) (Q : list event -> outcome A -> Prop) :
  (forall tr o, Q tr o) -> always p Q.
Proof. intros H tr o _. apply H. Qed.

Lemma validate_required_config_behaves (ctx : context) :
  behaves is_echo (fun o => o = Exited 1 \/ (o = Returned tt /\ configured ctx))
    (validate_required_config (required_config ctx)).
Proof.
  unfold validate_required_config, missing, configured. simpl.
  destruct (PyStr.truthy_opt (ctx_forgejo_url ctx));
    destruct (PyStr.truthy_opt (ctx_username ctx));
    destruct (PyStr.truthy_opt (ctx_password ctx));
    destruct (PyStr.truthy_opt (ctx_repo_owner ctx));
    simpl; quiet.
  right. repeat split.
Qed.

(** The validation returns exactly when the configuration is complete. *)
Lemma validate_required_config_decides (ctx : context) :
  behaves is_echo
    (fun o => (o = Exited 1 /\ ~ configured ctx) \/ (o = Returned tt /\ configured ctx))
    (validate_required_config (required_config ctx)).
Proof.
  unfold validate_required_config, missing, configured. simpl.
  destruct (PyStr.truthy_opt (ctx_forgejo_url ctx));
    destruct (PyStr.truthy_opt (ctx_username ctx));
    destruct (PyStr.truthy_opt (ctx_password ctx));
    destruct (PyStr.truthy_opt (ctx_repo_owner ctx));
    simpl; quiet.
  all: first [ solve [right; repeat split; reflexivity]
             | left; split; [reflexivity | intros (H1 & H2 & H3 & H4); discriminate] ].
Qed.

Lemma create_access_token_behaves py_repr forgejo_url auth name verify_tls :
  behaves token_event no_exit
    (create_access_token py_repr forgejo_url auth name verify_tls).
Proof.
  eapply always_mono; [apply create_access_token_shape |].
  intros tr o (pre & x & post & -> & Hpre & Hans). split.
  - rewrite forallb_app. apply andb_true_intro. split.
    + rewrite forallb_forall in *. intros ev Hin. unfold token_event.
      rewrite (Hpre ev Hin). reflexivity.
    + simpl. unfold token_answer in Hans.
      destruct x as [response | e].
      * destruct (status_in (status_code response) [201; 200]);
          destruct Hans as [-> _]; reflexivity.
      * destruct Hans as [-> _]. reflexivity.
  - unfold token_answer in Hans. destruct x as [response | e].
    + destruct (status_in (status_code response) [201; 200]).
      * destruct Hans as [_ Ho]. destruct (json_body response) as [[] |]; subst; exact I.
      * destruct Hans as [_ ->]. exact I.
    + destruct Hans as [_ ->]. exact I.
Qed.

(** Steps through code event by event. *)
Ltac step :=
  lazymatch goal with
  | |- always (Ret _) _ => apply always_Ret
  | |- always (Exit _) _ => apply always_Exit
  | |- always (Raise _) _ => apply always_Raise
  | |- always (Vis _ _) _ => apply always_Vis; intros ?
  | |- always ?p _ =>
      first [ let x := head_scrutinee p in destruct x eqn:?
            | progress simpl
            | progress unfold echo, echo_err, trigger, raising, requests,
                subprocess_run, json, dict_get, as_str ]
  end.

(* ------------------------------------------------------------------ *)
(** ** Replacing a token of the same name *)
(* ------------------------------------------------------------------ *)

Lemma delete_existing_token_shape py_repr forgejo_url auth name verify_tls listing :
  always (delete_existing_token py_repr forgejo_url auth name verify_tls listing)
    (fun tr o => cleanup py_repr forgejo_url auth name verify_tls listing tr /\ no_exit o).
Proof.
  unfold cleanup.
  induction listing as [| token rest IH]; simpl.
  - apply always_Ret. split; [reflexivity | exact I].
  - destruct token; simpl; try (apply always_Raise; split; [reflexivity | exact I]).
    fold (name_of items).
    destruct (Py.eq_str (name_of items) name).
    + fold (id_of items). apply always_Vis. intros y.
      fold (delete_request py_repr forgejo_url auth verify_tls (id_of items)).
      destruct y as [response | e]; simpl.
      * apply always_Vis. intros []. apply always_Ret.
        split; [| exact I]. exists (inl response). reflexivity.
      * apply always_Raise. split; [| exact I]. exists (inr e). reflexivity.
    + exact IH.
Qed.

Lemma token_cleanup_shape py_repr forgejo_url auth name verify_tls :
  always
    (try_except
       (response <- requests GET forgejo_url (EpUserTokens (fst auth))
                      (BasicAuth (fst auth) (snd auth)) None verify_tls ;;
        if status_code response =? 200 then
          tokens <- json response ;;
          match Py.iter tokens with
          | Some l => delete_existing_token py_repr forgejo_url auth name verify_tls l
          | None => Raise TypeError
          end
        else Ret tt)
       (fun _ => Some (Ret tt)))
    (fun tr o =>
       o = Returned tt
       /\ exists x pre,
            tr = Event (Http (list_request forgejo_url auth verify_tls)) x :: pre
            /\ cleanup py_repr forgejo_url auth name verify_tls (listed x) pre).
Proof.
  unfold requests, raising. simpl. apply always_Vis. intros x.
  fold (list_request forgejo_url auth verify_tls).
  eapply always_mono
    with (Q := fun tr o =>
                 o = Returned tt
                 /\ cleanup py_repr forgejo_url auth name verify_tls (listed x) tr);
    cycle 1.
  { intros tr o [Ho Hc]. split; [exact Ho |]. exists x, tr. split; [reflexivity | exact Hc]. }
  assert (Hnone : cleanup py_repr forgejo_url auth name verify_tls [] []) by reflexivity.
  unfold listed.
  destruct x as [response | e]; simpl.
  - destruct (status_code response =? 200).
    + unfold json. destruct (json_body response) as [v |]; simpl.
      * destruct (Py.iter v) as [l |]; simpl.
        -- apply always_try.
           eapply always_mono; [apply delete_existing_token_shape |].
           intros tr1 o1 [Hc Hne].
           destruct o1 as [[] | c | e]; simpl; try contradiction.
           ++ auto.
           ++ apply always_Ret. rewrite app_nil_r. auto.
        -- apply always_Ret. auto.
      * apply always_Ret. auto.
    + apply always_Ret. auto.
  - apply always_Ret. auto.
Qed.

Lemma create_access_token_replaces py_repr forgejo_url auth name verify_tls :
  always (create_access_token py_repr forgejo_url auth name verify_tls)
    (fun tr o => exists x pre z post,
       tr = Event (Http (list_request forgejo_url auth verify_tls)) x
            :: pre ++ Event (Http (token_request forgejo_url auth name verify_tls)) z :: post
       /\ cleanup py_repr forgejo_url auth name verify_tls (listed x) pre).
Proof.
  unfold create_access_token. apply always_bind.
  eapply always_mono; [apply token_cleanup_shape |].
  intros tr1 o1 (-> & x & pre & -> & Hc). simpl.
  apply always_Vis. intros z. apply always_any. intros tr o.
  exists x, pre, z, tr. split; [reflexivity | exact Hc].
Qed.

(** In a listing of JSON objects with distinct names, the stale token is
    any token of the listing that bears the name. *)
Lemma stale_token_any (name : string) (listing : list value)
    (items : list (string * value)) :
  (forall v, In v listing -> exists i, v = VDict i) ->
  (forall i1 i2, In (VDict i1) listing -> In (VDict i2) listing ->
     name_of i1 = name_of i2 -> i1 = i2) ->
  In (VDict items) listing ->
  Py.eq_str (name_of items) name = true ->
  stale_token name listing = Some items.
Proof.
  intros Hdict Huniq Hin Hname.
  induction listing as [| v rest IH]; [contradiction |].
  destruct (Hdict v (or_introl eq_refl)) as [i ->]. simpl.
  destruct (Py.eq_str (name_of i) name) eqn:Hi.
  - f_equal. apply Huniq; [left; reflexivity | exact Hin |].
    unfold Py.eq_str in Hi, Hname.
    destruct (name_of i); try discriminate.
    destruct (name_of items); try discriminate.
    apply String.eqb_eq in Hi, Hname. congruence.
  - destruct Hin as [Heq | Hin].
    + injection Heq as ->. rewrite Hname in Hi. discriminate.
    + apply IH.
      * intros v Hv. apply Hdict. right. exact Hv.
      * intros i1 i2 H1 H2. apply Huniq; right; assumption.
      * exact Hin.
Qed.

Lemma run_bind_Returned {W A B : Type} (h : handler W) (p : Prog A) (f : A -> Prog B)
    (w w1 : W) (tr1 : list event) (a : A) :
  run h p w = (tr1, Returned a, w1) ->
  run h (bind p f) w
  = (tr1 ++ trace_of (run h (f a) w1), outcome_of (run h (f a) w1),
     world_of (run h (f a) w1)).
Proof.
  revert w tr1. induction p as [a' | c | e | X e k IH]; intros w tr1 H; simpl in *.
  - injection H as <- <- <-. destruct (run h (f a') w) as [[tr o] w2]. reflexivity.
  - discriminate H.
  - discriminate H.
  - destruct (h X e w) as [x w'].
    destruct (run h (k x) w') as [[tr o] w2] eqn:Hk.
    injection H as <- -> ->.
    rewrite (IH x w' tr Hk).
    reflexivity.
Qed.

Lemma run_try_Returned {W A : Type} (h : handler W) (p : Prog A)
    (hd : exn -> option (Prog A)) (w w1 : W) (tr1 : list event) (a : A) :
  run h p w = (tr1, Returned a, w1) ->
  run h (try_except p hd) w = (tr1, Returned a, w1).
Proof.
  revert w tr1. induction p as [a' | c | e | X e k IH]; intros w tr1 H; simpl in *.
  - exact H.
  - discriminate H.
  - discriminate H.
  - destruct (h X e w) as [x w'].
    destruct (run h (k x) w') as [[tr o] w2] eqn:Hk.
    injection H as <- -> ->.
    rewrite (IH x w' tr Hk). reflexivity.
Qed.

Lemma forge_cleanup py_repr forgejo_url auth name verify_tls toks s :
  exists tr,
    run Forge.answer
      (delete_existing_token py_repr forgejo_url auth name verify_tls
         (map Forge.listed_token toks)) s
    = (tr, Returned tt, after_cleanup name toks s).
Proof.
  unfold after_cleanup.
  induction toks as [| t toks IH]; simpl.
  - eexists. reflexivity.
  - unfold Forge.has_name at 1. fold (Forge.has_name name t).
    change (String.eqb (Forge.token_name t) name) with (Forge.has_name name t).
    destruct (Forge.has_name name t).
    + eexists. reflexivity.
    + exact IH.
Qed.

Lemma named_after_cleanup name s :
  (length (Forge.named name s) <= 1)%nat ->
  Forge.named name (after_cleanup name (Forge.tokens s) s) = [].
Proof.
  unfold Forge.named, after_cleanup. intros Hle.
  destruct (find (Forge.has_name name) (Forge.tokens s)) as [t |] eqn:Hfind; simpl.
  - assert (Hone : filter (Forge.has_name name) (Forge.tokens s) = [t]).
    { induction (Forge.tokens s) as [| t' l IHl]; simpl in *; [discriminate |].
      destruct (Forge.has_name name t') eqn:Ht'.
      - injection Hfind as ->. simpl in Hle.
        destruct (filter (Forge.has_name name) l); [reflexivity | simpl in Hle; lia].
      - apply IHl; assumption. }
    clear Hfind Hle.
    induction (Forge.tokens s) as [| t' l IHl]; simpl in *; [reflexivity |].
    destruct (Forge.has_name name t') eqn:Ht'.
    + injection Hone as -> Hnil.
      unfold Forge.has_id at 1. rewrite String.eqb_refl. simpl.
      clear IHl. induction l as [| t'' l IHl']; simpl in *; [reflexivity |].
      destruct (Forge.has_name name t'') eqn:Ht''; [discriminate |].
      destruct (negb _); simpl; [rewrite Ht'' |]; apply IHl'; exact Hnil.
    + destruct (negb _); simpl; [rewrite Ht' |]; apply IHl; exact Hone.
  - clear Hle. induction (Forge.tokens s) as [| t' l IHl]; simpl in *; [reflexivity |].
    destruct (Forge.has_name name t'); [discriminate | apply IHl; assumption].
Qed.

Lemma forge_replaces py_repr forgejo_url auth name verify_tls (s : Forge.state) :
  (length (Forge.named name s) <= 1)%nat ->
  let r := run Forge.answer
             (create_access_token py_repr forgejo_url auth name verify_tls) s in
  length (Forge.named name (world_of r)) = 1%nat
  /\ outcome_of r = Returned (VStr (Forge.secret (Forge.next_id s)))
  /\ Forge.next_id (world_of r) = Forge.next_id s + 1
  /\ Forge.strict (world_of r) = Forge.strict s.
Proof.
  intros Hle r.
  destruct (forge_cleanup py_repr forgejo_url auth name verify_tls (Forge.tokens s) s)
    as [tr Hloop].
  assert (Hnamed := named_after_cleanup name s Hle).
  set (s1 := after_cleanup name (Forge.tokens s) s) in *.
  assert (Hs1 : Forge.next_id s1 = Forge.next_id s /\ Forge.strict s1 = Forge.strict s).
  { unfold s1, after_cleanup. destruct (find _ _); simpl; auto. }
  destruct Hs1 as [Hid Hstrict].
  assert (Hexists : existsb (Forge.has_name name) (Forge.tokens s1) = false).
  { unfold Forge.named in Hnamed.
    induction (Forge.tokens s1) as [| t l IHl]; simpl in *; [reflexivity |].
    destruct (Forge.has_name name t); [discriminate | apply IHl; exact Hnamed]. }
  unfold r, create_access_token.
  erewrite run_bind_Returned; cycle 1.
  { apply run_try_Returned. unfold requests, raising. simpl.
    rewrite Hloop. reflexivity. }
  unfold requests, raising. simpl. unfold Forge.serve. simpl.
  rewrite Hexists, andb_false_r. simpl.
  unfold world_of, outcome_of. simpl.
  repeat split.
  - unfold Forge.named in *. simpl. rewrite filter_app, Hnamed. simpl.
    unfold Forge.has_name. simpl. rewrite String.eqb_refl. reflexivity.
  - rewrite Hid. reflexivity.
  - rewrite Hid. reflexivity.
  - exact Hstrict.
Qed.

(** C4. [create_access_token] first lists the tokens of the user; between
    the listing and the request for the new token it deletes the stale
    token, the first token of the listing that bears the requested name,
    and does nothing else but report it.  In a listing of JSON objects
    with distinct names the stale token is any token that bears the name.
    On a forge that keeps tokens and serves every request, whether or not
    it refuses names in use, and that holds at most one token of the name,
    each of two consecutive runs leaves exactly one token of the name and
    returns the secret of the token it made. *)
Theorem token_replaced_before_creation :
  (forall (py_repr : value -> string) (W : Type) (h : handler W) (w : W)
          (forgejo_url : string) (auth : string * string) (name : string)
          (verify_tls : bool),
     let r := run h (create_access_token py_repr forgejo_url auth name verify_tls) w in
     exists x pre z post,
       trace_of r
       = Event (Http (list_request forgejo_url auth verify_tls)) x
         :: pre ++ Event (Http (token_request forgejo_url auth name verify_tls)) z :: post
       /\ match stale_token name (listed x) with
          | Some items =>
              exists y,
                pre = Event (Http (delete_request py_repr forgejo_url auth verify_tls
                                     (id_of items))) y
                      :: match y with
                         | inl _ => [Event (Echo false (token_deleted name)) tt]
                         | inr _ => []
                         end
          | None => pre = []
          end)
  /\ (forall (name : string) (listing : list value) (items : list (string * value)),
        (forall v, In v listing -> exists i, v = VDict i) ->
        (forall i1 i2, In (VDict i1) listing -> In (VDict i2) listing ->
           name_of i1 = name_of i2 -> i1 = i2) ->
        In (VDict items) listing ->
        Py.eq_str (name_of items) name = true ->
        stale_token name listing = Some items)
  /\ (forall (py_repr : value -> string) (forgejo_url : string) (auth : string * string)
             (name : string) (verify_tls : bool) (s : Forge.state),
        (length (Forge.named name s) <= 1)%nat ->
        let ensure := create_access_token py_repr forgejo_url auth name verify_tls in
        let r1 := run Forge.answer ensure s in
        let r2 := run Forge.answer ensure (world_of r1) in
        length (Forge.named name (world_of r1)) = 1%nat
        /\ length (Forge.named name (world_of r2)) = 1%nat
        /\ outcome_of r1 = Returned (VStr (Forge.secret (Forge.next_id s)))
        /\ outcome_of r2 = Returned (VStr (Forge.secret (Forge.next_id s + 1)))).
Proof.
  split; [| split].
  - intros py_repr W h w forgejo_url auth name verify_tls r.
    destruct (always_run _ _
                (create_access_token_replaces py_repr forgejo_url auth name verify_tls)
                h w) as (x & pre & z & post & Htr & Hc).
    exists x, pre, z, post. split; [exact Htr | exact Hc].
  - apply stale_token_any.
  - intros py_repr forgejo_url auth name verify_tls s Hle ensure r1 r2.
    destruct (forge_replaces py_repr forgejo_url auth name verify_tls s Hle)
      as (H1 & Ho1 & Hid1 & _).
    fold ensure in H1, Ho1, Hid1. fold r1 in H1, Ho1, Hid1.
    assert (Hle1 : (length (Forge.named name (world_of r1)) <= 1)%nat) by lia.
    destruct (forge_replaces py_repr forgejo_url auth name verify_tls (world_of r1) Hle1)
      as (H2 & Ho2 & _).
    fold ensure in H2, Ho2. fold r2 in H2, Ho2.
    rewrite Hid1 in Ho2. auto.
Qed.

(** The forge holds a token [demo]; two runs for [demo] leave one token
    [demo] each, the second with a new secret. *)
Lemma token_replaced_on_used_forge :
  length (Forge.named "demo"
            (world_of (run Forge.answer ForgeExamples.ensure_demo ForgeExamples.used)))
  = 1%nat
  /\ length (Forge.named "demo"
               (world_of (run Forge.answer ForgeExamples.ensure_demo
                            (world_of (run Forge.answer ForgeExamples.ensure_demo
                                         ForgeExamples.used)))))
     = 1%nat
  /\ outcome_of (run Forge.answer ForgeExamples.ensure_demo ForgeExamples.used)
     = Returned (VStr (Forge.secret 8))
  /\ outcome_of (run Forge.answer ForgeExamples.ensure_demo
                   (world_of (run Forge.answer ForgeExamples.ensure_demo
                                ForgeExamples.used)))
     = Returned (VStr (Forge.secret (8 + 1))).
Proof.
  apply (proj2 (proj2 token_replaced_before_creation)
           Sim.repr "http://forge:3000"%string ("alice", "pw")%string "demo"%string true
           ForgeExamples.used).
  vm_compute. apply le_n.
Defined.

(* ------------------------------------------------------------------ *)
(** ** Branch names and pull requests *)
(* ------------------------------------------------------------------ *)

Lemma generate_branch_name_shape :
  always generate_branch_name
    (fun tr o => exists t, tr = [Event Now t] /\ o = Returned (branch_at t)).
Proof.
  unfold generate_branch_name. simpl.
  apply always_Vis. intros t. apply always_Ret. exists t. split; reflexivity.
Qed.

Lemma create_file_on_branch_behaves forgejo_url headers owner repo filepath content
    branch base_branch message verify_tls :
  behaves file_event no_exit
    (create_file_on_branch forgejo_url headers owner repo filepath content branch
       base_branch message verify_tls).
Proof. unfold create_file_on_branch. quiet. Qed.

Lemma create_pull_request_api_shape forgejo_url headers owner repo title head base
    verify_tls :
  always (create_pull_request_api forgejo_url headers owner repo title head base verify_tls)
    (fun tr o => exists x post,
       tr = Event (Http (pull_request forgejo_url headers owner repo title head base
                           verify_tls)) x :: post).
Proof.
  unfold create_pull_request_api. simpl. apply always_Vis. intros x.
  apply always_any. intros tr o. exists x, tr. reflexivity.
Qed.

(* ------------------------------------------------------------------ *)
(** ** Cluster registration *)
(* ------------------------------------------------------------------ *)

Lemma create_webhook_behaves forgejo_url headers owner repo hook_url verify_tls :
  behaves webhook_event no_exit
    (create_webhook forgejo_url headers owner repo hook_url verify_tls).
Proof. unfold create_webhook. quiet. Qed.

Lemma create_pac_resources_behaves py_repr namespace repo_name repo_url internal_url token :
  behaves pac_event no_exit
    (create_pac_resources py_repr namespace repo_name repo_url internal_url token).
Proof. unfold create_pac_resources. quiet. Qed.

Lemma create_pac_resources_first_call py_repr namespace repo_name repo_url internal_url token :
  always (create_pac_resources py_repr namespace repo_name repo_url internal_url token)
    (fun tr o => exists x post,
       tr = Event (Echo false (pac_started namespace)) tt
            :: Event (Subprocess (kubectl (kubectl_create_namespace namespace) None)) x
            :: post
       /\ forallb pac_event post = true
       /\ no_exit o
       /\ match x with
          | inr FileNotFoundError =>
              post = [Event (Echo true kubectl_not_found) tt] /\ o = Returned tt
          | _ => True
          end).
Proof.
  unfold create_pac_resources. simpl.
  apply always_Vis. intros []. apply always_Vis. intros x.
  eapply always_mono; cycle 1.
  { intros tr o H. exists x, tr. split; [reflexivity |]. exact H. }
  destruct x as [result | e]; simpl.
  - eapply always_mono.
    + assert (H : behaves pac_event no_exit
                    (create_pac_resources py_repr namespace repo_name repo_url
                       internal_url token))
        by apply create_pac_resources_behaves.
      unfold create_pac_resources in H. simpl in H.
      intros tr o He.
      exact (H _ _ (exec_Vis _ _ tt (exec_Vis _ _ (inl result) He))).
    + simpl. intros tr o [Htr Ho]. auto.
  - destruct e; simpl; repeat step;
      repeat match goal with u : unit |- _ => destruct u end; simpl; auto.
Qed.

(** C2 (amended). Every run of [create_pac_resources] makes its [kubectl]
    calls in the order of [pac_script]: create the namespace, delete the
    secret, create the secret, delete the custom resource, apply the
    custom resource; both deletions carry [--ignore-not-found] and come
    right before the creation they prepare, and the namespace is never
    deleted.  The run stops early only when a call raises or when the
    creation of the secret returns a non-zero code: the custom resource is
    not applied after a failed secret.  A namespace creation that returns,
    with any code, is followed by the calls for the secret.  The function
    never ends the process. *)
Theorem create_pac_resources_order :
  forall (py_repr : value -> string) (W : Type) (h : handler W) (w : W)
         (namespace repo_name : string) (repo_url : value) (internal_url : string)
         (token : value),
    let r := run h (create_pac_resources py_repr namespace repo_name repo_url
                      internal_url token) w in
    let made := calls (trace_of r) in
    let answers := map snd made in
    map fst made
    = firstn (length made) (pac_script py_repr namespace repo_name repo_url internal_url token)
    /\ (1 <= length made)%nat
    /\ no_exit (outcome_of r)
    /\ (forall e, nth_error answers 0 = Some (inr e) -> length made = 1%nat)
    /\ (forall result, nth_error answers 0 = Some (inl result) -> (2 <= length made)%nat)
    /\ (forall result, nth_error answers 1 = Some (inl result) -> (3 <= length made)%nat)
    /\ (forall result, nth_error answers 2 = Some (inl result) ->
          if returncode result =? 0 then (4 <= length made)%nat
          else length made = 3%nat)
    /\ (forall result, nth_error answers 3 = Some (inl result) -> length made = 5%nat).
Proof.
  intros py_repr W h w namespace repo_name repo_url internal_url token r.
  apply (always_run _
           (fun tr o =>
              let made := calls tr in
              let answers := map snd made in
              map fst made
              = firstn (length made)
                  (pac_script py_repr namespace repo_name repo_url internal_url token)
              /\ (1 <= length made)%nat
              /\ no_exit o
              /\ (forall e, nth_error answers 0 = Some (inr e) -> length made = 1%nat)
              /\ (forall result, nth_error answers 0 = Some (inl result) ->
                    (2 <= length made)%nat)
              /\ (forall result, nth_error answers 1 = Some (inl result) ->
                    (3 <= length made)%nat)
              /\ (forall result, nth_error answers 2 = Some (inl result) ->
                    if returncode result =? 0 then (4 <= length made)%nat
                    else length made = 3%nat)
              /\ (forall result, nth_error answers 3 = Some (inl result) ->
                    length made = 5%nat))).
  unfold create_pac_resources.
  repeat step.
  all: simpl; repeat split; try reflexivity; try lia; try exact I.
  all: try (intros ? Hnth; discriminate Hnth).
  all: intros ? Hnth; injection Hnth as <-.
  all: repeat match goal with H : (returncode _ =? 0) = _ |- _ => rewrite H end.
  all: simpl; try lia.
Qed.

(** C2, as stated, fails: the creation of the namespace fails (code 1, not
    "already exists") and the secret and the custom resource are created
    all the same. *)
Lemma namespace_failure_does_not_stop :
  map snd (calls (trace_of PacExamples.forbidden))
  = [ Sim.done 1 "Error from server (Forbidden)"; Sim.done 0 EmptyString; Sim.done 0 EmptyString;
      Sim.done 0 EmptyString; Sim.done 0 EmptyString ]
  /\ map fst (calls (trace_of PacExamples.forbidden))
     = pac_script Sim.repr "demo" "demo" (VStr "http://forge:3000/alice/demo")
         default_internal_url (VStr "s3cr3t")
  /\ PyStr.contains "AlreadyExists" "Error from server (Forbidden)" = false
  /\ outcome_of PacExamples.forbidden = Returned tt.
Proof. repeat split; vm_compute; reflexivity. Qed.

(* ------------------------------------------------------------------ *)
(** ** Stepping through the commands *)
(* ------------------------------------------------------------------ *)

(** Unfolds the classifiers of events down to the method and the
    endpoint of a request, or to the arguments of a subprocess. *)
Ltac classify :=
  unfold token_event, token_cleanup, webhook_event, pac_event, file_event,
    is_token_post, is_repo_delete, is_repo_create, is_pull_post, is_request, is_echo,
    is_http, is_subprocess, is_kubectl, is_path, is_clock in *;
  simpl in *.

(** Facts of the form "an event accepted by this classifier is rejected
    by that one". *)
Ltac by_event_cases :=
  let X := fresh "X" in
  let e := fresh "e" in
  let x := fresh "x" in
  intros [X e x]; destruct e;
  classify; try reflexivity; try discriminate;
  try match goal with
      | r : http_request |- _ =>
          destruct (rq_method r); destruct (rq_endpoint r);
          simpl; intros; try reflexivity; try discriminate
      | c : proc_call |- _ =>
          destruct (argv c);
          simpl; intros; try reflexivity; try discriminate
      end.

Lemma no_exit_exits_1 {A : Type} (o : outcome A) : no_exit o -> exits_1 o.
Proof. destruct o; simpl; auto. contradiction. Qed.

(** [quiet_step], with the functions of the script taken as a whole. *)
Ltac hush_step :=
  lazymatch goal with
  | |- behaves _ _ (bind (create_access_token _ _ _ _ _) _) =>
      eapply behaves_bind;
      [ eapply behaves_weaken;
        [ apply create_access_token_behaves
        | solve [by_event_cases]
        | intros ? Ho; exact Ho ]
      | intros [? | ? | ?] ?; simpl; auto; try contradiction ]
  | |- behaves _ _ (bind (create_webhook _ _ _ _ _ _) _) =>
      eapply behaves_bind;
      [ eapply behaves_weaken;
        [ apply create_webhook_behaves
        | solve [by_event_cases]
        | intros ? Ho; exact Ho ]
      | intros [? | ? | ?] ?; simpl; auto; try contradiction ]
  | |- behaves _ _ (bind (create_pac_resources _ _ _ _ _ _) _) =>
      eapply behaves_bind;
      [ eapply behaves_weaken;
        [ apply create_pac_resources_behaves
        | solve [by_event_cases]
        | intros ? Ho; exact Ho ]
      | intros [? | ? | ?] ?; simpl; auto; try contradiction ]
  | |- behaves _ _ (create_webhook _ _ _ _ _ _) =>
      eapply behaves_weaken;
      [ apply create_webhook_behaves
      | solve [by_event_cases]
      | apply no_exit_exits_1 ]
  | |- behaves _ _ (create_pac_resources _ _ _ _ _ _) =>
      eapply behaves_weaken;
      [ apply create_pac_resources_behaves
      | solve [by_event_cases]
      | apply no_exit_exits_1 ]
  | |- behaves _ _ _ => quiet_step
  end.

Ltac hush := repeat hush_step.

Lemma led_by_here {A : Type} (P : event -> bool)
    (R : list event -> outcome A -> Prop) (tr : list event) (o : outcome A) :
  R tr o -> led_by P R tr o.
Proof. intros H. exists [], tr. auto. Qed.

Lemma led_by_app {A : Type} (P : event -> bool)
    (R : list event -> outcome A -> Prop) (tr1 tr2 : list event) (o : outcome A) :
  forallb P tr1 = true -> led_by P R tr2 o -> led_by P R (tr1 ++ tr2) o.
Proof.
  intros H1 (pre & rest & -> & Hpre & HR).
  exists (tr1 ++ pre), rest. rewrite app_assoc. split; [reflexivity |].
  split; [| exact HR]. rewrite forallb_app, H1, Hpre. reflexivity.
Qed.

Lemma led_by_Vis_skip {A X : Type} (P : event -> bool)
    (R : list event -> outcome A -> Prop) (e : Eff X) (k : X -> Prog A) :
  (forall x, P (Event e x) = true) ->
  (forall x, always (k x) (led_by P R)) ->
  always (Vis e k) (led_by P R).
Proof.
  intros HP Hk. apply always_Vis. intros x.
  eapply always_mono; [apply (Hk x) |].
  intros tr o H. apply (led_by_app P R [Event e x] tr o); [| exact H].
  simpl. rewrite HP. reflexivity.
Qed.

Lemma led_by_bind_skip {A B : Type} (P : event -> bool) (R1 : outcome A -> Prop)
    (p : Prog A) (f : A -> Prog B) (R : list event -> outcome B -> Prop) :
  behaves P R1 p ->
  (forall o1, R1 o1 ->
     match o1 with
     | Returned a => always (f a) (led_by P R)
     | Exited c => R [] (Exited c)
     | Uncaught e => R [] (Uncaught e)
     end) ->
  always (bind p f) (led_by P R).
Proof.
  intros Hp Hk. apply always_bind.
  eapply always_mono; [exact Hp |].
  intros tr1 o1 [Htr Ho]. specialize (Hk o1 Ho).
  destruct o1; simpl.
  - eapply always_mono; [exact Hk |]. intros tr o HR.
    apply led_by_app; assumption.
  - exists tr1, []. rewrite app_nil_r. auto.
  - exists tr1, []. rewrite app_nil_r. auto.
Qed.

Lemma led_by_Ret {A : Type} (P : event -> bool)
    (R : list event -> outcome A -> Prop) (a : A) :
  R [] (Returned a) -> always (Ret a) (led_by P R).
Proof. intros H. apply always_Ret. apply led_by_here. exact H. Qed.

Lemma led_by_Exit {A : Type} (P : event -> bool)
    (R : list event -> outcome A -> Prop) c :
  R [] (Exited c) -> always (Exit c) (led_by P R).
Proof. intros H. apply always_Exit. apply led_by_here. exact H. Qed.

Lemma led_by_Raise {A : Type} (P : event -> bool)
    (R : list event -> outcome A -> Prop) e :
  R [] (Uncaught e) -> always (Raise e) (led_by P R).
Proof. intros H. apply always_Raise. apply led_by_here. exact H. Qed.

(** Steps through code of which no event is of interest, with the
    lemmas of the predicate at hand. *)
Ltac skip_step_with vis_skip bind_skip ret_ exit_ raise_ :=
  lazymatch goal with
  | |- always (Ret _) _ => apply ret_
  | |- always (Exit _) _ => apply exit_
  | |- always (Raise _) _ => apply raise_
  | |- always (Vis _ _) _ =>
      apply vis_skip; [intros ?; reflexivity | intros ?]
  | |- always (bind (validate_required_config _) _) _ =>
      eapply bind_skip;
      [ eapply behaves_weaken;
        [ apply validate_required_config_behaves
        | solve [by_event_cases]
        | intros ? Ho; exact Ho ]
      | let o := fresh "o" in
        let Hcfg := fresh "Hcfg" in
        intros o [-> | [-> Hcfg]]; simpl ]
  | |- always (bind (create_access_token _ _ _ _ _) _) _ =>
      eapply bind_skip;
      [ eapply behaves_weaken;
        [ apply create_access_token_behaves
        | solve [by_event_cases]
        | intros ? Ho; exact Ho ]
      | let token := fresh "token" in
        intros [token | ? | ?] ?; simpl; try contradiction ]
  | |- always (bind (create_webhook _ _ _ _ _ _) _) _ =>
      eapply bind_skip;
      [ eapply behaves_weaken;
        [ apply create_webhook_behaves
        | solve [by_event_cases]
        | intros ? Ho; exact Ho ]
      | intros [[] | ? | ?] ?; simpl; try contradiction ]
  | |- always (bind (create_file_on_branch _ _ _ _ _ _ _ _ _ _) _) _ =>
      eapply bind_skip;
      [ eapply behaves_weaken;
        [ apply create_file_on_branch_behaves
        | solve [by_event_cases]
        | intros ? Ho; exact Ho ]
      | intros [? | ? | ?] ?; simpl; try contradiction ]
  | |- always (bind (create_pac_resources _ _ _ _ _ _) _) _ =>
      eapply bind_skip;
      [ eapply behaves_weaken;
        [ apply create_pac_resources_behaves
        | solve [by_event_cases]
        | intros ? Ho; exact Ho ]
      | intros [[] | ? | ?] ?; simpl; try contradiction ]
  | |- always (@bind unit _ (match _ with _ => _ end) _) _ =>
      first [ eapply bind_skip with (R1 := exits_1);
              [ solve [hush]
              | let c := fresh "c" in
                let Hc := fresh "Hc" in
                intros [? | c | ?] Hc; simpl in Hc; [| subst c |]; simpl ]
            | let p := lazymatch goal with |- always ?p _ => p end in
              let x := head_scrutinee p in destruct x eqn:? ]
  | |- always (@bind unit _ (try_except _ _) _) _ =>
      eapply bind_skip with (R1 := exits_1);
      [ solve [hush]
      | let c := fresh "c" in
        let Hc := fresh "Hc" in
        intros [? | c | ?] Hc; simpl in Hc; [| subst c |]; simpl ]
  | |- always ?p _ =>
      first [ let x := head_scrutinee p in destruct x eqn:?
            | progress simpl
            | progress unfold echo, echo_err, trigger, raising, requests,
                subprocess_run, json, dict_get, as_str ]
  end.

Ltac skip_step :=
  skip_step_with @on_first_Vis_skip @on_first_bind_skip @on_first_Ret @on_first_Exit
    @on_first_Raise.

Ltac lead_step :=
  skip_step_with @led_by_Vis_skip @led_by_bind_skip @led_by_Ret @led_by_Exit
    @led_by_Raise.

(* ------------------------------------------------------------------ *)
(** ** Runs that go through *)
(* ------------------------------------------------------------------ *)

Lemma given_Vis_skip {A X : Type} (G P : event -> bool)
    (K : list event -> outcome A -> Prop) (e : Eff X) (k : X -> Prog A) :
  (forall x, P (Event e x) = false) ->
  (forall x, G (Event e x) = true -> always (k x) (given_that G (after_first P K))) ->
  always (Vis e k) (given_that G (after_first P K)).
Proof.
  intros HP Hk. apply always_Vis. intros x tr o He HG.
  simpl in HG. apply andb_prop in HG. destruct HG as [Hx HG].
  unfold after_first. simpl. rewrite HP. exact (Hk x Hx tr o He HG).
Qed.

Lemma given_Vis_hit {A X : Type} (G P : event -> bool)
    (K : list event -> outcome A -> Prop) (e : Eff X) (k : X -> Prog A) :
  (forall x, P (Event e x) = true) ->
  (forall x, G (Event e x) = true -> always (k x) (given_that G K)) ->
  always (Vis e k) (given_that G (after_first P K)).
Proof.
  intros HP Hk. apply always_Vis. intros x tr o He HG.
  simpl in HG. apply andb_prop in HG. destruct HG as [Hx HG].
  unfold after_first. simpl. rewrite HP. exact (Hk x Hx tr o He HG).
Qed.

Lemma given_bind_skip {A B : Type} (G P : event -> bool) (R1 : A -> Prop)
    (K : list event -> outcome B -> Prop) (p : Prog A) (k : A -> Prog B) :
  always p (given_that G (fun tr o => never P tr = true /\ exists a, o = Returned a /\ R1 a)) ->
  (forall a, R1 a -> always (k a) (given_that G (after_first P K))) ->
  always (bind p k) (given_that G (after_first P K)).
Proof.
  intros Hp Hk. apply always_bind. intros tr1 o1 He1.
  specialize (Hp tr1 o1 He1). unfold given_that in Hp.
  destruct o1 as [a | c | e]; simpl.
  - intros tr2 o He2 HG. rewrite forallb_app in HG. apply andb_prop in HG.
    destruct HG as [HG1 HG2]. destruct (Hp HG1) as (Hnever & a' & Ha & HR).
    injection Ha as <-. unfold after_first. rewrite from_first_skip by exact Hnever.
    exact (Hk a HR tr2 o He2 HG2).
  - intros HG. destruct (Hp HG) as (_ & a' & Ha & _). discriminate Ha.
  - intros HG. destruct (Hp HG) as (_ & a' & Ha & _). discriminate Ha.
Qed.

(** A call in which the event is found, followed by events [P'] does
    not accept. *)
Lemma given_bind_hit {A B : Type} (G P : event -> bool) (R1 : A -> Prop)
    (K : list event -> outcome B -> Prop) (p : Prog A) (k : A -> Prog B) :
  always p
    (given_that G
       (fun tr o => exists pre ev post a,
          tr = pre ++ ev :: post /\ never P pre = true /\ P ev = true
          /\ o = Returned a /\ R1 a
          /\ forall tr2 o2, K tr2 o2 -> K (post ++ tr2) o2)) ->
  (forall a, R1 a -> always (k a) (given_that G K)) ->
  always (bind p k) (given_that G (after_first P K)).
Proof.
  intros Hp Hk. apply always_bind. intros tr1 o1 He1.
  specialize (Hp tr1 o1 He1). unfold given_that in Hp.
  destruct o1 as [a | c | e]; simpl.
  - intros tr2 o He2 HG. rewrite forallb_app in HG. apply andb_prop in HG.
    destruct HG as [HG1 HG2].
    destruct (Hp HG1) as (pre & ev & post & a' & -> & Hnever & Hev & Ha & HR & Hpost).
    injection Ha as <-. unfold after_first.
    rewrite <- app_assoc. rewrite from_first_skip by exact Hnever.
    simpl. rewrite Hev. apply Hpost. exact (Hk a HR tr2 o He2 HG2).
  - intros HG. destruct (Hp HG) as (? & ? & ? & a' & _ & _ & _ & Ha & _). discriminate Ha.
  - intros HG. destruct (Hp HG) as (? & ? & ? & a' & _ & _ & _ & Ha & _). discriminate Ha.
Qed.

Lemma given_reached {A : Type} (G : event -> bool) (p : Prog A) :
  always p (given_that G reached).
Proof. intros tr o _ _. exact I. Qed.

Lemma after_first_reached {A : Type} (P : event -> bool)
    (K : list event -> outcome A -> Prop) (tr : list event) (o : outcome A) :
  after_first P K tr o -> from_first P tr <> [].
Proof.
  unfold after_first. destruct (from_first P tr); [contradiction | discriminate].
Qed.

Lemma after_first_skip {A : Type} (P : event -> bool)
    (K : list event -> outcome A -> Prop) (pre tr : list event) (o : outcome A) :
  never P pre = true -> after_first P K tr o -> after_first P K (pre ++ tr) o.
Proof.
  intros Hpre. unfold after_first. rewrite from_first_skip by exact Hpre.
  intros H. exact H.
Qed.

Lemma forallb_fst (G1 G2 : event -> bool) (tr : list event) :
  forallb (fun ev => G1 ev && G2 ev)%bool tr = true -> forallb G1 tr = true.
Proof.
  intros H. rewrite forallb_forall in *. intros ev Hin.
  specialize (H ev Hin). apply andb_prop in H. apply H.
Qed.

Lemma forallb_both (G1 G2 : event -> bool) (tr : list event) :
  forallb G1 tr = true -> forallb G2 tr = true ->
  forallb (fun ev => G1 ev && G2 ev)%bool tr = true.
Proof.
  intros H1 H2. rewrite forallb_forall in *. intros ev Hin.
  rewrite (H1 ev Hin), (H2 ev Hin). reflexivity.
Qed.

Lemma validate_required_config_passes (ctx : context) :
  configured ctx ->
  always (validate_required_config (required_config ctx))
    (fun tr o => tr = [] /\ o = Returned tt).
Proof.
  intros (H1 & H2 & H3 & H4).
  unfold validate_required_config, missing. simpl.
  rewrite H1, H2, H3, H4. simpl. apply always_Ret. split; reflexivity.
Qed.

Lemma create_access_token_answered py_repr forgejo_url user password name verify_tls :
  always (create_access_token py_repr forgejo_url (user, password) name verify_tls)
    (given_that (answered password)
       (fun tr o => exists pre x post token,
          tr = pre ++ Event (Http (token_request forgejo_url (user, password) name
                                     verify_tls)) x :: post
          /\ forallb token_cleanup pre = true
          /\ forallb is_echo post = true
          /\ o = Returned token
          /\ token = token_of password x
          /\ Py.truthy token = true)).
Proof.
  eapply always_mono; [apply create_access_token_shape |].
  intros tr o (pre & x & post & -> & Hpre & Hans) HG.
  rewrite forallb_app in HG. apply andb_prop in HG. destruct HG as [_ HG].
  simpl in HG. apply andb_prop in HG. destruct HG as [Hx _].
  unfold answered in Hx. simpl in Hx.
  destruct x as [response |]; [| discriminate Hx].
  change (is_token_post (Event (Http (token_request forgejo_url (user, password) name
                                        verify_tls)) (inl response))) with true in Hx.
  simpl in Hx.
  exists pre, (inl response), post, (token_of password (inl response)).
  split; [reflexivity |]. split; [exact Hpre |].
  unfold token_answer in Hans. unfold token_of in *.
  destruct (status_in (status_code response) [201; 200]).
  - destruct Hans as [-> Ho].
    destruct (json_body response) as [[] |]; try discriminate Hx.
    repeat split; auto.
  - destruct Hans as [-> ->]. repeat split; auto.
Qed.

Lemma create_access_token_passes py_repr forgejo_url user password name verify_tls :
  always (create_access_token py_repr forgejo_url (user, password) name verify_tls)
    (given_that (answered password)
       (fun tr o => forallb token_event tr = true
                    /\ exists token, o = Returned token /\ Py.truthy token = true)).
Proof.
  intros tr o He HG.
  destruct (create_access_token_behaves py_repr forgejo_url (user, password) name verify_tls
              tr o He) as [Hev _].
  destruct (create_access_token_answered py_repr forgejo_url user password name verify_tls
              tr o He HG) as (_ & _ & _ & token & _ & _ & _ & -> & _ & Ht).
  split; [exact Hev |]. exists token. split; [reflexivity | exact Ht].
Qed.

(* ------------------------------------------------------------------ *)
(** ** The [repo] workflow *)
(* ------------------------------------------------------------------ *)

Opaque create_access_token validate_required_config create_webhook
  create_pac_resources create_file_on_branch create_pull_request_api
  generate_branch_name.

(** The facts at hand about the answers of the run, computed. *)
Ltac settle :=
  repeat match goal with
         | H : _ = true |- _ => progress simpl in H
         | H : true = true |- _ => clear H
         end;
  try discriminate; try congruence.

(** Steps through a run in which every answer is accepted, up to the
    events of interest: a branch that would end the run before them
    contradicts an answer. *)
Ltac go_step :=
  lazymatch goal with
  | |- always _ (given_that _ reached) => apply given_reached
  | |- always (Vis _ _) (given_that _ (after_first _ _)) =>
      let x := fresh "x" in
      let HG := fresh "HG" in
      first [ apply given_Vis_skip; [intros ?; reflexivity | intros x HG]
            | apply given_Vis_hit;
              [ intros ?;
                try match goal with |- context [on_org ?a] => destruct (on_org a) end;
                reflexivity
              | intros x HG ] ];
      settle
  | |- always (bind (validate_required_config _) _) (given_that _ (after_first _ _)) =>
      eapply given_bind_skip with (R1 := fun _ => True);
      [ eapply always_mono;
        [ apply validate_required_config_passes; assumption
        | intros ? ? [-> ->] _; split; [reflexivity | eexists; split; [reflexivity | exact I]] ]
      | intros [] _ ]
  | |- always (bind (create_access_token _ _ _ _ _) _)
         (given_that _ (after_first is_token_post _)) =>
      eapply given_bind_hit with (R1 := fun token => Py.truthy token = true);
      [ eapply always_mono;
        [ apply create_access_token_answered
        | let H := fresh "H" in
          let HG := fresh "HG" in
          let Hpre := fresh "Hpre" in
          let Hpost := fresh "Hpost" in
          intros ? ? H HG;
          first [specialize (H HG) | specialize (H (forallb_fst _ _ _ HG))];
          destruct H as (? & ? & ? & ? & -> & Hpre & Hpost & -> & _ & ?);
          eexists _, _, _, _; split; [reflexivity |];
          split; [eapply forallb_never; [apply token_cleanup_not_post | exact Hpre] |];
          split; [reflexivity |]; split; [reflexivity |]; split; [assumption |];
          first [ intros; exact I
                | intros ? ?; apply after_first_skip;
                  eapply forallb_never; [| exact Hpost]; solve [by_event_cases] ] ]
      | let token := fresh "token" in
        let Htoken := fresh "Htoken" in
        intros token Htoken; cbv beta; rewrite ?Htoken ]
  | |- always (bind (create_access_token _ _ _ _ _) _) (given_that _ (after_first _ _)) =>
      eapply given_bind_skip with (R1 := fun token => Py.truthy token = true);
      [ eapply always_mono;
        [ apply create_access_token_passes
        | let H := fresh "H" in
          let HG := fresh "HG" in
          let Hev := fresh "Hev" in
          intros ? ? H HG;
          first [specialize (H HG) | specialize (H (forallb_fst _ _ _ HG))];
          destruct H as (Hev & ? & -> & ?);
          split;
          [ eapply forallb_never; [| exact Hev]; solve [by_event_cases]
          | eexists; split; [reflexivity | assumption] ] ]
      | let token := fresh "token" in
        let Htoken := fresh "Htoken" in
        intros token Htoken; cbv beta; rewrite ?Htoken ]
  | |- always ?p (given_that _ (after_first _ _)) =>
      first [ let x := head_scrutinee p in destruct x eqn:?; settle
            | progress simpl
            | progress unfold echo, echo_err, trigger, raising, requests,
                subprocess_run, json, dict_get, as_str ]
  end.

(** The four values of a complete configuration. *)
Ltac with_configuration ctx Hcfg :=
  let H1 := fresh "H" in
  let H2 := fresh "H" in
  let H3 := fresh "H" in
  let H4 := fresh "H" in
  assert (H1 := Hcfg); destruct H1 as (H1 & H2 & H3 & H4);
  destruct (ctx_forgejo_url ctx); [| discriminate];
  destruct (ctx_username ctx); [| discriminate];
  destruct (ctx_password ctx); [| discriminate];
  destruct (ctx_repo_owner ctx); [| discriminate].

Lemma repo_reaches_deletion py_repr urlparse ctx a :
  configured ctx ->
  always (repo_command py_repr urlparse ctx a)
    (given_that (answered (configured_password ctx)) (after_first is_repo_delete reached)).
Proof.
  intros Hcfg. unfold repo_command, configured_password.
  with_configuration ctx Hcfg.
  repeat go_step.
Qed.

Lemma repo_reaches_creation py_repr urlparse ctx a :
  configured ctx ->
  always (repo_command py_repr urlparse ctx a)
    (given_that (answered (configured_password ctx)) (after_first is_repo_create reached)).
Proof.
  intros Hcfg. unfold repo_command, configured_password.
  with_configuration ctx Hcfg.
  repeat go_step.
Qed.

(** C8 (amended). In every run of [repo], the first request that
    deletes the repository goes to [(owner, repo)].  When it is answered,
    the request that creates the repository follows whatever the status
    of the answer: after a 204 the deletion is reported first, after any
    other status nothing is printed.  When it is not answered, the
    exception of the request ends the run there: nothing is printed and
    no repository is created.  A run without such a request ended
    before, with exit status 1; and in a run with a complete
    configuration in which every request is answered and the token
    request gives a token, the request is sent. *)
Theorem repo_delete_never_aborts :
  forall (py_repr : value -> string) (urlparse : string -> parse_result + exn)
         (W : Type) (h : handler W) (w : W) (ctx : context) (a : repo_options),
    let r := run h (repo_command py_repr urlparse ctx a) w in
    match from_first is_repo_delete (trace_of r) with
    | [] => exit_status (outcome_of r) = 1
    | deletion :: post =>
        exists rq x,
          deletion = Event (Http rq) x
          /\ rq_method rq = DELETE
          /\ rq_endpoint rq = EpRepo (configured_owner ctx) (repo a)
          /\ match x with
             | inl response =>
                 exists rq' y post',
                   post = (if status_code response =? 204
                           then [Event (Echo false
                                          (repo_deleted (configured_owner ctx) (repo a))) tt]
                           else [])
                          ++ Event (Http rq') y :: post'
                   /\ is_repo_create (Event (Http rq') y) = true
             | inr e => post = [] /\ outcome_of r = Uncaught e
             end
    end
    /\ (configured ctx ->
        forallb (answered (configured_password ctx)) (trace_of r) = true ->
        from_first is_repo_delete (trace_of r) <> []).
Proof.
  intros py_repr urlparse W h w ctx a r.
  split;
    [| intros Hcfg HG;
       exact (after_first_reached _ _ _ _
                (always_run _ _ (repo_reaches_deletion py_repr urlparse ctx a Hcfg) h w HG)) ].
  apply (always_run _
           (on_first is_repo_delete
              (fun rest o =>
                 match rest with
                 | [] => exit_status o = 1
                 | deletion :: post =>
                     exists rq x,
                       deletion = Event (Http rq) x
                       /\ rq_method rq = DELETE
                       /\ rq_endpoint rq = EpRepo (configured_owner ctx) (repo a)
                       /\ match x with
                          | inl response =>
                              exists rq' y post',
                                post = (if status_code response =? 204
                                        then [Event (Echo false
                                                (repo_deleted (configured_owner ctx) (repo a))) tt]
                                        else [])
                                       ++ Event (Http rq') y :: post'
                                /\ is_repo_create (Event (Http rq') y) = true
                          | inr e => post = [] /\ o = Uncaught e
                          end
                 end))).
  unfold repo_command.
  repeat skip_step.
  all: try reflexivity.
  all: apply on_first_Vis_hit; [intros; reflexivity |]; intros x'.
  all: unfold configured_owner;
    match goal with H : ctx_repo_owner _ = Some _ |- _ => rewrite H end.
  all: destruct x' as [response | err]; simpl;
    [| apply always_Raise; eexists _, (inr err); repeat split; reflexivity ].
  all: destruct (status_code response =? 204) eqn:Hst; simpl;
    [ apply always_Vis; intros [] |];
    apply always_Vis; intros y; apply always_any; intros tr o;
    eexists _, (inl response); (split; [reflexivity |]); (split; [reflexivity |]);
    (split; [reflexivity |]);
    eexists _, y, tr; rewrite Hst; (split; [reflexivity |]);
    destruct (on_org a); reflexivity.
Qed.

(** C8, as stated, fails: on a network that drops the request that
    deletes the repository, the run with a complete configuration ends
    there with the exception of the request, and never asks for the
    creation of the repository. *)
Lemma repo_delete_failure_aborts :
  configured Sim.ctx
  /\ from_first is_repo_delete (trace_of DeleteExamples.dropped)
     = [ Event (Http {| rq_method := DELETE; rq_base := "http://forge:3000";
                        rq_endpoint := EpRepo "alice" "demo";
                        rq_creds := token_headers Sim.repr (VStr "s3cr3t");
                        rq_json := None; rq_verify := true; rq_timeout := None |})
           (inr (OtherError "ConnectionError")) ]
  /\ outcome_of DeleteExamples.dropped = Uncaught (OtherError "ConnectionError")
  /\ exit_status (outcome_of DeleteExamples.dropped) = 1
  /\ never is_repo_create (trace_of DeleteExamples.dropped) = true.
Proof. repeat split; vm_compute; reflexivity. Qed.

(** C5. In every run of [repo], the first request that creates the
    repository is a POST to the [orgs/<owner>/repos] address when
    [--on-org] is set and to [user/repos] otherwise.  When its answer has
    status 201 or 409 the run goes on to read the body and, with a JSON
    object for a body, reports the repository as created; with any other
    status it prints the error and exits with status 1.  A run without
    such a request ended before, with exit status 1; and in a run with a
    complete configuration in which every request is answered and the
    token request gives a token, the request is sent. *)
Theorem repo_create_endpoint_and_status :
  forall (py_repr : value -> string) (urlparse : string -> parse_result + exn)
         (W : Type) (h : handler W) (w : W) (ctx : context) (a : repo_options),
    let r := run h (repo_command py_repr urlparse ctx a) w in
    match from_first is_repo_create (trace_of r) with
    | [] => exit_status (outcome_of r) = 1
    | creation :: post =>
        exists rq x,
          creation = Event (Http rq) x
          /\ rq_method rq = POST
          /\ rq_endpoint rq
             = (if on_org a then EpOrgRepos (configured_owner ctx) else EpUserRepos)
          /\ rq_url rq
             = (configured_url ctx
                ++ (if on_org a
                    then "/api/v1/orgs/" ++ configured_owner ctx ++ "/repos"
                    else "/api/v1/user/repos"))%string
          /\ match x with
             | inl response =>
                 if status_in (status_code response) [201; 409] then
                   match json_body response with
                   | Some (VDict items) =>
                       exists post',
                         post = Event (Echo false (repo_created py_repr (html_url_of items))) tt
                                :: post'
                   | Some _ => post = [] /\ outcome_of r = Uncaught AttributeError
                   | None => post = [] /\ outcome_of r = Uncaught JSONDecodeError
                   end
                 else
                   post = [Event (Echo true (repo_not_created response)) tt]
                   /\ outcome_of r = Exited 1
             | inr e => post = [] /\ outcome_of r = Uncaught e
             end
    end
    /\ (configured ctx ->
        forallb (answered (configured_password ctx)) (trace_of r) = true ->
        from_first is_repo_create (trace_of r) <> []).
Proof.
  intros py_repr urlparse W h w ctx a r.
  split;
    [| intros Hcfg HG;
       exact (after_first_reached _ _ _ _
                (always_run _ _ (repo_reaches_creation py_repr urlparse ctx a Hcfg) h w HG)) ].
  apply (always_run _
           (on_first is_repo_create
              (fun rest o =>
                 match rest with
                 | [] => exit_status o = 1
                 | creation :: post =>
                     exists rq x,
                       creation = Event (Http rq) x
                       /\ rq_method rq = POST
                       /\ rq_endpoint rq
                          = (if on_org a then EpOrgRepos (configured_owner ctx)
                             else EpUserRepos)
                       /\ rq_url rq
                          = (configured_url ctx
                             ++ (if on_org a
                                 then "/api/v1/orgs/" ++ configured_owner ctx ++ "/repos"
                                 else "/api/v1/user/repos"))%string
                       /\ match x with
                          | inl response =>
                              if status_in (status_code response) [201; 409] then
                                match json_body response with
                                | Some (VDict items) =>
                                    exists post',
                                      post = Event (Echo false
                                                      (repo_created py_repr (html_url_of items))) tt
                                             :: post'
                                | Some _ => post = [] /\ o = Uncaught AttributeError
                                | None => post = [] /\ o = Uncaught JSONDecodeError
                                end
                              else
                                post = [Event (Echo true (repo_not_created response)) tt]
                                /\ o = Exited 1
                          | inr e => post = [] /\ o = Uncaught e
                          end
                 end))).
  unfold repo_command.
  repeat skip_step.
  all: try reflexivity.
  all: apply on_first_Vis_hit; [intros; destruct (on_org a); reflexivity |]; intros x'.
  all: eapply always_mono; cycle 1;
    [ intros tr o H'; eexists _, x'; split; [reflexivity |]; exact H' |].
  all: unfold configured_owner, configured_url;
    repeat match goal with
           | H : ctx_repo_owner _ = Some _ |- _ => rewrite H; clear H
           | H : ctx_forgejo_url _ = Some _ |- _ => rewrite H; clear H
           end.
  all: simpl rq_method; simpl rq_endpoint; unfold rq_url; simpl rq_base;
    simpl rq_endpoint.
  all: destruct x' as [response' | err]; simpl bind;
    [| apply always_Raise; repeat split; destruct (on_org a); reflexivity ].
  all: destruct (status_in (status_code response') [201; 409]) eqn:Hst'; simpl;
    [| apply always_Vis; intros []; apply always_Exit;
       repeat split; destruct (on_org a); reflexivity ].
  all: destruct (json_body response') as [[] |]; simpl;
    try (apply always_Raise; repeat split; destruct (on_org a); reflexivity).
  all: apply always_Vis; intros []; apply always_any; intros tr o;
    repeat split; try (destruct (on_org a); reflexivity);
    eexists; reflexivity.
Qed.

(** On the forge of the examples every request is answered, and the
    request that creates the repository is sent, to [user/repos]. *)
Lemma repo_creation_request_sent :
  configured Sim.ctx
  /\ forallb (answered (configured_password Sim.ctx)) (trace_of RepoExamples.no_kubectl) = true
  /\ from_first is_repo_create (trace_of RepoExamples.no_kubectl) <> [].
Proof.
  assert (Hcfg : configured Sim.ctx) by (repeat split; reflexivity).
  assert (HG : forallb (answered (configured_password Sim.ctx))
                 (trace_of RepoExamples.no_kubectl) = true)
    by (vm_compute; reflexivity).
  split; [exact Hcfg |]. split; [exact HG |].
  exact (proj2 (repo_create_endpoint_and_status Sim.repr Sim.urlparse unit
                  (Sim.answer (RepoExamples.machine (VDict [("sha1"%string, VStr "s3cr3t")])))
                  tt Sim.ctx Sim.demo) Hcfg HG).
Defined.

(** C1 (amended). In every run of [repo], the first [kubectl] call, if
    there is one, is the creation of the namespace, and the registration
    was requested.  When that call finds no [kubectl]
    ([FileNotFoundError]) the diagnostic [kubectl_not_found] is printed on
    the error stream right after it and no other [kubectl] call is made
    in the run, so no secret and no custom resource are created; the
    registration returns and the workflow goes on with the clone step,
    which looks for the local directory unless the clone address cannot
    be parsed. *)
Theorem repo_kubectl_missing :
  forall (py_repr : value -> string) (urlparse : string -> parse_result + exn)
         (W : Type) (h : handler W) (w : W) (ctx : context) (a : repo_options),
    let r := run h (repo_command py_repr urlparse ctx a) w in
    match from_first is_kubectl (trace_of r) with
    | [] => True
    | first :: post =>
        exists x,
          first = Event (Subprocess (kubectl (kubectl_create_namespace (namespace_of a)) None)) x
          /\ create_pac_cr a = true
          /\ match x with
             | inr FileNotFoundError =>
                 exists post',
                   post = Event (Echo true kubectl_not_found) tt :: post'
                   /\ never is_kubectl post' = true
                   /\ match post' with
                      | [] => exists e, outcome_of r = Uncaught e
                      | next :: _ => exists path b, next = Event (PathExists path) b
                      end
             | _ => True
             end
    end.
Proof.
  intros py_repr urlparse W h w ctx a r.
  apply (always_run _
           (on_first is_kubectl
              (fun rest o =>
                 match rest with
                 | [] => True
                 | first :: post =>
                     exists x,
                       first = Event (Subprocess
                                        (kubectl (kubectl_create_namespace (namespace_of a))
                                           None)) x
                       /\ create_pac_cr a = true
                       /\ match x with
                          | inr FileNotFoundError =>
                              exists post',
                                post = Event (Echo true kubectl_not_found) tt :: post'
                                /\ never is_kubectl post' = true
                                /\ match post' with
                                   | [] => exists e, o = Uncaught e
                                   | next :: _ =>
                                       exists path b, next = Event (PathExists path) b
                                   end
                          | _ => True
                          end
                 end))).
  unfold repo_command.
  repeat skip_step.
  all: try exact I.
  fold (namespace_of a).
  apply always_bind.
  eapply always_mono; [apply create_pac_resources_first_call |].
  intros tr1 o1 (x' & post1 & -> & Hpost & Hne & Hx).
  destruct o1 as [[] | c | e1]; simpl then_; [| contradiction |].
  - eapply always_mono; cycle 1.
    { intros tr2 o Hq. unfold on_first. simpl.
      exists x'. split; [reflexivity |]. split; [reflexivity |]. exact Hq. }
    destruct x' as [result | e'];
      [apply always_any; intros; exact I |].
    destruct e'; try (apply always_any; intros; exact I).
    destruct Hx as [-> _].
    eapply always_mono; cycle 1.
    { intros tr2 o Hq. exists tr2. split; [reflexivity |]. exact Hq. }
    repeat step.
    all: simpl; split; [reflexivity | eauto].
  - unfold on_first. simpl.
    exists x'. split; [reflexivity |]. split; [reflexivity |].
    destruct x' as [result | e']; [exact I |].
    destruct e'; try exact I.
    destruct Hx as [_ Hx]. discriminate Hx.
Qed.

(** C1, as stated, fails: the registration is requested, [kubectl] is
    absent, the diagnostic is printed, and the run ends with status 0. *)
Lemma repo_kubectl_missing_exits_zero :
  create_pac_cr Sim.demo = true
  /\ Sim.proc (RepoExamples.machine (VDict [("sha1"%string, VStr "s3cr3t")]))
       (kubectl (kubectl_create_namespace "demo") None) = inr FileNotFoundError
  /\ In (Event (Echo true kubectl_not_found) tt) (trace_of RepoExamples.no_kubectl)
  /\ outcome_of RepoExamples.no_kubectl = Returned tt
  /\ exit_status (outcome_of RepoExamples.no_kubectl) = 0.
Proof.
  repeat split; try (vm_compute; reflexivity).
  vm_compute. repeat (first [left; reflexivity | right]).
Qed.

(* ------------------------------------------------------------------ *)
(** ** The token guard of the three commands *)
(* ------------------------------------------------------------------ *)

Lemma echo_not_first (msg : string) (ev : event) (tr : list event) (o o' : outcome unit) :
  echo_of ev <> Some (true, msg) ->
  ~ (ev :: tr = [Event (Echo true msg) tt] /\ o = o').
Proof.
  intros Hev [Heq _]. injection Heq as Heq _. subst ev. apply Hev. reflexivity.
Qed.

(** The part of [token_guard] that depends on the answer, given what
    follows the guard when the token is accepted. *)
Lemma token_guard_after (py_repr : value -> string) (ctx : context)
    (forgejo_url user password name : string) (verify_tls : bool)
    (K : value -> Prog unit) :
  ctx_password ctx = Some password ->
  PyStr.truthy password = true ->
  (forall token, always (K token)
     (fun tr o => ~ (tr = [Event (Echo true token_failed) tt] /\ o = Exited 1))) ->
  always
    (token <- create_access_token py_repr forgejo_url (user, password) name verify_tls ;;
     (if negb (Py.truthy token) then echo_err token_failed ;; Exit 1 else Ret tt) ;;
     K token)
    (on_first is_token_post (token_guard ctx)).
Proof.
  intros Hpw Htruthy HK.
  apply always_bind.
  eapply always_mono; [apply create_access_token_shape |].
  intros tr1 o1 (pre & x & post & -> & Hpre & Hans).
  assert (Hskip : forall tr2,
            from_first is_token_post
              ((pre ++ Event (Http (token_request forgejo_url (user, password) name
                                      verify_tls)) x :: post) ++ tr2)
            = Event (Http (token_request forgejo_url (user, password) name verify_tls)) x
              :: post ++ tr2).
  { intros tr2. rewrite <- app_assoc. rewrite from_first_skip.
    - reflexivity.
    - eapply forallb_never; [| exact Hpre]. apply token_cleanup_not_post. }
  assert (Hhead : forall tr2 o,
            ((post ++ tr2 = [Event (Echo true token_failed) tt] /\ o = Exited 1)
             <-> (exists response items,
                    x = inl response
                    /\ status_in (status_code response) [201; 200] = true
                    /\ json_body response = Some (VDict items)
                    /\ Py.truthy (sha1_of items) = false)) ->
            on_first is_token_post (token_guard ctx)
              ((pre ++ Event (Http (token_request forgejo_url (user, password) name
                                      verify_tls)) x :: post) ++ tr2) o).
  { intros tr2 o Hiff. unfold on_first. rewrite Hskip. simpl.
    exists (token_request forgejo_url (user, password) name verify_tls), x, user, password.
    split; [reflexivity |]. split; [reflexivity |].
    split; [exact Hpw |]. split; [exact Htruthy |]. exact Hiff. }
  unfold token_answer in Hans.
  destruct x as [response | e].
  - destruct (status_in (status_code response) [201; 200]) eqn:Hst.
    + destruct Hans as [-> Ho].
      destruct (json_body response) as [body |] eqn:Hbody.
      * destruct body; subst o1; simpl;
          try (rewrite <- (app_nil_r (_ ++ _ :: [])); apply Hhead; split;
               [ intros [Hnil _]; discriminate Hnil
               | intros (response' & items' & Hx & _ & Hb & _);
                 injection Hx as <-; rewrite Hbody in Hb; discriminate Hb ]).
        destruct (Py.truthy (sha1_of items)) eqn:Hsha; simpl.
        -- eapply always_mono; [apply HK |].
           intros tr2 o Hno. apply Hhead. simpl. split.
           ++ intros H. contradiction.
           ++ intros (response' & items' & Hx & _ & Hb & Hf).
              injection Hx as <-. rewrite Hbody in Hb. injection Hb as <-.
              rewrite Hsha in Hf. discriminate Hf.
        -- apply always_Vis. intros []. apply always_Exit.
           apply Hhead. simpl. split; [| auto].
           intros _. exists response, items. auto.
      * subst o1. simpl.
        rewrite <- (app_nil_r (_ ++ _ :: [])). apply Hhead. split.
        -- intros [Hnil _]. discriminate Hnil.
        -- intros (response' & items' & Hx & _ & Hb & _).
           injection Hx as <-. rewrite Hbody in Hb. discriminate Hb.
    + destruct Hans as [-> ->]. simpl.
      unfold PyStr.truthy in Htruthy. unfold PyStr.truthy. rewrite Htruthy. simpl.
      eapply always_mono; [apply HK |].
      intros tr2 o _. apply Hhead. simpl. split.
      * intros [Heq _]. discriminate Heq.
      * intros (response' & items' & Hx & Hst' & _).
        injection Hx as <-. rewrite Hst in Hst'. discriminate Hst'.
  - destruct Hans as [-> ->]. simpl.
    rewrite <- (app_nil_r (_ ++ _ :: [])). apply Hhead. split.
    + intros [Hnil _]. discriminate Hnil.
    + intros (response' & items' & Hx & _). discriminate Hx.
Qed.

(** C10 (amended). In each of the three commands, the token request is
    made with the configured password, which is not empty, and the
    ["Error: Failed to create access token"] exit is taken exactly when
    the forge answers that request with status 200 or 201 and a JSON
    object whose [sha1] entry is missing or empty; after any other answer
    that is read without an exception the command goes on, with the
    password in place of the token when the status is not 200 or 201. *)
Theorem token_failure_exit :
  forall (py_repr : value -> string) (urlparse : string -> parse_result + exn)
         (W : Type) (h : handler W) (w : W) (ctx : context)
         (a : repo_options) (b : pr_options) (repo destination : string),
    let r1 := run h (repo_command py_repr urlparse ctx a) w in
    let r2 := run h (pr_command py_repr ctx b) w in
    let r3 := run h (checkout_command py_repr urlparse ctx repo destination) w in
    token_guard ctx (from_first is_token_post (trace_of r1)) (outcome_of r1)
    /\ token_guard ctx (from_first is_token_post (trace_of r2)) (outcome_of r2)
    /\ token_guard ctx (from_first is_token_post (trace_of r3)) (outcome_of r3).
Proof.
  intros py_repr urlparse W h w ctx a b repo destination r1 r2 r3.
  assert (Hpw : forall password, configured ctx -> ctx_password ctx = Some password ->
                  PyStr.truthy password = true).
  { intros password (_ & _ & Hp & _) Heq. rewrite Heq in Hp. exact Hp. }
  split; [| split].
  - apply (always_run _ (on_first is_token_post (token_guard ctx))).
    unfold repo_command. repeat skip_step. all: try exact I.
    all: eapply token_guard_after; [eassumption | eauto |].
    all: intros token; simpl; apply always_Vis; intros y; apply always_any;
      intros ? ?; apply echo_not_first; simpl; discriminate.
  - apply (always_run _ (on_first is_token_post (token_guard ctx))).
    unfold pr_command. repeat skip_step. all: try exact I.
    all: eapply token_guard_after; [eassumption | eauto |].
    all: intros token; apply always_bind;
      (eapply always_mono; [apply generate_branch_name_shape |]);
      intros tr1 o1 (t & -> & ->); simpl; apply always_any;
      intros ? ?; apply echo_not_first; simpl; discriminate.
  - apply (always_run _ (on_first is_token_post (token_guard ctx))).
    unfold checkout_command. repeat skip_step. all: try exact I.
    all: eapply token_guard_after; [eassumption | eauto |].
    all: intros token; destruct (urlparse _); simpl;
      [ apply always_Vis; intros y; apply always_any;
        intros ? ?; apply echo_not_first; simpl; discriminate
      | apply always_Raise; intros [Hnil _]; discriminate Hnil ].
Qed.

(** C10, as stated, fails: with a complete configuration, a forge that
    answers the token request with 201 and a body without [sha1] makes
    [create_access_token] return [None] and the command take the exit. *)
Lemma token_without_sha1_exits :
  configured Sim.ctx
  /\ outcome_of RepoExamples.token_without_sha1 = Returned VNone
  /\ Py.truthy VNone = false
  /\ from_first is_token_post (trace_of RepoExamples.no_sha1)
     = [ Event (Http (token_request "http://forge:3000" ("alice", "pw")%string "demo" true))
           (Sim.ok 201 (Some (VDict [])));
         Event (Echo true token_failed) tt ]
  /\ outcome_of RepoExamples.no_sha1 = Exited 1.
Proof. repeat split; vm_compute; reflexivity. Qed.

(* ------------------------------------------------------------------ *)
(** ** The [checkout] workflow *)
(* ------------------------------------------------------------------ *)

Lemma checkout_destination_shape py_repr urlparse ctx repo destination :
  always (checkout_command py_repr urlparse ctx repo destination)
    (led_by offline (destination_check ctx destination)).
Proof.
  unfold destination_check.
  unfold checkout_command.
  eapply led_by_bind_skip;
    [ eapply behaves_weaken;
      [ apply validate_required_config_decides
      | solve [by_event_cases]
      | intros ? Ho; exact Ho ]
    | intros o [[-> Hno] | [-> Hcfg]]; simpl ].
  { left. split; [exact Hno |]. split; reflexivity. }
  with_configuration ctx Hcfg.
  repeat lazymatch goal with
         | |- always (Vis _ _) _ =>
             apply led_by_Vis_skip; [intros ?; reflexivity | intros ?]
         | |- always ?p _ =>
             first [ let x := head_scrutinee p in destruct x eqn:?
                   | progress simpl
                   | progress unfold trigger, as_str ]
         end.
  all: eapply always_mono; [| intros ? ? Hq; apply led_by_here; right; exact Hq].
  all: apply always_Vis; intros d; apply always_Vis; intros b.
  all: eapply always_mono; cycle 1;
    [ intros ? ? Hq; exists d, b; eexists; split; [reflexivity |]; exact Hq |].
  all: destruct b; simpl.
  all: try (apply always_Vis; intros m; apply always_any; intros; eexists _, _; reflexivity).
  all: apply always_Vis; intros f.
  all: eapply always_mono; cycle 1;
    [ intros ? ? Hq; exists f; eexists; split; [reflexivity |]; exact Hq |].
  all: destruct f; simpl.
  all: try (apply always_Vis; intros []; apply always_Exit; split; reflexivity).
  all: apply always_Vis; intros y.
  all: eapply always_mono; cycle 1;
    [ intros ? ? Hq; exists y; eexists; split; [reflexivity |]; exact Hq |].
  all: destruct y as [[] | e]; simpl.
  all: try (apply always_Vis; intros []; apply always_Exit; split; reflexivity).
  all: try (apply always_Raise; split; reflexivity).
  all: apply always_any; intros; exact I.
Qed.

Lemma never_app (P : event -> bool) (tr1 tr2 : list event) :
  never P (tr1 ++ tr2) = (never P tr1 && never P tr2)%bool.
Proof. unfold never. apply forallb_app. Qed.

Lemma offline_no_request (tr : list event) :
  forallb offline tr = true -> never is_http tr = true.
Proof.
  apply forallb_never. intros ev. unfold offline.
  destruct (is_http ev); simpl; [discriminate | reflexivity].
Qed.

(** C6. Every run of [checkout] starts with events that are neither
    requests nor looks at the file system.  With an incomplete
    configuration it then ends, with exit status 1 and without a request;
    with a complete one it always checks the destination: it resolves it
    and asks whether it exists.  If it exists and is a file, or exists and
    holds an entry, the run prints the error and exits with status 1 and
    the whole run makes no request, the token request included.  If it
    does not exist the next event is the creation of its parent
    directories, before any request. *)
Theorem checkout_validates_destination_first :
  forall (py_repr : value -> string) (urlparse : string -> parse_result + exn)
         (W : Type) (h : handler W) (w : W) (ctx : context)
         (repo destination : string),
    let r := run h (checkout_command py_repr urlparse ctx repo destination) w in
    exists pre rest,
      trace_of r = pre ++ rest
      /\ forallb offline pre = true
      /\ (~ configured ctx
          /\ rest = []
          /\ outcome_of r = Exited 1
          /\ never is_http (trace_of r) = true
          \/ exists d b post,
               rest = Event (PathResolve destination) d :: Event (PathExists d) b :: post
               /\ if b : bool then
                    exists f post',
                      post = Event (PathIsFile d) f :: post'
                      /\ if f : bool then
                           post' = [Event (Echo true (destination_is_file destination)) tt]
                           /\ outcome_of r = Exited 1
                           /\ never is_http (trace_of r) = true
                         else
                           exists y post'',
                             post' = Event (PathIterAny d) y :: post''
                             /\ match y with
                                | inl true =>
                                    post'' = [Event (Echo true destination_not_empty) tt]
                                    /\ outcome_of r = Exited 1
                                    /\ never is_http (trace_of r) = true
                                | inl false => True
                                | inr e => post'' = [] /\ outcome_of r = Uncaught e
                                end
                  else
                    exists m post', post = Event (MkdirParents d) m :: post').
Proof.
  intros py_repr urlparse W h w ctx repo destination r.
  destruct (always_run _ _
              (checkout_destination_shape py_repr urlparse ctx repo destination) h w)
    as (pre & rest & Htr & Hpre & Hrest).
  fold r in Htr, Hrest.
  exists pre, rest. split; [exact Htr |]. split; [exact Hpre |].
  assert (Hoff := offline_no_request pre Hpre).
  destruct Hrest as [(Hno & -> & Hex) | (d & b & post & -> & Hb)].
  - left. repeat split; auto. rewrite Htr, app_nil_r. exact Hoff.
  - right. exists d, b, post. split; [reflexivity |].
    destruct b; [| exact Hb].
    destruct Hb as (f & post' & -> & Hf). exists f, post'. split; [reflexivity |].
    destruct f.
    + destruct Hf as [-> Ho]. repeat split; auto.
      rewrite Htr, never_app, Hoff. reflexivity.
    + destruct Hf as (y & post'' & -> & Hy). exists y, post''.
      split; [reflexivity |].
      destruct y as [[] | e]; auto.
      destruct Hy as [-> Ho]. repeat split; auto.
      rewrite Htr, never_app, Hoff. reflexivity.
Qed.

(* ------------------------------------------------------------------ *)
(** ** The [pr] workflow *)
(* ------------------------------------------------------------------ *)

Lemma py_int_within_second (n : Z) (t : Q) :
  0 <= n -> (inject_Z n <= t)%Q -> (t < inject_Z (n + 1))%Q -> py_int t = n.
Proof.
  intros Hn Hle Hlt. unfold py_int.
  unfold Qle in Hle. unfold Qlt in Hlt. simpl in Hle, Hlt.
  rewrite Z.mul_1_r in Hle, Hlt.
  rewrite Z.quot_div_nonneg by lia.
  symmetry. apply Z.div_unique_pos with (r := Qnum t - n * Zpos (Qden t)); lia.
Qed.

(** C7. [generate_branch_name] reads the clock once and returns
    ["pac-test-"] followed by the time in whole seconds.  In [pr], the
    first request that creates a pull request comes after the clock was
    read, at [t] say, and carries the name of the branch made at [t] as
    its head and, when no title is supplied, ["Test PR - "] followed by
    that name as its title.  Two readings of the clock within the same
    second give the same name. *)
Theorem branch_name_and_title :
  (forall (W : Type) (h : handler W) (w : W),
     let r := run h generate_branch_name w in
     exists t,
       trace_of r = [Event Now t]
       /\ outcome_of r = Returned ("pac-test-" ++ PyStr.of_int (py_int t))%string)
  /\ (forall (py_repr : value -> string) (W : Type) (h : handler W) (w : W)
             (ctx : context) (b : pr_options),
        let r := run h (pr_command py_repr ctx b) w in
        match from_first is_clock (trace_of r) with
        | [] => True
        | reading :: post =>
            exists t,
              reading = Event Now t
              /\ match from_first is_pull_post post with
                 | [] => True
                 | request :: _ =>
                     exists rq x,
                       request = Event (Http rq) x
                       /\ rq_json rq
                          = Some (VDict
                                    [("title"%string, VStr (title_for b (branch_at t)));
                                     ("head"%string, VStr (branch_at t));
                                     ("base"%string, VStr (target_branch b))])
                 end
        end)
  /\ (forall b : pr_options,
        title b = EmptyString ->
        forall t, title_for b (branch_at t) = ("Test PR - " ++ branch_at t)%string)
  /\ (forall (n : Z) (t1 t2 : Q),
        0 <= n ->
        (inject_Z n <= t1)%Q -> (t1 < inject_Z (n + 1))%Q ->
        (inject_Z n <= t2)%Q -> (t2 < inject_Z (n + 1))%Q ->
        branch_at t1 = branch_at t2).
Proof.
  split; [| split; [| split]].
  - intros W h w r.
    destruct (always_run _ _ generate_branch_name_shape h w) as (t & Htr & Ho).
    exists t. split; assumption.
  - intros py_repr W h w ctx b r.
    apply (always_run _
             (on_first is_clock
                (fun rest o =>
                   match rest with
                   | [] => True
                   | reading :: post =>
                       exists t,
                         reading = Event Now t
                         /\ match from_first is_pull_post post with
                            | [] => True
                            | request :: _ =>
                                exists rq x,
                                  request = Event (Http rq) x
                                  /\ rq_json rq
                                     = Some (VDict
                                               [("title"%string,
                                                 VStr (title_for b (branch_at t)));
                                                ("head"%string, VStr (branch_at t));
                                                ("base"%string, VStr (target_branch b))])
                            end
                   end))).
    unfold pr_command. repeat skip_step. all: try exact I.
    apply always_bind.
    eapply always_mono; [apply generate_branch_name_shape |].
    intros tr1 o1 (t & -> & ->). simpl then_.
    eapply always_mono
      with (Q := on_first is_pull_post
                   (fun rest _ =>
                      match rest with
                      | [] => True
                      | request :: _ =>
                          exists rq x,
                            request = Event (Http rq) x
                            /\ rq_json rq
                               = Some (VDict
                                         [("title"%string,
                                           VStr (title_for b (branch_at t)));
                                          ("head"%string, VStr (branch_at t));
                                          ("base"%string, VStr (target_branch b))])
                      end)); cycle 1.
    { intros tr2 o Hq. unfold on_first in *. simpl. exists t. split; [reflexivity |].
      exact Hq. }
    repeat skip_step. all: try exact I.
    all: apply always_bind;
      (eapply always_mono; [apply create_pull_request_api_shape |]);
      intros tr1 o1 (x' & post1 & ->);
      assert (Hreq : forall tr2,
                match from_first is_pull_post
                        ((Event (Http (pull_request (PyStr.rstrip "/" s)
                                         (token_headers py_repr token) (owner_of s2)
                                         (pr_repo b)
                                         (if negb (PyStr.truthy (title b))
                                          then ("Test PR - " ++ branch_at t)%string
                                          else title b)
                                         (branch_at t) (target_branch b)
                                         (negb (ctx_skip_tls ctx)))) x' :: post1) ++ tr2)
                with
                | [] => True
                | request :: _ =>
                    exists rq x,
                      request = Event (Http rq) x
                      /\ rq_json rq
                         = Some (VDict
                                   [("title"%string, VStr (title_for b (branch_at t)));
                                    ("head"%string, VStr (branch_at t));
                                    ("base"%string, VStr (target_branch b))])
                end)
        by (intros tr2; simpl; eexists _, x'; split; [reflexivity |];
            unfold title_for; simpl; destruct (PyStr.truthy (title b)); reflexivity);
      destruct o1; simpl then_; unfold on_first;
      [ apply always_any; intros; apply Hreq
      | rewrite <- (app_nil_r (_ :: post1)); apply Hreq
      | rewrite <- (app_nil_r (_ :: post1)); apply Hreq ].
  - intros b Hb t. unfold title_for. rewrite Hb. reflexivity.
  - intros n t1 t2 Hn H1 H1' H2 H2'. unfold branch_at.
    rewrite (py_int_within_second n t1), (py_int_within_second n t2) by assumption.
    reflexivity.
Qed.

(* ------------------------------------------------------------------ *)
(** ** Reading secrets *)
(* ------------------------------------------------------------------ *)

Lemma read_secret_shape path_join strip folder key method :
  always (read_secret path_join strip folder key method)
    (fun tr o =>
       if String.eqb method "pass" then
         exists x, tr = [Event (Subprocess (pass_call folder key)) x]
                   /\ o = Returned (pass_secret strip x)
       else file_read strip (path_join folder key) tr o).
Proof.
  unfold read_secret. destruct (String.eqb method "pass").
  - repeat step; eexists; split; try reflexivity; simpl;
      repeat match goal with H : _ = _ |- _ => rewrite H end; reflexivity.
  - unfold file_read. repeat step; simpl.
    all: try (left; split; reflexivity).
    all: try (right; left; split; reflexivity).
    all: right; right; eexists; split; [reflexivity |]; simpl;
      repeat match goal with H : _ = _ |- _ => rewrite H end; reflexivity.
Qed.

(** X1. [read_secret] never raises and never ends the process: it
    returns whatever the outside world answers.  With the method [pass] it
    makes one call, [pass show <folder>/<key>], and returns the stripped
    output when the call returns code 0 and [None] otherwise, a missing
    [pass] binary included.  With any other method it asks whether the
    file exists and is a regular file before it reads it, makes no other
    call, and returns the stripped content, or [None] when the file is
    missing, unreadable or blank: a secret read from a file is never the
    empty text. *)
Theorem read_secret_never_raises :
  forall (path_join : string -> string -> string) (strip : string -> string) (W : Type) (h : handler W) (w : W)
         (folder key method : string),
    let r := run h (read_secret path_join strip folder key method) w in
    (exists v, outcome_of r = Returned v
               /\ (String.eqb method "pass" = false -> v <> Some EmptyString))
    /\ if String.eqb method "pass" then
         exists x, trace_of r = [Event (Subprocess (pass_call folder key)) x]
                   /\ outcome_of r = Returned (pass_secret strip x)
       else file_read strip (path_join folder key) (trace_of r) (outcome_of r).
Proof.
  intros path_join strip W h w folder key method r.
  assert (H := always_run _ _ (read_secret_shape path_join strip folder key method) h w).
  fold r in H. simpl in H.
  split; [| exact H].
  destruct (String.eqb method "pass").
  - destruct H as (x & _ & ->). eexists. split; [reflexivity | discriminate].
  - destruct H as [[_ ->] | [[_ ->] | (c & _ & ->)]];
      eexists; (split; [reflexivity |]); intros _; try discriminate.
    unfold file_secret. destruct c as [content |]; [| discriminate].
    destruct (PyStr.truthy (strip content)) eqn:Ht; [| discriminate].
    intros Heq. injection Heq as Heq. rewrite Heq in Ht. discriminate Ht.
Qed.

(* ------------------------------------------------------------------ *)
(** ** Loading the secrets of a folder *)
(* ------------------------------------------------------------------ *)

Lemma load_each_pass path_join strip folder mappings secrets :
  always (load_each path_join strip folder "pass" mappings secrets)
    (fun tr o =>
       map fst (calls tr) = map (fun m => pass_call folder (fst m)) mappings
       /\ forallb is_subprocess tr = true
       /\ exists d, o = Returned d).
Proof.
  revert secrets. induction mappings as [| [file_key config_key] rest IH]; intros secrets.
  - simpl. apply always_Ret. repeat split. eexists. reflexivity.
  - cbn [load_each]. apply always_bind.
    eapply always_mono; [apply read_secret_shape |].
    simpl. intros tr1 o1 (x & -> & ->). simpl.
    eapply always_mono; [apply IH |].
    simpl. intros tr o (Hcalls & Hsub & Hd).
    rewrite Hcalls. auto.
Qed.

Lemma looks_at_cons (p : string) (paths : list string) (tr : list event) :
  forallb (looks_at paths) tr = true -> forallb (looks_at (p :: paths)) tr = true.
Proof.
  intros H. rewrite forallb_forall in *. intros ev Hin. specialize (H ev Hin).
  destruct ev as [X e x]. destruct e; simpl in *; try discriminate;
    rewrite H; apply orb_true_r.
Qed.

Lemma load_each_cat path_join strip folder mappings secrets :
  always (load_each path_join strip folder "cat" mappings secrets)
    (fun tr o =>
       forallb (looks_at (map (fun m => path_join folder (fst m)) mappings)) tr = true
       /\ exists d, o = Returned d).
Proof.
  revert secrets. induction mappings as [| [file_key config_key] rest IH]; intros secrets.
  - simpl. apply always_Ret. split; [reflexivity |]. eexists. reflexivity.
  - cbn [load_each]. apply always_bind.
    eapply always_mono; [apply read_secret_shape |].
    simpl. intros tr1 o1 H1.
    assert (Htr1 : forallb (looks_at (path_join folder file_key
                                       :: map (fun m => path_join folder (fst m)) rest)) tr1
                   = true /\ exists v, o1 = Returned v).
    { destruct H1 as [[-> ->] | [[-> ->] | (c & -> & ->)]]; simpl;
        rewrite String.eqb_refl; simpl; eauto. }
    destruct Htr1 as [Htr1 [v ->]]. simpl.
    eapply always_mono; [apply IH |].
    simpl. intros tr o (Hlooks & Hd).
    split; [| exact Hd].
    rewrite forallb_app, Htr1. simpl. apply looks_at_cons. exact Hlooks.
Qed.

(** X2. [load_secrets_from_folder] always returns a dictionary, and
    reads one store only.  Without a folder it reads nothing and returns
    the empty dictionary.  With a password-store folder, whatever the
    plain folder is, it makes exactly the seven calls
    [pass show <folder>/<name>], in the order [api-url], [username],
    [password], [repo-owner], [smee], [skip-tls], [internal-url], and
    nothing else.  With a plain folder only, every event is a look at one
    of the seven files of that folder: no subprocess is run. *)
Theorem load_secrets_source :
  forall (path_join : string -> string -> string) (strip : string -> string) (W : Type) (h : handler W) (w : W)
         (pass_folder secret_folder : option string),
    let r := run h (load_secrets_from_folder path_join strip pass_folder secret_folder) w in
    (exists d, outcome_of r = Returned d)
    /\ match given pass_folder, given secret_folder with
       | None, None => trace_of r = [] /\ outcome_of r = Returned []
       | Some folder, _ =>
           map fst (calls (trace_of r))
           = map (pass_call folder)
               ["api-url"; "username"; "password"; "repo-owner"; "smee"; "skip-tls";
                "internal-url"]%string
           /\ forallb is_subprocess (trace_of r) = true
       | None, Some folder =>
           forallb (looks_at (secret_files path_join folder)) (trace_of r) = true
           /\ never is_subprocess (trace_of r) = true
       end.
Proof.
  intros path_join strip W h w pass_folder secret_folder r. subst r.
  unfold load_secrets_from_folder.
  destruct (given pass_folder) as [folder |].
  - destruct (always_run _ _ (load_each_pass path_join strip folder secret_mappings []) h w)
      as (Hcalls & Hsub & Hd).
    split; [exact Hd |]. split; [exact Hcalls | exact Hsub].
  - destruct (given secret_folder) as [folder |].
    + destruct (always_run _ _ (load_each_cat path_join strip folder secret_mappings []) h w)
        as (Hlooks & Hd).
      split; [exact Hd |]. split; [exact Hlooks |].
      eapply forallb_never; [| exact Hlooks].
      intros [X e x] Hev. destruct e; simpl in *; try discriminate; reflexivity.
    + simpl. split; [eexists; reflexivity |]. split; reflexivity.
Qed.

Lemma lookup_dict_set (d : list (string * value)) (key k : string) (v : value) :
  Py.lookup k (dict_set d key v) = if String.eqb key k then Some v else Py.lookup k d.
Proof.
  induction d as [| [k' x] rest IH]; simpl.
  - reflexivity.
  - destruct (String.eqb k' key) eqn:Hk'; simpl.
    + apply String.eqb_eq in Hk'. subst k'. destruct (String.eqb key k); reflexivity.
    + destruct (String.eqb k' k) eqn:Hk; [| exact IH].
      apply String.eqb_eq in Hk. subst k'. rewrite String.eqb_sym, Hk'. reflexivity.
Qed.

Lemma load_each_values path_join strip folder method mappings secrets :
  incl (map snd mappings) (map snd secret_mappings) ->
  (forall k v, Py.lookup k secrets = Some v -> secret_entry k v) ->
  always (load_each path_join strip folder method mappings secrets)
    (fun _ o => exists d, o = Returned d
                          /\ forall k v, Py.lookup k d = Some v -> secret_entry k v).
Proof.
  revert secrets. induction mappings as [| [file_key config_key] rest IH];
    intros secrets Hincl Hsecrets.
  - simpl. apply always_Ret. eauto.
  - cbn [load_each]. apply always_bind.
    eapply always_mono; [apply read_secret_shape |].
    intros tr1 o1 H1.
    assert (Ho1 : exists found, o1 = Returned found).
    { destruct (String.eqb method "pass").
      - destruct H1 as (x & _ & ->). eauto.
      - destruct H1 as [[_ ->] | [[_ ->] | (c & _ & ->)]]; eauto. }
    destruct Ho1 as [found ->]. simpl.
    eapply always_mono; [apply IH | intros tr o H; exact H].
    + intros k Hk. apply Hincl. right. exact Hk.
    + assert (Hkey : In config_key (map snd secret_mappings))
        by (apply Hincl; left; reflexivity).
      destruct found as [v |]; [| exact Hsecrets].
      destruct (PyStr.truthy v) eqn:Hv; [| exact Hsecrets].
      intros k x. destruct (String.eqb config_key "skip_tls") eqn:Hskip;
        rewrite lookup_dict_set;
        (destruct (String.eqb config_key k) eqn:Hk; [| apply Hsecrets]);
        apply String.eqb_eq in Hk; subst k;
        intros Hx; injection Hx as <-;
        (split; [exact Hkey |]); rewrite Hskip; eauto.
Qed.

Lemma load_secrets_values_always path_join strip pass_folder secret_folder :
  always (load_secrets_from_folder path_join strip pass_folder secret_folder)
    (fun _ o => exists d, o = Returned d
                          /\ forall k v, Py.lookup k d = Some v -> secret_entry k v).
Proof.
  unfold load_secrets_from_folder.
  destruct (given pass_folder) as [folder |];
    [| destruct (given secret_folder) as [folder |]].
  - apply load_each_values; [apply incl_refl | discriminate].
  - apply load_each_values; [apply incl_refl | discriminate].
  - apply always_Ret. eexists. split; [reflexivity | discriminate].
Qed.

(** X3. The dictionary [load_secrets_from_folder] returns holds entries
    under the seven configuration keys only, and a secret that is empty is
    left out: the value under [skip_tls] is a truth value, every other
    value is a text that is not empty. *)
Theorem load_secrets_values :
  forall (path_join : string -> string -> string) (strip : string -> string) (W : Type) (h : handler W) (w : W)
         (pass_folder secret_folder : option string),
    let r := run h (load_secrets_from_folder path_join strip pass_folder secret_folder) w in
    exists d,
      outcome_of r = Returned d
      /\ forall k v,
           Py.lookup k d = Some v ->
           In k ["api_url"; "username"; "password"; "repo_owner"; "smee_url"; "skip_tls";
                 "internal_url"]%string
           /\ if String.eqb k "skip_tls" then exists b, v = VBool b
              else exists s, v = VStr s /\ PyStr.truthy s = true.
Proof.
  intros path_join strip W h w pass_folder secret_folder r.
  exact (always_run _ _ (load_secrets_values_always path_join strip pass_folder secret_folder) h w).
Qed.

(* ------------------------------------------------------------------ *)
(** ** The context of the commands *)
(* ------------------------------------------------------------------ *)

Lemma merged_text (d : list (string * value)) (key : string) (opt : option string) :
  (forall k v, Py.lookup k d = Some v -> secret_entry k v) ->
  String.eqb key "skip_tls" = false ->
  exists c, py_or (get d key VNone) (of_opt opt) = of_opt c
            /\ (c = opt \/ from_folder c)
            /\ (Py.lookup key d = None -> c = opt).
Proof.
  intros Hd Hkey. unfold get. destruct (Py.lookup key d) as [v |] eqn:Hv.
  - destruct (Hd key v Hv) as [_ H]. rewrite Hkey in H. destruct H as (s & -> & Hs).
    exists (Some s). unfold py_or. simpl. rewrite Hs.
    split; [reflexivity |]. split; [right; exists s; auto | discriminate].
  - exists opt. unfold py_or. simpl. auto.
Qed.

Lemma folder_text (d : list (string * value)) (key : string) :
  (forall k v, Py.lookup k d = Some v -> secret_entry k v) ->
  String.eqb key "skip_tls" = false ->
  exists c, get d key VNone = of_opt c
            /\ (c = None \/ from_folder c)
            /\ (Py.lookup key d = None -> c = None).
Proof.
  intros Hd Hkey. unfold get. destruct (Py.lookup key d) as [v |] eqn:Hv.
  - destruct (Hd key v Hv) as [_ H]. rewrite Hkey in H. destruct H as (s & -> & Hs).
    exists (Some s). split; [reflexivity |]. split; [right; exists s; auto | discriminate].
  - exists None. auto.
Qed.

Lemma merged_flag (d : list (string * value)) (b : bool) :
  (forall k v, Py.lookup k d = Some v -> secret_entry k v) ->
  exists c, get d "skip_tls" (VBool b) = VBool c
            /\ (Py.lookup "skip_tls" d = None -> c = b).
Proof.
  intros Hd. unfold get. destruct (Py.lookup "skip_tls" d) as [v |] eqn:Hv.
  - destruct (Hd _ v Hv) as [_ H]. simpl in H. destruct H as (c & ->).
    exists c. split; [reflexivity | discriminate].
  - exists b. auto.
Qed.

Lemma load_secrets_nothing path_join strip pass_folder secret_folder :
  given pass_folder = None -> given secret_folder = None ->
  always (load_secrets_from_folder path_join strip pass_folder secret_folder)
    (fun tr o => tr = [] /\ o = Returned []).
Proof.
  intros Hp Hs. unfold load_secrets_from_folder. rewrite Hp, Hs.
  apply always_Ret. split; reflexivity.
Qed.

(** X4. The group either stops before it reads anything, with the two
    lines about the missing [pass] binary and exit status 1, which
    happens exactly when the password-store folder is set and the binary
    is absent, or it returns a [ctx.obj] that is a well-formed context.
    In it each of the four required values is the one of the options or a
    text of the folder that is not empty; the webhook address and the
    internal address of the folder are absent or not empty; the webhook
    URL is the one of the options.  When no folder is set nothing is read
    and the context is the one of the options. *)
Theorem cli_context :
  forall (path_join : string -> string -> string) (strip : string -> string) (W : Type) (h : handler W) (w : W)
         (env : environment) (o : cli_options),
    let r := run h (cli path_join strip env o) w in
    if pass_missing env then
      trace_of r = pass_missing_report /\ outcome_of r = Exited 1
    else
      exists ctx,
        outcome_of r = Returned (obj_of ctx)
        /\ (ctx_forgejo_url ctx = opt_forgejo_url o \/ from_folder (ctx_forgejo_url ctx))
        /\ (ctx_username ctx = opt_username o \/ from_folder (ctx_username ctx))
        /\ (ctx_password ctx = opt_password o \/ from_folder (ctx_password ctx))
        /\ (ctx_repo_owner ctx = opt_repo_owner o \/ from_folder (ctx_repo_owner ctx))
        /\ (ctx_smee_url ctx = None \/ from_folder (ctx_smee_url ctx))
        /\ (ctx_internal_url ctx = None \/ from_folder (ctx_internal_url ctx))
        /\ ctx_webhook_url ctx = opt_webhook_url o
        /\ (given (GITEA_PASS_SECRET_FOLDER env) = None ->
            given (GITEA_SECRET_FOLDER env) = None ->
            trace_of r = [] /\ ctx = from_options o).
Proof.
  intros path_join strip W h w env o r.
  apply (always_run _
           (fun tr o' =>
              if pass_missing env then tr = pass_missing_report /\ o' = Exited 1
              else
                exists ctx,
                  o' = Returned (obj_of ctx)
                  /\ (ctx_forgejo_url ctx = opt_forgejo_url o
                      \/ from_folder (ctx_forgejo_url ctx))
                  /\ (ctx_username ctx = opt_username o \/ from_folder (ctx_username ctx))
                  /\ (ctx_password ctx = opt_password o \/ from_folder (ctx_password ctx))
                  /\ (ctx_repo_owner ctx = opt_repo_owner o
                      \/ from_folder (ctx_repo_owner ctx))
                  /\ (ctx_smee_url ctx = None \/ from_folder (ctx_smee_url ctx))
                  /\ (ctx_internal_url ctx = None \/ from_folder (ctx_internal_url ctx))
                  /\ ctx_webhook_url ctx = opt_webhook_url o
                  /\ (given (GITEA_PASS_SECRET_FOLDER env) = None ->
                      given (GITEA_SECRET_FOLDER env) = None ->
                      tr = [] /\ ctx = from_options o))).
  unfold cli. fold (pass_missing env).
  destruct (pass_missing env).
  - repeat step.
    repeat match goal with u : unit |- _ => destruct u end. split; reflexivity.
  - cbn [bind]. apply always_bind.
    assert (Hboth : always
              (load_secrets_from_folder path_join strip (GITEA_PASS_SECRET_FOLDER env)
                 (GITEA_SECRET_FOLDER env))
              (fun tr o1 =>
                 exists d, o1 = Returned d
                           /\ (forall k v, Py.lookup k d = Some v -> secret_entry k v)
                           /\ (given (GITEA_PASS_SECRET_FOLDER env) = None ->
                               given (GITEA_SECRET_FOLDER env) = None ->
                               tr = [] /\ d = []))).
    { intros tr o1 He.
      destruct (load_secrets_values_always path_join strip _ _ tr o1 He) as (d & -> & Hd).
      exists d. split; [reflexivity |]. split; [exact Hd |].
      intros Hp Hs.
      destruct (load_secrets_nothing path_join strip _ _ Hp Hs tr _ He) as [-> Heq].
      injection Heq as <-. split; reflexivity. }
    eapply always_mono; [exact Hboth |].
    intros tr1 o1 (d & -> & Hd & Hnone). simpl then_.
    apply always_Ret.
    destruct (merged_text d "api_url" (opt_forgejo_url o) Hd eq_refl)
      as (c1 & -> & H1 & H1').
    destruct (merged_text d "username" (opt_username o) Hd eq_refl)
      as (c2 & -> & H2 & H2').
    destruct (merged_text d "password" (opt_password o) Hd eq_refl)
      as (c3 & -> & H3 & H3').
    destruct (merged_text d "repo_owner" (opt_repo_owner o) Hd eq_refl)
      as (c4 & -> & H4 & H4').
    destruct (merged_flag d (opt_skip_tls o) Hd) as (c5 & -> & H5').
    destruct (folder_text d "smee_url" Hd eq_refl) as (c6 & -> & H6 & H6').
    destruct (folder_text d "internal_url" Hd eq_refl) as (c7 & -> & H7 & H7').
    exists {| ctx_forgejo_url := c1; ctx_username := c2; ctx_password := c3;
              ctx_repo_owner := c4; ctx_skip_tls := c5; ctx_smee_url := c6;
              ctx_internal_url := c7; ctx_webhook_url := opt_webhook_url o |}.
    simpl. repeat (split; [solve [auto] |]).
    intros Hp Hs. destruct (Hnone Hp Hs) as [-> ->].
    split; [reflexivity |].
    rewrite H1', H2', H3', H4', H5', H6', H7' by reflexivity. reflexivity.
Qed.


(* ------------------------------------------------------------------ *)
(** ** A folder of plain-text secrets *)
(* ------------------------------------------------------------------ *)

Lemma folder_read_secret path_join strip files folder key :
  exists tr,
    run (Sim.answer (Folder.world files)) (read_secret path_join strip folder key "cat") tt
    = (tr, Returned (Folder.secret path_join strip files folder key), tt).
Proof.
  unfold read_secret, Folder.secret.
  destruct (files (path_join folder key)) as [content |] eqn:Hf;
    simpl; repeat (rewrite Hf; simpl).
  - destruct (PyStr.truthy (strip content)); simpl; eexists; reflexivity.
  - eexists. reflexivity.
Qed.

Lemma folder_secret_truthy path_join strip files folder key v :
  Folder.secret path_join strip files folder key = Some v -> PyStr.truthy v = true.
Proof.
  unfold Folder.secret, file_secret.
  destruct (files (path_join folder key)) as [content |]; [| discriminate].
  destruct (PyStr.truthy (strip content)) eqn:Ht; [| discriminate].
  intros H. injection H as <-. exact Ht.
Qed.

Lemma folder_load_each path_join strip files folder mappings secrets :
  exists tr,
    run (Sim.answer (Folder.world files))
      (load_each path_join strip folder "cat" mappings secrets) tt
    = (tr,
       Returned
         (fold_left
            (fun d m =>
               match Folder.secret path_join strip files folder (fst m) with
               | Some v =>
                   if String.eqb (snd m) "skip_tls"
                   then dict_set d (snd m) (VBool (is_yes v))
                   else dict_set d (snd m) (VStr v)
               | None => d
               end) mappings secrets),
       tt).
Proof.
  revert secrets. induction mappings as [| [file_key config_key] rest IH]; intros secrets.
  - simpl. eexists. reflexivity.
  - cbn [load_each fold_left fst snd].
    destruct (folder_read_secret path_join strip files folder file_key) as [tr1 H1].
    destruct (Folder.secret path_join strip files folder file_key) as [v |] eqn:Hv.
    + destruct (IH (if String.eqb config_key "skip_tls"
                    then dict_set secrets config_key (VBool (is_yes v))
                    else dict_set secrets config_key (VStr v))) as [tr2 H2].
      exists (tr1 ++ tr2).
      rewrite (run_bind_Returned _ _ _ _ _ _ _ H1).
      rewrite (folder_secret_truthy _ _ _ _ _ _ Hv), H2. reflexivity.
    + destruct (IH secrets) as [tr2 H2].
      exists (tr1 ++ tr2).
      rewrite (run_bind_Returned _ _ _ _ _ _ _ H1), H2. reflexivity.
Qed.

Lemma lookup_stored (k c : string) (s : option string) (f : string -> value)
    (d : list (string * value)) :
  Py.lookup k (match s with Some v => dict_set d c (f v) | None => d end)
  = if String.eqb c k
    then match s with Some v => Some (f v) | None => Py.lookup k d end
    else Py.lookup k d.
Proof.
  destruct s as [v |].
  - rewrite lookup_dict_set. destruct (String.eqb c k); reflexivity.
  - destruct (String.eqb c k); reflexivity.
Qed.

Lemma folder_text_entry path_join strip files folder key (opt : option string) :
  py_or (match match Folder.secret path_join strip files folder key with
               | Some v => Some (VStr v)
               | None => None
               end with
         | Some v => v
         | None => VNone
         end) (of_opt opt)
  = of_opt (or_else (Folder.secret path_join strip files folder key) opt).
Proof.
  destruct (Folder.secret path_join strip files folder key) as [v |] eqn:Hv; [| reflexivity].
  unfold py_or. simpl. rewrite (folder_secret_truthy _ _ _ _ _ _ Hv). reflexivity.
Qed.

(** X5. On a machine that holds a folder of plain-text secrets and no
    password-store folder, the group returns the context in which every
    secret of the folder has priority over the option of the same name:
    the stripped content of the file when the file exists and is not
    blank, the option otherwise.  The [skip-tls] file replaces the option
    whenever it is not blank: a content other than [true], [1] or [yes],
    in any case, turns the verification on even when [--skip-tls] was
    given.  The webhook relay and the internal address come from the
    folder only, the webhook URL from the options only. *)
Theorem cli_folder_priority :
  forall (path_join : string -> string -> string) (strip : string -> string)
         (files : string -> option string)
         (env : environment) (o : cli_options) (folder : string),
    given (GITEA_PASS_SECRET_FOLDER env) = None ->
    given (GITEA_SECRET_FOLDER env) = Some folder ->
    outcome_of (run (Sim.answer (Folder.world files)) (cli path_join strip env o) tt)
    = Returned (obj_of (Folder.resolved path_join strip files folder o)).
Proof.
  intros path_join strip files env o folder Hp Hs.
  unfold cli.
  assert (Hmiss : PyStr.truthy_opt (GITEA_PASS_SECRET_FOLDER env) = false).
  { unfold given in Hp. destruct (GITEA_PASS_SECRET_FOLDER env) as [f |]; [| reflexivity].
    simpl. destruct (PyStr.truthy f); [discriminate | reflexivity]. }
  rewrite Hmiss. cbn [andb bind].
  unfold load_secrets_from_folder. rewrite Hp, Hs.
  destruct (folder_load_each path_join strip files folder secret_mappings []) as [tr Hrun].
  rewrite (run_bind_Returned _ _ _ _ _ _ _ Hrun).
  unfold outcome_of. cbn [run fst snd].
  unfold obj_of, Folder.resolved, secret_mappings, get.
  cbn [fold_left fst snd ctx_forgejo_url ctx_username ctx_password ctx_repo_owner
       ctx_skip_tls ctx_smee_url ctx_internal_url ctx_webhook_url
       String.eqb Ascii.eqb Bool.eqb].
  repeat (rewrite (lookup_stored _ _ _ (fun v => VStr v))
          || rewrite (lookup_stored _ _ _ (fun v => VBool (is_yes v))));
    cbn [String.eqb Ascii.eqb Bool.eqb Py.lookup].
  rewrite !folder_text_entry.
  destruct (Folder.secret path_join strip files folder "skip-tls");
    destruct (Folder.secret path_join strip files folder "smee");
    destruct (Folder.secret path_join strip files folder "internal-url");
    reflexivity.
Qed.

(** The demo folder: the address of the file wins over the option and
    loses its newline, the blank user name leaves the option in place,
    and [no] in [skip-tls] turns off the [--skip-tls] of the options. *)
Lemma cli_folder_priority_demo :
  given (GITEA_PASS_SECRET_FOLDER Folder.env) = None
  /\ given (GITEA_SECRET_FOLDER Folder.env) = Some "/secrets"%string
  /\ outcome_of (run (Sim.answer (Folder.world Folder.demo))
                   (cli Folder.join Folder.strip Folder.env Folder.options) tt)
     = Returned (obj_of {| ctx_forgejo_url := Some "https://forge.example"%string;
                           ctx_username := Some "alice"%string;
                           ctx_password := Some "pw"%string;
                           ctx_repo_owner := None;
                           ctx_skip_tls := false;
                           ctx_smee_url := None;
                           ctx_internal_url := None;
                           ctx_webhook_url := EmptyString |}).
Proof.
  split; [reflexivity |]. split; [reflexivity |].
  rewrite (cli_folder_priority Folder.join Folder.strip Folder.demo Folder.env Folder.options "/secrets");
    reflexivity.
Defined.

(* ------------------------------------------------------------------ *)
(** ** The required configuration *)
(* ------------------------------------------------------------------ *)

Transparent validate_required_config.

Lemma for_each_echo {A : Type} (l : list A) (line : A -> string) (Q : list event -> outcome unit -> Prop) :
  Q (map (fun a => Event (Echo true (line a)) tt) l) (Returned tt) ->
  always (for_each l (fun a => echo_err (line a))) Q.
Proof.
  revert Q. induction l as [| a rest IH]; intros Q H; simpl.
  - apply always_Ret. exact H.
  - apply always_Vis. intros []. simpl. apply IH. exact H.
Qed.

Lemma for_each_missing (l : list (string * list string)) (Q : list event -> outcome unit -> Prop) :
  Q (flat_map missing_report l) (Returned tt) ->
  always (for_each l (fun fs =>
            echo_err (PyStr.nl ++ "  " ++ fst fs ++ " can be provided via:")%string ;;
            for_each (snd fs) (fun source => echo_err ("    - " ++ source)%string))) Q.
Proof.
  revert Q. induction l as [| fs rest IH]; intros Q H.
  - simpl. apply always_Ret. exact H.
  - cbn [for_each]. apply always_bind. simpl.
    apply always_Vis. intros [].
    apply for_each_echo. simpl.
    apply IH. simpl in H. exact H.
Qed.

Lemma validate_required_config_shape (c : config) :
  always (validate_required_config c)
    (fun tr o =>
       match missing c with
       | [] => tr = [] /\ o = Returned tt
       | _ => tr = missing_header :: flat_map missing_report (missing c) /\ o = Exited 1
       end).
Proof.
  unfold validate_required_config.
  destruct (missing c) as [| fs rest] eqn:Hm.
  - apply always_Ret. split; reflexivity.
  - rewrite <- Hm. cbn [bind echo_err trigger]. apply always_Vis. intros [].
    cbn [bind]. apply always_bind.
    apply for_each_missing. simpl.
    apply always_Exit. rewrite app_nil_r. split; reflexivity.
Qed.

Opaque validate_required_config.

(** X6. [validate_required_config] prints nothing and returns when each
    of the four required fields is present and not empty.  Otherwise it
    ends the process with status 1 after it has reported, on the error
    stream, every missing field and not only the first: a header, then
    for each field that is absent or empty, in the order [forgejo_url],
    [username], [password], [repo_owner], its name and the four places it
    can be provided from. *)
Theorem validate_required_config_reports :
  forall (W : Type) (h : handler W) (w : W) (c : config),
    let r := run h (validate_required_config c) w in
    let absent := filter (fun field => negb (PyStr.truthy_opt (config_get c field)))
                    required_names in
    if forallb (fun field => PyStr.truthy_opt (config_get c field)) required_names then
      trace_of r = [] /\ outcome_of r = Returned tt
    else
      outcome_of r = Exited 1
      /\ trace_of r = missing_header :: flat_map missing_report (missing c)
      /\ map fst (missing c) = absent
      /\ length (trace_of r) = (1 + 5 * length absent)%nat
      /\ forallb is_echo (trace_of r) = true.
Proof.
  intros W h w c r absent.
  assert (H := always_run _ _ (validate_required_config_shape c) h w).
  fold r in H. simpl in H. subst absent.
  unfold missing, required_fields, required_names in *. simpl in *.
  destruct (PyStr.truthy_opt (config_get c "forgejo_url"));
    destruct (PyStr.truthy_opt (config_get c "username"));
    destruct (PyStr.truthy_opt (config_get c "password"));
    destruct (PyStr.truthy_opt (config_get c "repo_owner"));
    simpl in *; destruct H as [-> ->]; repeat split; reflexivity.
Qed.

Lemma unconfigured_stops {A : Type} (ctx : context) (f : unit -> Prog A) :
  ~ configured ctx ->
  behaves is_echo (fun o => o = Exited 1)
    (validate_required_config (required_config ctx) ;; f tt).
Proof.
  intros Hno. eapply behaves_bind; [apply validate_required_config_behaves |].
  intros o [-> | [-> Hcfg]]; [reflexivity | contradiction].
Qed.

(** X7. A command that is given an incomplete configuration (one of the
    forge address, the user name, the password and the owner is absent or
    empty) does nothing but print on the terminal and ends with status 1:
    [repo], [pr] and [checkout] send no request, run no subprocess, read
    no clock and leave the file system alone. *)
Theorem commands_need_configuration :
  forall (py_repr : value -> string) (urlparse : string -> parse_result + exn)
         (W : Type) (h : handler W) (w : W) (ctx : context)
         (a : repo_options) (b : pr_options) (repo destination : string),
    ~ configured ctx ->
    let r1 := run h (repo_command py_repr urlparse ctx a) w in
    let r2 := run h (pr_command py_repr ctx b) w in
    let r3 := run h (checkout_command py_repr urlparse ctx repo destination) w in
    (forallb is_echo (trace_of r1) = true /\ outcome_of r1 = Exited 1)
    /\ (forallb is_echo (trace_of r2) = true /\ outcome_of r2 = Exited 1)
    /\ (forallb is_echo (trace_of r3) = true /\ outcome_of r3 = Exited 1).
Proof.
  intros py_repr urlparse W h w ctx a b repo destination Hno r1 r2 r3.
  split; [| split].
  - apply (always_run _ (fun tr o => forallb is_echo tr = true /\ o = Exited 1)).
    unfold repo_command. apply unconfigured_stops with (f := fun _ => _). exact Hno.
  - apply (always_run _ (fun tr o => forallb is_echo tr = true /\ o = Exited 1)).
    unfold pr_command. apply unconfigured_stops with (f := fun _ => _). exact Hno.
  - apply (always_run _ (fun tr o => forallb is_echo tr = true /\ o = Exited 1)).
    unfold checkout_command. apply unconfigured_stops with (f := fun _ => _). exact Hno.
Qed.

(** Without a password, [repo demo] exits with status 1. *)
Lemma commands_need_configuration_without_password :
  ~ configured ContextExamples.without_password
  /\ outcome_of (run (Sim.answer (RepoExamples.machine VNone))
                   (repo_command Sim.repr Sim.urlparse ContextExamples.without_password
                      Sim.demo) tt)
     = Exited 1.
Proof.
  assert (Hno : ~ configured ContextExamples.without_password).
  { unfold configured. simpl. intros (_ & _ & H & _). discriminate H. }
  split; [exact Hno |].
  exact (proj2 (proj1 (commands_need_configuration Sim.repr Sim.urlparse unit
                         (Sim.answer (RepoExamples.machine VNone)) tt
                         ContextExamples.without_password Sim.demo
                         ContextExamples.pr_demo "demo" "/tmp/demo" Hno))).
Defined.

(* ------------------------------------------------------------------ *)
(** ** The owner of a repository *)
(* ------------------------------------------------------------------ *)

Lemma contains_slash_cons (a : ascii) (s : string) :
  PyStr.contains "/" (String a s) = (Ascii.eqb a "/" || PyStr.contains "/" s)%bool.
Proof.
  change (PyStr.contains "/" (String a s))
    with (if prefix "/" (String a s) then true else PyStr.contains "/" s).
  cbn [prefix].
  destruct (ascii_dec "/" a) as [<- | Hne].
  - destruct s; reflexivity.
  - destruct (Ascii.eqb a "/") eqn:Ha; [| reflexivity].
    apply Ascii.eqb_eq in Ha. subst a. contradiction.
Qed.

Lemma partition_slash (s : string) :
  PyStr.contains "/" (fst (PyStr.partition "/" s)) = false
  /\ match snd (PyStr.partition "/" s) with
     | Some rest => s = (fst (PyStr.partition "/" s) ++ "/" ++ rest)%string
     | None => s = fst (PyStr.partition "/" s)
     end
  /\ (PyStr.contains "/" s = true -> snd (PyStr.partition "/" s) <> None).
Proof.
  induction s as [| a s (IH1 & IH2 & IH3)].
  - simpl. repeat split; auto. discriminate.
  - cbn [PyStr.partition]. rewrite contains_slash_cons.
    destruct (Ascii.eqb a "/") eqn:Ha.
    + apply Ascii.eqb_eq in Ha. subst a. simpl. repeat split; auto. discriminate.
    + destruct (PyStr.partition "/" s) as [head rest]. simpl in *.
      rewrite contains_slash_cons, Ha, IH1. simpl.
      split; [reflexivity |]. split; [| exact IH3].
      destruct rest; rewrite IH2 at 1; reflexivity.
Qed.

Lemma partition_head (o r : string) :
  PyStr.contains "/" o = false ->
  PyStr.partition "/" (o ++ "/" ++ r) = (o, Some r).
Proof.
  induction o as [| a o IH]; intros Ho.
  - reflexivity.
  - rewrite contains_slash_cons in Ho. apply orb_false_elim in Ho. destruct Ho as [Ha Ho].
    change (String a o ++ "/" ++ r)%string with (String a (o ++ "/" ++ r))%string.
    cbn [PyStr.partition]. rewrite Ha, (IH Ho). reflexivity.
Qed.

Lemma contains_slash_app (o r : string) :
  PyStr.contains "/" (o ++ "/" ++ r) = true.
Proof.
  induction o as [| a o IH].
  - change ("" ++ "/" ++ r)%string with (String "/" r).
    rewrite contains_slash_cons. reflexivity.
  - change (String a o ++ "/" ++ r)%string with (String a (o ++ "/" ++ r))%string.
    rewrite contains_slash_cons, IH. apply orb_true_r.
Qed.

(** X8. The owner the commands address is the first segment of the
    configured owner: it never holds a [/]; an owner without a [/] is
    taken as it is, and of [o/rest] only [o] is kept, whatever [rest]
    holds.  It is empty exactly when the configured owner is empty or
    starts with a [/]. *)
Theorem owner_of_first_segment :
  (forall s, PyStr.contains "/" (owner_of s) = false)
  /\ (forall o r,
        PyStr.contains "/" o = false ->
        owner_of o = o /\ owner_of (o ++ "/" ++ r) = o)
  /\ (forall s,
        owner_of s = EmptyString
        <-> s = EmptyString \/ PyStr.startswith s "/" = true).
Proof.
  split; [| split].
  - intros s. unfold owner_of, PyStr.split_head.
    destruct (PyStr.contains "/" s) eqn:Hs; [| exact Hs].
    apply partition_slash.
  - intros o r Ho. unfold owner_of, PyStr.split_head.
    rewrite Ho, contains_slash_app, (partition_head o r Ho). split; reflexivity.
  - intros s. unfold owner_of, PyStr.split_head, PyStr.startswith.
    destruct s as [| a s].
    + simpl. split; auto.
    + rewrite contains_slash_cons. cbn [PyStr.partition prefix].
      destruct (ascii_dec "/" a) as [<- | Hne].
      * simpl. split; [| reflexivity]. intros _. right. destruct s; reflexivity.
      * destruct (Ascii.eqb a "/") eqn:Ha.
        { apply Ascii.eqb_eq in Ha. subst a. contradiction. }
        destruct (PyStr.partition "/" s) as [head rest]. simpl.
        split.
        -- destruct (PyStr.contains "/" s); discriminate.
        -- intros [H | H]; discriminate H.
Qed.

(* ------------------------------------------------------------------ *)
(** ** Stepping through a whole command *)
(* ------------------------------------------------------------------ *)

Transparent create_pull_request_api generate_branch_name.

Lemma create_pull_request_api_behaves forgejo_url headers owner repo title head base
    verify_tls :
  behaves pull_event no_exit
    (create_pull_request_api forgejo_url headers owner repo title head base verify_tls).
Proof. unfold create_pull_request_api. quiet. Qed.

Lemma generate_branch_name_behaves : behaves is_clock no_exit generate_branch_name.
Proof. unfold generate_branch_name. quiet. Qed.

Opaque create_pull_request_api generate_branch_name.

(** Steps through code of which every event is allowed.  [call] says
    what a function of the script does, taken as a whole; [here] shows
    that an event of the code at hand is allowed.  A block that returns
    nothing is stepped through by itself, so that its branches join again
    before the code that follows. *)
Ltac walk_with call here :=
  lazymatch goal with
  | |- behaves _ _ (bind (validate_required_config _) _) =>
      eapply behaves_bind;
      [ call
      | let Hcfg := fresh "Hcfg" in
        intros ? [-> | [-> Hcfg]]; simpl; auto ]
  | |- behaves _ _ (bind (create_access_token _ _ _ _ _) _) =>
      eapply behaves_bind;
      [call | intros [? | ? | ?] ?; simpl; auto; try contradiction]
  | |- behaves _ _ (bind (create_webhook _ _ _ _ _ _) _) =>
      eapply behaves_bind;
      [call | intros [? | ? | ?] ?; simpl; auto; try contradiction]
  | |- behaves _ _ (bind (create_file_on_branch _ _ _ _ _ _ _ _ _ _) _) =>
      eapply behaves_bind;
      [call | intros [? | ? | ?] ?; simpl; auto; try contradiction]
  | |- behaves _ _ (bind (create_pull_request_api _ _ _ _ _ _ _ _) _) =>
      eapply behaves_bind;
      [call | intros [? | ? | ?] ?; simpl; auto; try contradiction]
  | |- behaves _ _ (bind generate_branch_name _) =>
      eapply behaves_bind;
      [call | intros [? | ? | ?] ?; simpl; auto; try contradiction]
  | |- behaves _ _ (bind (create_pac_resources _ _ _ _ _ _) _) =>
      eapply behaves_bind;
      [call | intros [? | ? | ?] ?; simpl; auto; try contradiction]
  | |- behaves _ _ (create_webhook _ _ _ _ _ _) =>
      eapply behaves_weaken; [ | intros ? Hev; exact Hev | intros; exact I ]; call
  | |- behaves _ _ (create_pac_resources _ _ _ _ _ _) =>
      eapply behaves_weaken; [ | intros ? Hev; exact Hev | intros; exact I ]; call
  | |- behaves _ _ (@bind unit _ (match _ with _ => _ end) _) =>
      eapply behaves_bind with (R1 := fun _ => True);
      [ solve [repeat walk_with call here] | intros [? | ? | ?] _; simpl; auto ]
  | |- behaves _ _ (@bind unit _ (try_except _ _) _) =>
      eapply behaves_bind with (R1 := fun _ => True);
      [ solve [repeat walk_with call here] | intros [? | ? | ?] _; simpl; auto ]
  | |- behaves _ _ (try_except _ _) =>
      eapply behaves_try with (R1 := fun _ => True);
      [ | let e := fresh "e" in
          intros [? | ? | e] _; simpl; auto; try (destruct e; simpl; auto) ]
  | |- behaves _ _ (Ret _) => apply behaves_Ret; simpl; auto
  | |- behaves _ _ (Exit _) => apply behaves_Exit; simpl; auto
  | |- behaves _ _ (Raise _) => apply behaves_Raise; simpl; auto
  | |- behaves _ _ (Vis _ _) => apply behaves_Vis; [here | intros ?]
  | |- behaves _ _ ?p =>
      first [ let x := head_scrutinee p in destruct x eqn:?
            | progress simpl
            | progress unfold echo, echo_err, trigger, raising, requests,
                subprocess_run, json, dict_get, as_str ]
  end.

(** [call] for events told apart by a classifier: [side] shows that the
    events a function of the script performs are allowed. *)
Ltac classified side :=
  eapply behaves_weaken;
  [ first [ apply validate_required_config_behaves
          | apply create_access_token_behaves
          | apply create_webhook_behaves
          | apply create_file_on_branch_behaves
          | apply create_pull_request_api_behaves
          | apply generate_branch_name_behaves
          | apply create_pac_resources_behaves ]
  | side
  | intros ? Ho; exact Ho ].

Ltac walk_step side here := walk_with ltac:(classified side) here.

(** An event the classifier at hand accepts by computation. *)
Ltac accepted := intros ?; reflexivity.

(* ------------------------------------------------------------------ *)
(** ** Runs that reach each step *)
(* ------------------------------------------------------------------ *)

Lemma from_first_found (P : event -> bool) (pre : list event) ev post :
  P ev = true -> from_first P (pre ++ ev :: post) <> [].
Proof.
  intros Hev. induction pre as [| ev' pre IH]; simpl.
  - rewrite Hev. discriminate.
  - destruct (P ev'); [discriminate | exact IH].
Qed.

Lemma from_first_app (P : event -> bool) (tr1 tr2 : list event) :
  from_first P tr1 <> [] -> from_first P (tr1 ++ tr2) <> [].
Proof.
  induction tr1 as [| ev tr1 IH]; simpl; [intros H; contradiction H; reflexivity |].
  destruct (P ev); [discriminate | exact IH].
Qed.

(** A call that performs the event itself. *)
Lemma given_bind_within {A B : Type} (G P : event -> bool) (p : Prog A) (k : A -> Prog B) :
  always p (fun tr _ => from_first P tr <> []) ->
  always (bind p k) (given_that G (after_first P reached)).
Proof.
  intros Hp.
  assert (Hgoal : forall tr1 tr2 (o : outcome B),
            from_first P tr1 <> [] -> after_first P reached (tr1 ++ tr2) o).
  { intros tr1 tr2 o H. apply (from_first_app P tr1 tr2) in H.
    unfold after_first, reached. destruct (from_first P (tr1 ++ tr2)); [contradiction H; reflexivity | exact I]. }
  apply always_bind. intros tr1 o1 He1. specialize (Hp tr1 o1 He1).
  destruct o1 as [a | c | e]; simpl.
  - intros tr2 o _ _. apply Hgoal. exact Hp.
  - intros _. rewrite <- (app_nil_r tr1). apply Hgoal. exact Hp.
  - intros _. rewrite <- (app_nil_r tr1). apply Hgoal. exact Hp.
Qed.

Lemma create_access_token_requests py_repr forgejo_url auth name verify_tls :
  always (create_access_token py_repr forgejo_url auth name verify_tls)
    (fun tr _ => from_first is_http tr <> []).
Proof.
  eapply always_mono; [apply create_access_token_shape |].
  intros tr o (pre & x & post & -> & _). apply from_first_found. reflexivity.
Qed.

Lemma forallb_true (tr : list event) : forallb (fun _ => true) tr = true.
Proof. induction tr as [| ev tr IH]; [reflexivity | exact IH]. Qed.

Lemma from_first_head (P : event -> bool) (tr : list event) ev post :
  from_first P tr = ev :: post -> P ev = true.
Proof.
  induction tr as [| ev' tr IH]; simpl; [discriminate |].
  destruct (P ev') eqn:Hev; [| exact IH].
  intros H. injection H as <- _. exact Hev.
Qed.

Lemma after_first_from {A : Type} (P1 P2 : event -> bool)
    (K : list event -> outcome A -> Prop) (tr : list event) (o : outcome A) :
  (forall ev, P1 ev = true -> P2 ev = false) ->
  after_first P1 (after_first P2 K) tr o -> after_first P2 K (from_first P1 tr) o.
Proof.
  intros H12. unfold after_first.
  destruct (from_first P1 tr) as [| ev post] eqn:Htr; [contradiction |].
  simpl. rewrite (H12 ev (from_first_head _ _ _ _ Htr)). intros H. exact H.
Qed.

Lemma passes_Ret {A : Type} (G P : event -> bool) (a : A) :
  always (Ret a) (given_that G (passes P)).
Proof. apply always_Ret. intros _. split; [reflexivity | eexists; reflexivity]. Qed.

Lemma passes_Vis {A X : Type} (G P : event -> bool) (e : Eff X) (k : X -> Prog A) :
  (forall x, P (Event e x) = false) ->
  (forall x, G (Event e x) = true -> always (k x) (given_that G (passes P))) ->
  always (Vis e k) (given_that G (passes P)).
Proof.
  intros HP Hk. apply always_Vis. intros x tr o He HG.
  simpl in HG. apply andb_prop in HG. destruct HG as [Hx HG].
  destruct (Hk x Hx tr o He HG) as [Hnever Ho].
  split; [| exact Ho]. unfold never in *. simpl. rewrite HP, Hnever. reflexivity.
Qed.

Lemma given_bind_pass {A B : Type} (G P : event -> bool)
    (K : list event -> outcome B -> Prop) (p : Prog A) (k : A -> Prog B) :
  always p (given_that G (passes P)) ->
  (forall a, always (k a) (given_that G (after_first P K))) ->
  always (bind p k) (given_that G (after_first P K)).
Proof.
  intros Hp Hk. apply given_bind_skip with (R1 := fun _ => True).
  - intros tr o He HG. destruct (Hp tr o He HG) as [Hnever [a ->]].
    split; [exact Hnever |]. exists a. split; [reflexivity | exact I].
  - intros a _. apply Hk.
Qed.

(** The facts the accepted answers give, one equation each. *)
Ltac compute_answer H :=
  cbv beta iota zeta
      delta [answered created clonable ran readable committed destination_free
             http_of proc_of is_token_post is_repo_create is_request method_eqb
             ep_tokens ep_create_repo ep_contents rq_method rq_endpoint andb negb
             clone_url_of] in H.

Ltac digest :=
  repeat match goal with
         | H : true = true |- _ => clear H
         | H : false = true |- _ => discriminate H
         | H : ?l = true |- _ =>
             lazymatch l with
             | PyStr.truthy _ => fail
             | Py.truthy _ => fail
             | status_in _ _ => fail
             | _ => progress compute_answer H
             end
         | H : context [match ?t with _ => _ end] |- _ =>
             lazymatch type of H with
             | _ = true =>
                 let y := innermost t in
                 let E := fresh "E" in
                 destruct y eqn:E; try rewrite E in H; compute_answer H;
                 try discriminate H
             end
         end;
  try discriminate; try congruence.

Ltac use_facts :=
  repeat match goal with
         | H : ?t = _ |- always ?p _ =>
             lazymatch t with
             | _ _ => lazymatch p with context [t] => rewrite H end
             end
         end.

(** Steps through a block that returns. *)
Ltac pass_step :=
  lazymatch goal with
  | |- always (Ret _) (given_that _ (passes _)) => apply passes_Ret
  | |- always (Vis _ _) (given_that _ (passes _)) =>
      let x := fresh "x" in
      let HG := fresh "HG" in
      apply passes_Vis; [intros ?; reflexivity | intros x HG; digest]
  | |- always ?p (given_that _ (passes _)) =>
      first [ progress use_facts
            | let x := head_scrutinee p in destruct x eqn:?; digest
            | progress simpl
            | progress unfold echo, echo_err, trigger, raising, requests,
                subprocess_run, json, dict_get, as_str
            | progress unfold create_webhook
            | progress unfold create_pac_resources ]
  end.

(** [go_step], through the functions of the script as well. *)
Ltac go_far :=
  first [ progress use_facts
        | lazymatch goal with
          | |- always (Vis (Http ?rq) _) _ =>
              lazymatch rq with context [on_org ?a] => destruct (on_org a) eqn:? end
          end
        | lazymatch goal with
          | |- always (Vis _ _) _ => go_step; digest
          | |- always (bind (validate_required_config _) _) _ => go_step
          | |- always (bind (create_access_token _ _ _ _ _) _) _ => go_step
          | |- always _ (given_that _ reached) => go_step
          | |- always (@bind unit _ _ _) (given_that _ (after_first _ _)) =>
              eapply given_bind_pass; [solve [repeat pass_step] | intros []]
          | |- always ?p _ => fail
          end
        | lazymatch goal with
          | |- always ?p (given_that _ (after_first _ _)) =>
              first [ let x := head_scrutinee p in destruct x eqn:?; digest
                    | progress simpl
                    | progress unfold echo, echo_err, trigger, raising, requests,
                        subprocess_run, json, dict_get, as_str
                    | progress unfold create_webhook
                    | progress unfold create_pac_resources
                    | progress unfold create_file_on_branch
                    | progress unfold create_pull_request_api
                    | progress unfold generate_branch_name ]
          end ].


Lemma repo_create_not_path ev : is_repo_create ev = true -> is_path ev = false.
Proof. revert ev. by_event_cases. Qed.

Lemma clock_not_pull_post ev : is_clock ev = true -> is_pull_post ev = false.
Proof. revert ev. by_event_cases. Qed.

(* ------------------------------------------------------------------ *)
(** ** Where the requests go *)
(* ------------------------------------------------------------------ *)

Ltac sent_event :=
  intros ?; unfold sent_to; simpl;
  rewrite ?String.eqb_refl, ?Bool.eqb_reflx;
  try match goal with |- context [on_org ?a] => destruct (on_org a) end;
  reflexivity.

Ltac sent_quiet := repeat walk_with ltac:(fail) sent_event.

Transparent create_access_token create_webhook create_file_on_branch
  create_pull_request_api generate_branch_name.

Lemma delete_existing_token_sent py_repr forgejo_url user password name verify_tls tokens :
  behaves (sent_to forgejo_url verify_tls user password) no_exit
    (delete_existing_token py_repr forgejo_url (user, password) name verify_tls tokens).
Proof.
  induction tokens as [| token rest IH]; simpl.
  - sent_quiet.
  - destruct token; simpl; sent_quiet; exact IH.
Qed.

Lemma create_access_token_sent py_repr forgejo_url user password name verify_tls :
  behaves (sent_to forgejo_url verify_tls user password) no_exit
    (create_access_token py_repr forgejo_url (user, password) name verify_tls).
Proof.
  unfold create_access_token.
  eapply behaves_bind with (R1 := fun o => o = Returned tt).
  - eapply behaves_try with (R1 := no_exit).
    + sent_quiet. apply delete_existing_token_sent.
    + intros [[] | c | e] H; simpl in *; auto; try contradiction.
      sent_quiet.
  - intros o ->. sent_quiet.
Qed.

Lemma create_webhook_sent forgejo_url authorization user password owner repo hook_url
    verify_tls :
  behaves (sent_to forgejo_url verify_tls user password) no_exit
    (create_webhook forgejo_url (Headers authorization "application/json") owner repo
       hook_url verify_tls).
Proof. unfold create_webhook. sent_quiet. Qed.

Lemma create_file_on_branch_sent forgejo_url authorization user password owner repo
    filepath content branch base_branch message verify_tls :
  behaves (sent_to forgejo_url verify_tls user password) no_exit
    (create_file_on_branch forgejo_url (Headers authorization "application/json") owner repo
       filepath content branch base_branch message verify_tls).
Proof. unfold create_file_on_branch. sent_quiet. Qed.

Lemma create_pull_request_api_sent forgejo_url authorization user password owner repo
    title head base verify_tls :
  behaves (sent_to forgejo_url verify_tls user password) no_exit
    (create_pull_request_api forgejo_url (Headers authorization "application/json") owner
       repo title head base verify_tls).
Proof. unfold create_pull_request_api. sent_quiet. Qed.

Lemma generate_branch_name_sent forgejo_url verify_tls user password :
  behaves (sent_to forgejo_url verify_tls user password) no_exit generate_branch_name.
Proof. unfold generate_branch_name. sent_quiet. Qed.

Opaque create_access_token create_webhook create_file_on_branch
  create_pull_request_api generate_branch_name.

Lemma offline_sent forgejo_url verify_tls user password ev :
  is_http ev = false -> sent_to forgejo_url verify_tls user password ev = true.
Proof.
  unfold is_http, sent_to. destruct (http_of ev); [discriminate | reflexivity].
Qed.

Lemma echo_offline ev : is_echo ev = true -> is_http ev = false.
Proof. revert ev. by_event_cases. Qed.

Lemma pac_offline ev : pac_event ev = true -> is_http ev = false.
Proof. revert ev. by_event_cases. Qed.

Ltac sent_call :=
  first [ eapply behaves_weaken;
          [ first [apply validate_required_config_behaves | apply create_pac_resources_behaves]
          | let Hev := fresh "Hev" in
            intros ? Hev; apply offline_sent;
            first [apply echo_offline, Hev | apply pac_offline, Hev]
          | intros ? Ho; exact Ho ]
        | apply create_access_token_sent
        | apply create_webhook_sent
        | apply create_file_on_branch_sent
        | apply create_pull_request_api_sent
        | apply generate_branch_name_sent ].

Ltac sent_step := walk_with sent_call sent_event.

Lemma repo_command_sent py_repr urlparse ctx a :
  behaves (sent_to (configured_url ctx) (negb (ctx_skip_tls ctx)) (configured_user ctx)
             (configured_password ctx)) (fun _ => True)
    (repo_command py_repr urlparse ctx a).
Proof.
  unfold repo_command, configured_url, configured_user, configured_password, token_headers.
  repeat sent_step.
Qed.

Lemma pr_command_sent py_repr ctx b :
  behaves (sent_to (configured_url ctx) (negb (ctx_skip_tls ctx)) (configured_user ctx)
             (configured_password ctx)) (fun _ => True)
    (pr_command py_repr ctx b).
Proof.
  unfold pr_command, configured_url, configured_user, configured_password, token_headers.
  repeat sent_step.
Qed.

Lemma checkout_command_sent py_repr urlparse ctx repo destination :
  behaves (sent_to (configured_url ctx) (negb (ctx_skip_tls ctx)) (configured_user ctx)
             (configured_password ctx)) (fun _ => True)
    (checkout_command py_repr urlparse ctx repo destination).
Proof.
  unfold checkout_command, configured_url, configured_user, configured_password,
    token_headers.
  repeat sent_step.
Qed.

Lemma rstrip_no_trailing (c : ascii) (s s' : string) :
  PyStr.rstrip c s <> (s' ++ String c EmptyString)%string.
Proof.
  revert s'. induction s as [| a rest IH]; intros s'.
  - destruct s'; discriminate.
  - change (PyStr.rstrip c (String a rest))
      with (match PyStr.rstrip c rest with
            | EmptyString => if Ascii.eqb a c then EmptyString else String a EmptyString
            | r => String a r
            end).
    destruct (PyStr.rstrip c rest) as [| b r] eqn:Hr.
    + destruct (Ascii.eqb a c) eqn:Ha.
      * destruct s'; discriminate.
      * destruct s' as [| a' s'']; simpl.
        -- intros H. injection H as H. subst a. rewrite Ascii.eqb_refl in Ha. discriminate.
        -- intros H. injection H as _ H. destruct s''; discriminate.
    + destruct s' as [| a' s'']; simpl.
      * intros H. injection H as _ H. discriminate.
      * intros H. injection H as _ H. apply (IH s''). exact H.
Qed.

(** X9. Every request a command sends goes to the configured forge: its
    base address is the configured one with every trailing [/] removed,
    so that it never ends with one; TLS verification is on or off on
    every request alike, as [skip_tls] says.  A request with basic
    authentication carries the configured user and password and goes to
    one of the two addresses of that user's tokens; every other request
    of the API carries an [Authorization] header, whatever its text, with
    JSON as content type; the probe of the forge carries no
    credentials. *)
Theorem requests_go_to_the_forge :
  forall (py_repr : value -> string) (urlparse : string -> parse_result + exn)
         (W : Type) (h : handler W) (w : W) (ctx : context)
         (a : repo_options) (b : pr_options) (repo destination : string),
    to_the_forge ctx (trace_of (run h (repo_command py_repr urlparse ctx a) w))
    /\ to_the_forge ctx (trace_of (run h (pr_command py_repr ctx b) w))
    /\ to_the_forge ctx
         (trace_of (run h (checkout_command py_repr urlparse ctx repo destination) w))
    /\ forall s, configured_url ctx <> (s ++ "/")%string.
Proof.
  intros py_repr urlparse W h w ctx a b repo destination.
  split; [| split; [| split]].
  - apply (always_run _ _ (repo_command_sent py_repr urlparse ctx a) h w).
  - apply (always_run _ _ (pr_command_sent py_repr ctx b) h w).
  - apply (always_run _ _ (checkout_command_sent py_repr urlparse ctx repo destination) h w).
  - intros s. unfold configured_url. destruct (ctx_forgejo_url ctx) as [u |].
    + apply rstrip_no_trailing.
    + destruct s; discriminate.
Qed.

(* ------------------------------------------------------------------ *)
(** ** The programs a command runs *)
(* ------------------------------------------------------------------ *)

Lemma runs_other (programs : list string) (ev : event) :
  is_subprocess ev = false -> runs programs ev = true.
Proof.
  unfold is_subprocess, runs. destruct (proc_of ev) as [[c x] |]; [discriminate | reflexivity].
Qed.

Lemma pac_runs_kubectl (programs : list string) (ev : event) :
  pac_event ev = true -> runs ("kubectl"%string :: programs) ev = true.
Proof.
  destruct ev as [X e x]. destruct e; try reflexivity; try discriminate.
  unfold pac_event, is_echo, is_kubectl, runs. simpl.
  destruct (argv c) as [| prog rest]; [discriminate |].
  simpl. intros ->. reflexivity.
Qed.

Ltac runs_side :=
  first [ apply pac_runs_kubectl
        | let ev := fresh "ev" in
          let Hev := fresh "Hev" in
          intros ev Hev; apply runs_other; revert ev Hev; solve [by_event_cases] ].

Lemma repo_command_runs py_repr urlparse ctx a :
  behaves (runs (if create_pac_cr a then ["kubectl"; "git"] else ["git"])%string)
    (fun _ => True) (repo_command py_repr urlparse ctx a).
Proof.
  unfold repo_command. destruct (create_pac_cr a).
  - repeat walk_step runs_side accepted.
  - repeat walk_step runs_side accepted.
Qed.

Lemma pr_command_runs py_repr ctx b :
  behaves (fun ev => negb (is_subprocess ev)) (fun _ => True) (pr_command py_repr ctx b).
Proof.
  unfold pr_command.
  repeat walk_step ltac:(solve [by_event_cases]) accepted.
Qed.

Lemma checkout_command_runs py_repr urlparse ctx repo destination :
  behaves (runs ["git"%string]) (fun _ => True)
    (checkout_command py_repr urlparse ctx repo destination).
Proof.
  unfold checkout_command.
  repeat walk_step runs_side accepted.
Qed.

(** X10. The only programs a command runs are [git] and [kubectl]:
    [repo] runs [kubectl] only when the registration in the cluster is
    requested, and only [git] otherwise; [pr] runs no program at all;
    [checkout] runs only [git]. *)
Theorem commands_run_git_and_kubectl :
  forall (py_repr : value -> string) (urlparse : string -> parse_result + exn)
         (W : Type) (h : handler W) (w : W) (ctx : context)
         (a : repo_options) (b : pr_options) (repo destination : string),
    forallb (runs (if create_pac_cr a then ["kubectl"; "git"] else ["git"])%string)
      (trace_of (run h (repo_command py_repr urlparse ctx a) w)) = true
    /\ never is_subprocess (trace_of (run h (pr_command py_repr ctx b) w)) = true
    /\ forallb (runs ["git"%string])
         (trace_of (run h (checkout_command py_repr urlparse ctx repo destination) w))
       = true.
Proof.
  intros py_repr urlparse W h w ctx a b repo destination.
  split; [| split].
  - apply (always_run _ _ (repo_command_runs py_repr urlparse ctx a) h w).
  - apply (always_run _ _ (pr_command_runs py_repr ctx b) h w).
  - apply (always_run _ _ (checkout_command_runs py_repr urlparse ctx repo destination) h w).
Qed.

(* ------------------------------------------------------------------ *)
(** ** The probe of the forge *)
(* ------------------------------------------------------------------ *)

Lemma repo_probe_shape py_repr urlparse ctx a :
  always (repo_command py_repr urlparse ctx a) (on_first is_http (probe_check ctx)).
Proof.
  unfold repo_command, probe_check, configured_url, configured_user, configured_password.
  repeat skip_step.
  all: try reflexivity.
  - simpl. apply on_first_Vis_hit; [intros; reflexivity |]. intros x.
    eapply always_mono; cycle 1.
    { intros tr o Hq. exists (probe (PyStr.rstrip "/" s) (negb (ctx_skip_tls ctx))), x.
      split; [reflexivity |]. split; [reflexivity |]. exact Hq. }
    destruct x as [response | e]; simpl.
    + destruct (PyStr.startswith (final_url response) "https://" && negb (ctx_skip_tls ctx))%bool;
        simpl; repeat (apply always_Vis; intros []);
        apply always_any; intros tr o; eexists; reflexivity.
    + destruct e; simpl; repeat (apply always_Vis; intros []);
        try (apply always_Exit; split; reflexivity);
        apply always_any; intros tr o; eexists; reflexivity.
  - apply always_bind.
    eapply always_mono; [apply create_access_token_replaces |].
    intros tr1 o1 (y & pre & z & post & -> & _).
    assert (Hfirst : forall tr2 (o : outcome unit),
              on_first is_http
                (fun rest o' =>
                   match rest with
                   | [] => exit_status o' = 1
                   | first :: _ =>
                       exists rq x0,
                         first = Event (Http rq) x0
                         /\ rq = list_request (PyStr.rstrip "/" s) (s0, s1)
                                  (negb (ctx_skip_tls ctx))
                   end)
                ((Event (Http (list_request (PyStr.rstrip "/" s) (s0, s1)
                                    (negb (ctx_skip_tls ctx)))) y
                     :: pre ++ Event (Http (token_request (PyStr.rstrip "/" s) (s0, s1)
                                              (repo a) (negb (ctx_skip_tls ctx)))) z
                        :: post) ++ tr2) o).
    { intros tr2 o. unfold on_first. simpl. eexists _, y. split; reflexivity. }
    destruct o1; simpl then_.
    + apply always_any. intros tr2 o. apply Hfirst.
    + rewrite <- (app_nil_r (_ :: _ ++ _)). apply (Hfirst [] (Exited code)).
    + rewrite <- (app_nil_r (_ :: _ ++ _)). apply (Hfirst [] (Uncaught e)).
Qed.

Lemma repo_reaches_request py_repr urlparse ctx a :
  configured ctx ->
  always (repo_command py_repr urlparse ctx a)
    (given_that (fun _ => true) (after_first is_http reached)).
Proof.
  intros Hcfg. unfold repo_command.
  with_configuration ctx Hcfg.
  repeat go_step.
  all: apply given_bind_within; apply create_access_token_requests.
Qed.

(** X11. [repo] probes a forge with an [http] address before anything
    else: its first request is then a [HEAD] of the forge, without
    credentials and with a timeout of 5 seconds.  A certificate error on
    the probe ends the run with two lines on the error stream and status
    1, before any token is asked for; any other failure of the probe is
    ignored, and an answer leads at most to a warning, when the forge
    redirects to [https] and the verification is on: in both cases the
    run goes on to the creation of the token.  With any other address
    there is no probe: the first request lists the tokens of the user.  A
    run without a request ended with status 1, and every run with a
    complete configuration sends one. *)
Theorem repo_probes_http_forge :
  forall (py_repr : value -> string) (urlparse : string -> parse_result + exn)
         (W : Type) (h : handler W) (w : W) (ctx : context) (a : repo_options),
    let r := run h (repo_command py_repr urlparse ctx a) w in
    match from_first is_http (trace_of r) with
    | [] => exit_status (outcome_of r) = 1
    | first :: post =>
        exists rq x,
          first = Event (Http rq) x
          /\ if PyStr.startswith (configured_url ctx) "http://" then
               rq = probe (configured_url ctx) (negb (ctx_skip_tls ctx))
               /\ match x with
                  | inl response =>
                      exists post',
                        post = (if (PyStr.startswith (final_url response) "https://"
                                    && negb (ctx_skip_tls ctx))%bool
                                then [Event (Echo true redirect_warning) tt]
                                else [])
                               ++ token_announced :: post'
                  | inr SSLError => post = ssl_report /\ outcome_of r = Exited 1
                  | inr _ => exists post', post = token_announced :: post'
                  end
             else
               rq = list_request (configured_url ctx)
                      (configured_user ctx, configured_password ctx)
                      (negb (ctx_skip_tls ctx))
    end
    /\ (configured ctx -> from_first is_http (trace_of r) <> []).
Proof.
  intros py_repr urlparse W h w ctx a r. split.
  - exact (always_run _ _ (repo_probe_shape py_repr urlparse ctx a) h w).
  - intros Hcfg.
    exact (after_first_reached _ _ _ _
             (always_run _ _ (repo_reaches_request py_repr urlparse ctx a Hcfg) h w
                (forallb_true _))).
Qed.

(* ------------------------------------------------------------------ *)
(** ** The webhook *)
(* ------------------------------------------------------------------ *)

Transparent create_webhook create_pac_resources.

Lemma create_webhook_shape forgejo_url headers owner repo hook_url verify_tls :
  always (create_webhook forgejo_url headers owner repo hook_url verify_tls)
    (fun tr o => exists x post,
       tr = Event (Http (hook_request forgejo_url headers owner repo hook_url verify_tls)) x
            :: post
       /\ hook_answer hook_url x post o).
Proof.
  unfold create_webhook, requests, raising. simpl.
  apply always_Vis. intros x.
  eapply always_mono; cycle 1.
  { intros tr o H. exists x, tr. split; [reflexivity | exact H]. }
  destruct x as [response | e]; simpl.
  - unfold hook_answer, hook_report. destruct (status_code response =? 201);
      apply always_Vis; intros []; apply always_Ret; split; reflexivity.
  - apply always_Raise. split; reflexivity.
Qed.

Lemma create_pac_resources_starts py_repr namespace repo_name repo_url internal_url token :
  always (create_pac_resources py_repr namespace repo_name repo_url internal_url token)
    (fun tr o => exists post, tr = Event (Echo false (pac_started namespace)) tt :: post).
Proof.
  unfold create_pac_resources. simpl. apply always_Vis. intros [].
  apply always_any. intros tr o. exists tr. reflexivity.
Qed.

Opaque create_webhook create_pac_resources.

Lemma truthy_false (s : string) : PyStr.truthy s = false -> s = EmptyString.
Proof.
  unfold PyStr.truthy. destruct s; [reflexivity | discriminate].
Qed.

Lemma effective_webhook_url_source (ctx : context) (a : repo_options) :
  (if PyStr.truthy (ctx_webhook_url ctx) then ctx_webhook_url ctx
   else if (negb (PyStr.truthy (smee_url a)) && PyStr.truthy_opt (ctx_smee_url ctx))%bool
        then match ctx_smee_url ctx with Some s => s | None => smee_url a end
        else smee_url a)
  = effective_webhook_url ctx a.
Proof.
  unfold effective_webhook_url.
  destruct (PyStr.truthy (ctx_webhook_url ctx)); [reflexivity |].
  destruct (PyStr.truthy (smee_url a)) eqn:Hs; simpl; [reflexivity |].
  apply truthy_false in Hs.
  destruct (ctx_smee_url ctx) as [s |]; simpl; [| exact Hs].
  destruct (PyStr.truthy s) eqn:Ht; [reflexivity |].
  apply truthy_false in Ht. congruence.
Qed.

Lemma from_first_nil (P : event -> bool) (tr : list event) :
  from_first P tr = [] -> never P tr = true.
Proof.
  unfold never. induction tr as [| ev tr IH]; simpl; [reflexivity |].
  destruct (P ev); [discriminate |]. exact IH.
Qed.

Lemma repo_webhook_shape py_repr urlparse ctx a :
  always (repo_command py_repr urlparse ctx a)
    (on_first (is_request POST ep_hooks)
       (fun rest o =>
          if PyStr.truthy (effective_webhook_url ctx a) then hook_check ctx a rest o
          else rest = [])).
Proof.
  unfold repo_command. rewrite effective_webhook_url_source.
  unfold hook_check, configured_owner, namespace_of.
  repeat skip_step.
  all: try (destruct (PyStr.truthy (effective_webhook_url ctx a)); reflexivity).
  apply on_first_Vis_skip; [intros; destruct (on_org a); reflexivity | intros ?].
  repeat skip_step.
  all: try (destruct (PyStr.truthy (effective_webhook_url ctx a)); reflexivity).
  apply always_bind.
  eapply always_mono; [apply create_webhook_shape |].
  intros tr1 o1 (x' & post1 & -> & Hans).
  destruct x' as [response | e]; simpl in Hans; destruct Hans as [-> ->]; simpl then_.
  - eapply always_mono; cycle 1.
    { intros tr2 o Hq. unfold on_first. simpl.
      eexists _, (inl response). split; [reflexivity |].
      split; [reflexivity |]. split; [reflexivity |].
      exists tr2. split; [reflexivity | exact Hq]. }
    destruct (create_pac_cr a).
    + apply always_bind.
      eapply always_mono; [apply create_pac_resources_starts |].
      intros tr o (post & ->).
      destruct o; simpl then_;
        [ apply always_any; intros tr2 o; simpl | simpl | simpl ];
        eexists; reflexivity.
    + simpl. repeat step; eauto.
  - unfold on_first. simpl.
    eexists _, (inr e). repeat split.
Qed.

Transparent create_webhook.

Lemma repo_reaches_webhook py_repr urlparse ctx a :
  configured ctx ->
  PyStr.truthy (effective_webhook_url ctx a) = true ->
  always (repo_command py_repr urlparse ctx a)
    (given_that (fun ev => answered (configured_password ctx) ev && created ev)%bool
       (after_first (is_request POST ep_hooks) reached)).
Proof.
  intros Hcfg Hurl. unfold repo_command, configured_password.
  rewrite effective_webhook_url_source.
  with_configuration ctx Hcfg.
  repeat go_far.
Qed.

Opaque create_webhook.

(** X12. [repo] creates a webhook exactly when an address is given for
    it: the webhook URL of the group has priority over the [--smee-url]
    option, which has priority over the relay of the folder of secrets.
    The request goes to the hooks of the repository, for the events
    [push], [issue_comment] and [pull_request].  Its failure is not
    fatal: whatever the status of the answer, one line is printed, the
    confirmation after a 201 and a warning otherwise, and the run goes on
    with the registration in the cluster when it is requested and with
    the clone step otherwise.  Without an address no such request is
    sent; with one, the request is sent in every run with a complete
    configuration in which every request is answered, the token request
    with a token and the creation of the repository with status 201 or
    409 and a JSON object. *)
Theorem repo_webhook_is_optional :
  forall (py_repr : value -> string) (urlparse : string -> parse_result + exn)
         (W : Type) (h : handler W) (w : W) (ctx : context) (a : repo_options),
    let r := run h (repo_command py_repr urlparse ctx a) w in
    let hook_url := effective_webhook_url ctx a in
    (if PyStr.truthy hook_url then
      match from_first (is_request POST ep_hooks) (trace_of r) with
      | [] => exit_status (outcome_of r) = 1
      | first :: post =>
          exists rq x,
            first = Event (Http rq) x
            /\ rq_endpoint rq = EpHooks (configured_owner ctx) (repo a)
            /\ rq_json rq = Some (webhook_data hook_url)
            /\ match x with
               | inl response =>
                   exists post',
                     post = Event (Echo false (hook_report hook_url response)) tt :: post'
                     /\ if create_pac_cr a then
                          exists post'',
                            post' = Event (Echo false (pac_started (namespace_of a))) tt
                                    :: post''
                        else
                          match post' with
                          | [] => exists e, outcome_of r = Uncaught e
                          | next :: _ => exists path b, next = Event (PathExists path) b
                          end
               | inr e => post = [] /\ outcome_of r = Uncaught e
               end
      end
    else never (is_request POST ep_hooks) (trace_of r) = true)
    /\ (configured ctx ->
        PyStr.truthy hook_url = true ->
        forallb (answered (configured_password ctx)) (trace_of r) = true ->
        forallb created (trace_of r) = true ->
        from_first (is_request POST ep_hooks) (trace_of r) <> []).
Proof.
  intros py_repr urlparse W h w ctx a r hook_url. subst hook_url. split.
  - assert (H := always_run _ _ (repo_webhook_shape py_repr urlparse ctx a) h w).
    fold r in H. unfold on_first in H.
    destruct (PyStr.truthy (effective_webhook_url ctx a)); [exact H |].
    apply from_first_nil. exact H.
  - intros Hcfg Hurl HA HC.
    exact (after_first_reached _ _ _ _
             (always_run _ _ (repo_reaches_webhook py_repr urlparse ctx a Hcfg Hurl) h w
                (forallb_both _ _ _ HA HC))).
Qed.

(* ------------------------------------------------------------------ *)
(** ** The clone step of [repo] *)
(* ------------------------------------------------------------------ *)

Ltac git_failure e :=
  destruct e as [| ? [err |] ? | | | | |]; simpl;
  try (apply always_Raise; split; reflexivity);
  apply always_Vis; intros []; simpl;
  try (destruct (PyStr.truthy err); simpl);
  repeat (apply always_Vis; intros []);
  apply always_Exit; split; reflexivity.

Lemma repo_clone_shape py_repr urlparse ctx a :
  always (repo_command py_repr urlparse ctx a)
    (on_first is_repo_create
       (after_creation
          (fun items post o =>
             clone_check py_repr urlparse ctx a items (from_first is_path post) o))).
Proof.
  unfold repo_command, configured_password, after_creation.
  fold (local_checkout a).
  repeat skip_step.
  all: try reflexivity.
  all: apply on_first_Vis_hit; [intros; destruct (on_org a); reflexivity |]; intros x'.
  all: eapply always_mono; cycle 1;
    [ intros tr o' Hq; eexists _, x'; split; [reflexivity | exact Hq] |].
  all: destruct x' as [response | e]; simpl bind;
    [| apply always_Raise; reflexivity ].
  all: destruct (json_body response) as [[] |] eqn:Hbody;
    try (repeat step; reflexivity).
  all: match goal with
       | |- always ?p _ =>
           change (always p (on_first is_path (clone_check py_repr urlparse ctx a items)))
       end.
  all: unfold clone_check, clone_url_of, html_url_of, configured_password.
  all: match goal with H : ctx_password _ = _ |- _ => rewrite H end.
  all: repeat skip_step.
  all: try reflexivity.
  all: apply on_first_Vis_hit; [intros; reflexivity |]; intros b.
  all: eapply always_mono; cycle 1;
    [ intros tr o' Hq; exists b; split; [reflexivity | exact Hq] |].
  all: destruct b; simpl;
    [ repeat (apply always_Vis; intros []); apply always_Ret; split; reflexivity |].
  all: apply always_Vis; intros x'.
  all: eapply always_mono; cycle 1;
    [ intros tr o' Hq;
      match goal with
      | H : _ ?s = inl ?p |- _ => exists s, p, x', tr
      end;
      split; [reflexivity |]; split; [assumption |]; split; [reflexivity | exact Hq] |].
  all: destruct x' as [done | e]; simpl; [| git_failure e].
  all: apply always_Vis; intros []; apply always_Vis; intros y.
  all: eapply always_mono; cycle 1;
    [ intros tr o' Hq; exists y, tr; split; [reflexivity | exact Hq] |].
  all: destruct y as [done' | e]; simpl; [| git_failure e].
  all: repeat (apply always_Vis; intros []); apply always_Ret; split; reflexivity.
Qed.

Transparent create_webhook create_pac_resources.

Lemma repo_reaches_clone_step py_repr urlparse ctx a :
  configured ctx ->
  always (repo_command py_repr urlparse ctx a)
    (given_that
       (fun ev => answered (configured_password ctx) ev
                  && (created ev && (clonable urlparse ev && ran ev)))%bool
       (after_first is_repo_create (after_first is_path reached))).
Proof.
  intros Hcfg. unfold repo_command, configured_password.
  with_configuration ctx Hcfg.
  repeat go_far.
Qed.

Opaque create_webhook create_pac_resources.

(** X13. The clone step of [repo] works on what the forge answered to
    the creation of the repository.  It starts with a look at the local
    directory, [--local-repo] or [/tmp/<repo>].  When the directory exists
    nothing is cloned: three lines are printed and the run returns.
    Otherwise [git clone] is run on the [clone_url] of the answer, with
    [git] and the password, not the token, as user information, and then
    [git checkout -b tektonci] in the new directory; the run ends with
    the local directory and the [html_url] of the answer.  A failure of
    either call is reported with what [git] printed, and ends the run with
    status 1; an exception of another kind, as when [git] is not
    installed, is not caught.  A run that does not reach the clone step
    ended with status 1; and a run reaches it when the configuration is
    complete, every request is answered, the token request with a token
    and the creation of the repository with status 201 or 409 and a JSON
    object of which the [clone_url] can be parsed, and every program that
    is run returns. *)
Theorem repo_clone_step :
  forall (py_repr : value -> string) (urlparse : string -> parse_result + exn)
         (W : Type) (h : handler W) (w : W) (ctx : context) (a : repo_options),
    let r := run h (repo_command py_repr urlparse ctx a) w in
    match from_first is_repo_create (trace_of r) with
    | [] => exit_status (outcome_of r) = 1
    | creation :: after =>
        exists rq answer,
          creation = Event (Http rq) answer
          /\ match answer with
             | inl response =>
                 match json_body response with
                 | Some (VDict items) =>
                     match from_first is_path after with
                     | [] => exit_status (outcome_of r) = 1
                     | first :: post =>
                         exists b : bool,
                           first = Event (PathExists (local_checkout a)) b
                           /\ if b then
                                post
                                = Event (Echo false
                                           ("Directory " ++ local_checkout a
                                            ++ " already exists, skipping clone")%string) tt
                                  :: repo_summary py_repr a (html_url_of items)
                                /\ outcome_of r = Returned tt
                              else
                                exists clone_url parsed x post',
                                  clone_url_of items = VStr clone_url
                                  /\ urlparse clone_url = inl parsed
                                  /\ post
                                     = Event (Subprocess
                                                (git ["clone";
                                                      password_url (configured_password ctx)
                                                        parsed;
                                                      local_checkout a]%string None)) x
                                       :: post'
                                  /\ match x with
                                     | inl _ =>
                                         exists y post'',
                                           post'
                                           = Event (Echo false
                                                      ("Repository cloned to: "
                                                       ++ local_checkout a)%string) tt
                                             :: Event (Subprocess
                                                         (git ["checkout"; "-b";
                                                               "tektonci"]%string
                                                            (Some (local_checkout a)))) y
                                             :: post''
                                           /\ match y with
                                              | inl _ =>
                                                  post''
                                                  = Event (Echo false
                                                             "Created branch: tektonci") tt
                                                    :: repo_summary py_repr a
                                                         (html_url_of items)
                                                  /\ outcome_of r = Returned tt
                                              | inr e => git_failed e post'' (outcome_of r)
                                              end
                                     | inr e => git_failed e post' (outcome_of r)
                                     end
                     end
                 | _ => exit_status (outcome_of r) = 1
                 end
             | inr _ => exit_status (outcome_of r) = 1
             end
    end
    /\ (configured ctx ->
        forallb (answered (configured_password ctx)) (trace_of r) = true ->
        forallb created (trace_of r) = true ->
        forallb (clonable urlparse) (trace_of r) = true ->
        forallb ran (trace_of r) = true ->
        from_first is_path (from_first is_repo_create (trace_of r)) <> []).
Proof.
  intros py_repr urlparse W h w ctx a r. split.
  - exact (always_run _ _ (repo_clone_shape py_repr urlparse ctx a) h w).
  - intros Hcfg HA HC HL HR.
    assert (H := always_run _ _ (repo_reaches_clone_step py_repr urlparse ctx a Hcfg) h w
                   (forallb_both _ _ _ HA
                      (forallb_both _ _ _ HC (forallb_both _ _ _ HL HR)))).
    fold r in H.
    apply (after_first_from _ _ _ _ _ repo_create_not_path) in H.
    exact (after_first_reached _ _ _ _ H).
Qed.

(* ------------------------------------------------------------------ *)
(** ** The token of a run *)
(* ------------------------------------------------------------------ *)

Lemma same_args_refl (l : list string) : same_args l l = true.
Proof.
  induction l as [| a l IH]; [reflexivity |].
  unfold same_args. fold same_args. rewrite String.eqb_refl, IH. reflexivity.
Qed.

Ltac shares_here :=
  intros ?; unfold shares, authorized_by, stores, token_headers, authorization,
    kubectl_create_secret; simpl;
  rewrite ?String.eqb_refl, ?same_args_refl; reflexivity.

Ltac shares_quiet :=
  repeat walk_with ltac:(fail) shares_here.

Transparent create_webhook create_pac_resources create_file_on_branch
  create_pull_request_api generate_branch_name.

Lemma create_webhook_shares py_repr namespace repo_name token forgejo_url owner repo
    hook_url verify_tls :
  behaves (shares py_repr namespace repo_name token) no_exit
    (create_webhook forgejo_url (token_headers py_repr token) owner repo hook_url
       verify_tls).
Proof. unfold create_webhook. shares_quiet. Qed.

Lemma create_pac_resources_shares py_repr namespace repo_name repo_url internal_url token :
  behaves (shares py_repr namespace repo_name token) no_exit
    (create_pac_resources py_repr namespace repo_name repo_url internal_url token).
Proof. unfold create_pac_resources. shares_quiet. Qed.

Lemma create_file_on_branch_shares py_repr namespace repo_name token forgejo_url owner repo
    filepath content branch base_branch message verify_tls :
  behaves (shares py_repr namespace repo_name token) no_exit
    (create_file_on_branch forgejo_url (token_headers py_repr token) owner repo filepath
       content branch base_branch message verify_tls).
Proof. unfold create_file_on_branch. shares_quiet. Qed.

Lemma create_pull_request_api_shares py_repr namespace repo_name token forgejo_url owner
    repo title head base verify_tls :
  behaves (shares py_repr namespace repo_name token) no_exit
    (create_pull_request_api forgejo_url (token_headers py_repr token) owner repo title
       head base verify_tls).
Proof. unfold create_pull_request_api. shares_quiet. Qed.

Lemma generate_branch_name_shares py_repr namespace repo_name token :
  behaves (shares py_repr namespace repo_name token) no_exit generate_branch_name.
Proof. unfold generate_branch_name. shares_quiet. Qed.

Opaque create_webhook create_pac_resources create_file_on_branch
  create_pull_request_api generate_branch_name.

Ltac shares_call :=
  first [ apply create_webhook_shares
        | apply create_pac_resources_shares
        | apply create_file_on_branch_shares
        | apply create_pull_request_api_shares
        | apply generate_branch_name_shares ].

(** The part of [token_shared] that depends on the answer, given that
    what follows the token request works with the token it is given. *)
Lemma token_shared_after (py_repr : value -> string)
    (forgejo_url user password name namespace repo_name : string) (verify_tls : bool)
    (K : value -> Prog unit) :
  (forall token,
     behaves (shares py_repr namespace repo_name token) (fun _ => True) (K token)) ->
  always
    (token <- create_access_token py_repr forgejo_url (user, password) name verify_tls ;;
     K token)
    (on_first is_token_post (token_shared py_repr password namespace repo_name)).
Proof.
  intros HK.
  apply always_bind.
  eapply always_mono; [apply create_access_token_shape |].
  intros tr1 o1 (pre & x & post & -> & Hpre & Hans).
  assert (Hhead : forall tr2 o,
            forallb (shares py_repr namespace repo_name (token_of password x)) (post ++ tr2)
            = true ->
            on_first is_token_post (token_shared py_repr password namespace repo_name)
              ((pre ++ Event (Http (token_request forgejo_url (user, password) name
                                      verify_tls)) x :: post) ++ tr2) o).
  { intros tr2 o Hall. unfold on_first. rewrite <- app_assoc. rewrite from_first_skip.
    - simpl. eexists _, x. split; [reflexivity | exact Hall].
    - eapply forallb_never; [| exact Hpre]. apply token_cleanup_not_post. }
  unfold token_answer in Hans. unfold token_of in Hhead.
  destruct x as [response | e].
  - destruct (status_in (status_code response) [201; 200]).
    + destruct Hans as [-> Ho].
      destruct (json_body response) as [[] |]; subst o1; simpl;
        try (rewrite <- (app_nil_r (_ ++ _ :: [])); apply Hhead; reflexivity).
      eapply always_mono; [apply HK |].
      intros tr2 o [Hall _]. apply Hhead. exact Hall.
    + destruct Hans as [-> ->]. simpl.
      eapply always_mono; [apply HK |].
      intros tr2 o [Hall _]. apply Hhead. exact Hall.
  - destruct Hans as [-> ->]. simpl.
    rewrite <- (app_nil_r (_ ++ _ :: [])). apply Hhead. reflexivity.
Qed.

Lemma repo_token_shape py_repr urlparse ctx a :
  always (repo_command py_repr urlparse ctx a)
    (on_first is_token_post
       (token_shared py_repr (configured_password ctx) (namespace_of a) (repo a))).
Proof.
  unfold repo_command, configured_password, namespace_of.
  repeat skip_step.
  all: try reflexivity.
  all: apply token_shared_after; intros token0.
  all: repeat walk_with shares_call shares_here.
Qed.

Lemma pr_token_shape py_repr ctx b :
  always (pr_command py_repr ctx b)
    (on_first is_token_post
       (token_shared py_repr (configured_password ctx) EmptyString EmptyString)).
Proof.
  unfold pr_command, configured_password.
  repeat skip_step.
  all: try reflexivity.
  all: apply token_shared_after; intros token0.
  all: repeat walk_with shares_call shares_here.
Qed.

(** X14. The token of a run of [repo] or [pr] is the [sha1] entry of the
    answer to the token request, under status 200 or 201, and the
    password under any other status.  Every request the run sends after
    that carries the header [Authorization: token <token>], and the
    cluster secret [repo] creates holds the same token: when the creation
    of the token failed, it is the password that is sent in the header
    and stored in the cluster.  A run without a token request ended with
    status 1. *)
Theorem token_is_shared :
  forall (py_repr : value -> string) (urlparse : string -> parse_result + exn)
         (W : Type) (h : handler W) (w : W) (ctx : context)
         (a : repo_options) (b : pr_options),
    let r1 := run h (repo_command py_repr urlparse ctx a) w in
    let r2 := run h (pr_command py_repr ctx b) w in
    match from_first is_token_post (trace_of r1) with
    | [] => exit_status (outcome_of r1) = 1
    | asked :: post =>
        exists rq x,
          asked = Event (Http rq) x
          /\ forallb (shares py_repr (namespace_of a) (repo a)
                        (token_of (configured_password ctx) x)) post = true
    end
    /\ match from_first is_token_post (trace_of r2) with
       | [] => exit_status (outcome_of r2) = 1
       | asked :: post =>
           exists rq x,
             asked = Event (Http rq) x
             /\ forallb (authorized_by py_repr (token_of (configured_password ctx) x)) post
                = true
       end.
Proof.
  intros py_repr urlparse W h w ctx a b r1 r2.
  split.
  - exact (always_run _ _ (repo_token_shape py_repr urlparse ctx a) h w).
  - assert (H := always_run _ _ (pr_token_shape py_repr ctx b) h w).
    fold r2 in H. unfold on_first, token_shared in H.
    destruct (from_first is_token_post (trace_of r2)) as [| asked post]; [exact H |].
    destruct H as (rq & x & Hasked & Hall). exists rq, x. split; [exact Hasked |].
    rewrite forallb_forall in *. intros ev Hin. specialize (Hall ev Hin).
    unfold shares in Hall. apply andb_prop in Hall. apply Hall.
Qed.

(** What follows the token request of a command, given what the command
    does with the token it is handed. *)
Lemma after_token_request (py_repr : value -> string)
    (forgejo_url user password name : string) (verify_tls : bool)
    (K : value -> Prog unit) (P : event -> bool)
    (R : value -> list event -> outcome unit -> Prop) :
  (forall msg, P (Event (Echo false msg) tt) = false) ->
  (forall token e, R token [] (Uncaught e)) ->
  (forall token, always (K token) (on_first P (R token))) ->
  always
    (token <- create_access_token py_repr forgejo_url (user, password) name verify_tls ;;
     K token)
    (on_first is_token_post
       (from_token_request password name (fun token post o => R token (from_first P post) o))).
Proof.
  intros HP Hraise HK.
  apply always_bind.
  eapply always_mono; [apply create_access_token_shape |].
  intros tr1 o1 (pre & x & post & -> & Hpre & Hans).
  assert (Hhead : forall tr2 o,
            R (token_of password x) (from_first P (post ++ tr2)) o ->
            on_first is_token_post
              (from_token_request password name
                 (fun token post o => R token (from_first P post) o))
              ((pre ++ Event (Http (token_request forgejo_url (user, password) name
                                      verify_tls)) x :: post) ++ tr2) o).
  { intros tr2 o Hall. unfold on_first. rewrite <- app_assoc. rewrite from_first_skip.
    - simpl. eexists _, x. split; [reflexivity |]. split; [reflexivity | exact Hall].
    - eapply forallb_never; [| exact Hpre]. apply token_cleanup_not_post. }
  unfold token_answer in Hans. unfold token_of in Hhead.
  destruct x as [response | e].
  - destruct (status_in (status_code response) [201; 200]).
    + destruct Hans as [-> Ho].
      destruct (json_body response) as [[] |]; subst o1; simpl;
        try (rewrite <- (app_nil_r (_ ++ _ :: [])); apply Hhead; apply Hraise).
      eapply always_mono; [apply HK |].
      intros tr2 o HR. apply Hhead. exact HR.
    + destruct Hans as [-> ->]. simpl.
      eapply always_mono; [apply HK |].
      intros tr2 o HR. apply Hhead. simpl. rewrite HP. exact HR.
  - destruct Hans as [-> ->]. simpl.
    rewrite <- (app_nil_r (_ ++ _ :: [])). apply Hhead. apply Hraise.
Qed.

(* ------------------------------------------------------------------ *)
(** ** What [repo] registers in the cluster *)
(* ------------------------------------------------------------------ *)

Lemma same_text_refl (s : option string) : same_text s s = true.
Proof. destruct s; simpl; [apply String.eqb_refl | reflexivity]. Qed.

Lemma same_call_refl (c : proc_call) : same_call c c = true.
Proof.
  unfold same_call.
  rewrite same_args_refl, !same_text_refl, Bool.eqb_reflx. reflexivity.
Qed.

Lemma effective_internal_url_source (ctx : context) (a : repo_options) :
  (if (String.eqb (internal_url a) default_internal_url
       && PyStr.truthy_opt (ctx_internal_url ctx))%bool
   then match ctx_internal_url ctx with Some s => s | None => internal_url a end
   else internal_url a)
  = effective_internal_url ctx a.
Proof.
  unfold effective_internal_url.
  destruct (String.eqb (internal_url a) default_internal_url) eqn:Hd; simpl;
    [| reflexivity].
  apply String.eqb_eq in Hd.
  destruct (ctx_internal_url ctx) as [s |]; simpl; [| exact Hd].
  destruct (PyStr.truthy s); [reflexivity | exact Hd].
Qed.

Ltac in_script_here :=
  intros ?; unfold in_script, pac_script, kubectl; simpl;
  rewrite ?same_call_refl, ?orb_true_r; reflexivity.

Transparent create_pac_resources.

Lemma create_pac_resources_in_script py_repr namespace repo_name repo_url internal_url
    token :
  behaves (in_script (pac_script py_repr namespace repo_name repo_url internal_url token))
    no_exit
    (create_pac_resources py_repr namespace repo_name repo_url internal_url token).
Proof. unfold create_pac_resources. repeat walk_with ltac:(fail) in_script_here. Qed.

Opaque create_pac_resources.

Lemma echo_in_script script ev : is_subprocess ev = false -> in_script script ev = true.
Proof.
  unfold is_subprocess, in_script. destruct (proc_of ev) as [[c x] |]; [discriminate |].
  reflexivity.
Qed.

Ltac in_script_call :=
  first [ apply create_pac_resources_in_script
        | eapply behaves_weaken;
          [ apply create_webhook_behaves
          | let ev := fresh "ev" in
            let Hev := fresh "Hev" in
            intros ev Hev; apply echo_in_script; revert ev Hev; solve [by_event_cases]
          | intros ? Ho; exact Ho ] ].

Lemma repo_registration_shape py_repr urlparse ctx a :
  always (repo_command py_repr urlparse ctx a)
    (on_first is_token_post
       (from_token_request (configured_password ctx) (repo a)
          (fun token post o =>
             registration py_repr ctx a token (from_first is_repo_create post) o))).
Proof.
  unfold repo_command, configured_password.
  rewrite effective_internal_url_source. fold (namespace_of a).
  repeat skip_step.
  all: try reflexivity.
  all: apply after_token_request; [reflexivity | intros; reflexivity | intros token0].
  all: unfold registration, after_creation.
  all: repeat skip_step.
  all: try reflexivity.
  all: apply on_first_Vis_hit; [intros; destruct (on_org a); reflexivity |]; intros x'.
  all: eapply always_mono; cycle 1;
    [ intros tr o' Hq; eexists _, x'; split; [reflexivity | exact Hq] |].
  all: destruct x' as [response | e]; simpl bind;
    [| apply always_Raise; reflexivity ].
  all: destruct (json_body response) as [[] |] eqn:Hbody;
    try (repeat step; reflexivity).
  all: match goal with
       | |- always ?p _ =>
           apply always_mono
             with (Q := fun tr o' =>
                          forallb (in_script
                                     (pac_script py_repr (namespace_of a) (repo a)
                                        (html_url_of items) (effective_internal_url ctx a)
                                        token0)) tr = true
                          /\ (fun _ : outcome unit => True) o');
           [ change (behaves (in_script
                                (pac_script py_repr (namespace_of a) (repo a)
                                   (html_url_of items) (effective_internal_url ctx a)
                                   token0)) (fun _ : outcome unit => True) p)
           | intros tr o' [Hall _]; exact Hall ]
       end.
  all: unfold json; rewrite ?Hbody; unfold html_url_of.
  all: repeat walk_with in_script_call in_script_here.
Qed.

(** X15. What [repo] registers in the cluster is what the forge and the
    configuration say.  After the token request, when the request that
    creates the repository is answered with a JSON object, every
    [kubectl] call of the run is one of the five calls of the
    registration made for the namespace [--target-ns], or the name of the
    repository when that option is empty; for the address of the
    repository that the forge returned as [html_url]; for the internal
    address of the forge, which is the [--internal-url] option when it is
    not the default, else the one of the folder of secrets, else the
    default; and for the token of the run.  A run in which the repository
    is not created, or is answered with anything else, ended with
    status 1. *)
Theorem repo_registers_the_repository :
  forall (py_repr : value -> string) (urlparse : string -> parse_result + exn)
         (W : Type) (h : handler W) (w : W) (ctx : context) (a : repo_options),
    let r := run h (repo_command py_repr urlparse ctx a) w in
    match from_first is_token_post (trace_of r) with
    | [] => exit_status (outcome_of r) = 1
    | asked :: post =>
        exists rq x,
          asked = Event (Http rq) x
          /\ rq_json rq
             = Some (VDict [("name", VStr (repo a)); ("scopes", VList [VStr "all"])]%string)
          /\ match from_first is_repo_create post with
             | [] => exit_status (outcome_of r) = 1
             | creation :: post' =>
                 exists rq' y,
                   creation = Event (Http rq') y
                   /\ match y with
                      | inl response =>
                          match json_body response with
                          | Some (VDict items) =>
                              forallb (in_script
                                         (pac_script py_repr (namespace_of a) (repo a)
                                            (html_url_of items)
                                            (effective_internal_url ctx a)
                                            (token_of (configured_password ctx) x)))
                                post' = true
                          | _ => exit_status (outcome_of r) = 1
                          end
                      | inr _ => exit_status (outcome_of r) = 1
                      end
             end
    end.
Proof.
  intros py_repr urlparse W h w ctx a r.
  exact (always_run _ _ (repo_registration_shape py_repr urlparse ctx a) h w).
Qed.

(* ------------------------------------------------------------------ *)
(** ** The two calls of [pr] to the API *)
(* ------------------------------------------------------------------ *)

Transparent create_file_on_branch create_pull_request_api.

Lemma create_file_on_branch_shape forgejo_url headers owner repo filepath content branch
    base_branch message verify_tls :
  always
    (create_file_on_branch forgejo_url headers owner repo filepath content branch
       base_branch message verify_tls)
    (fun tr o => exists x post,
       tr = Event (Http (file_request forgejo_url headers owner repo filepath content branch
                           base_branch message verify_tls)) x :: post
       /\ api_answer "Error creating file: " x post o).
Proof.
  unfold create_file_on_branch, requests, raising. simpl.
  apply always_Vis. intros x.
  eapply always_mono; cycle 1.
  { intros tr o H. exists x, tr. split; [reflexivity | exact H]. }
  unfold api_answer, api_error.
  destruct x as [response | e]; simpl; [| apply always_Raise; split; reflexivity].
  destruct (status_in (status_code response) [201; 200]); simpl.
  - unfold json. destruct (json_body response);
      [apply always_Ret | apply always_Raise]; split; reflexivity.
  - apply always_Vis. intros []. apply always_Ret. split; reflexivity.
Qed.

Lemma create_pull_request_api_answer forgejo_url headers owner repo title head base
    verify_tls :
  always (create_pull_request_api forgejo_url headers owner repo title head base verify_tls)
    (fun tr o => exists x post,
       tr = Event (Http (pull_request forgejo_url headers owner repo title head base
                           verify_tls)) x :: post
       /\ api_answer "Error creating pull request: " x post o).
Proof.
  unfold create_pull_request_api, requests, raising. simpl.
  apply always_Vis. intros x.
  eapply always_mono; cycle 1.
  { intros tr o H. exists x, tr. split; [reflexivity | exact H]. }
  unfold api_answer, api_error.
  destruct x as [response | e]; simpl; [| apply always_Raise; split; reflexivity].
  destruct (status_in (status_code response) [201; 200]); simpl.
  - unfold json. destruct (json_body response);
      [apply always_Ret | apply always_Raise]; split; reflexivity.
  - apply always_Vis. intros []. apply always_Ret. split; reflexivity.
Qed.

Opaque create_file_on_branch create_pull_request_api.

(** X16. [create_file_on_branch] and [create_pull_request_api] each send
    one request and never end the process.  The first posts the file,
    encoded in base 64, to the contents of the repository, with the base
    branch as [branch] and the branch to make as [new_branch]; the second
    posts the title, the head and the base to the pull requests of the
    repository.  Under status 200 or 201 the decoded body is returned and
    nothing is printed; under any other status, 2xx or not, one line with
    the status and the text of the answer is printed on the error stream
    and [None] is returned. *)
Theorem api_calls_report_failure :
  forall (W : Type) (h : handler W) (w : W) (forgejo_url : string) (headers : credentials)
         (owner repo filepath content branch base_branch message title : string)
         (verify_tls : bool),
    let r1 := run h (create_file_on_branch forgejo_url headers owner repo filepath content
                       branch base_branch message verify_tls) w in
    let r2 := run h (create_pull_request_api forgejo_url headers owner repo title branch
                       base_branch verify_tls) w in
    (exists x post,
       trace_of r1
       = Event (Http (file_request forgejo_url headers owner repo filepath content branch
                        base_branch message verify_tls)) x :: post
       /\ api_answer "Error creating file: " x post (outcome_of r1))
    /\ (exists x post,
          trace_of r2
          = Event (Http (pull_request forgejo_url headers owner repo title branch
                           base_branch verify_tls)) x :: post
          /\ api_answer "Error creating pull request: " x post (outcome_of r2)).
Proof.
  intros W h w forgejo_url headers owner repo filepath content branch base_branch message
    title verify_tls r1 r2.
  split.
  - exact (always_run _ _ (create_file_on_branch_shape forgejo_url headers owner repo
                             filepath content branch base_branch message verify_tls) h w).
  - exact (always_run _ _ (create_pull_request_api_answer forgejo_url headers owner repo
                             title branch base_branch verify_tls) h w).
Qed.

(* ------------------------------------------------------------------ *)
(** ** The file of [pr] *)
(* ------------------------------------------------------------------ *)

Lemma pr_file_shape py_repr ctx b :
  always (pr_command py_repr ctx b) (on_first is_clock (after_clock (file_step ctx b))).
Proof.
  unfold pr_command, after_clock.
  repeat skip_step.
  all: try reflexivity.
  apply always_bind.
  eapply always_mono; [apply generate_branch_name_shape |].
  intros tr1 o1 (t & -> & ->). simpl then_.
  eapply always_mono; cycle 1.
  { intros tr o Hq. unfold on_first. simpl. exists t. split; [reflexivity | exact Hq]. }
  unfold file_step, configured_owner. rewrite Heqo2.
  apply always_Vis. intros found.
  eapply always_mono; cycle 1.
  { intros tr o Hq. exists found, tr. split; [reflexivity | exact Hq]. }
  destruct found; simpl;
    [| apply always_Vis; intros []; apply always_Exit; split; reflexivity ].
  apply always_Vis. intros c.
  eapply always_mono; cycle 1.
  { intros tr o Hq. exists c, tr. split; [reflexivity | exact Hq]. }
  destruct c as [content | e]; simpl; [| apply always_Raise; split; reflexivity].
  apply always_Vis. intros [].
  apply always_bind.
  eapply always_mono; [apply create_file_on_branch_shape |].
  intros tr1 o1 (x' & post1 & -> & Hans).
  assert (Hgoal : forall tr2 o,
            file_answer (branch_at t) x' (post1 ++ tr2) o ->
            exists rq x0 post'',
              Event (Echo false ("Creating branch '" ++ branch_at t
                                 ++ "' with PipelineRun file...")%string) tt
              :: (Event (Http (file_request (PyStr.rstrip "/" s) (token_headers py_repr token)
                                 (owner_of s2) (pr_repo b) ".tekton/pr-noop.yaml" content
                                 (branch_at t) (target_branch b) "Add Tekton PipelineRun"
                                 (negb (ctx_skip_tls ctx)))) x' :: post1) ++ tr2
              = Event (Echo false ("Creating branch '" ++ branch_at t
                                   ++ "' with PipelineRun file...")%string) tt
                :: Event (Http rq) x0 :: post''
              /\ rq_method rq = POST
              /\ rq_endpoint rq = EpContents (owner_of s2) (pr_repo b) ".tekton/pr-noop.yaml"
              /\ rq_json rq
                 = Some (file_data content (branch_at t) (target_branch b)
                           "Add Tekton PipelineRun")
              /\ file_answer (branch_at t) x0 post'' o).
  { intros tr2 o H'. eexists _, x', (post1 ++ tr2).
    split; [reflexivity |]. repeat (split; [reflexivity |]). exact H'. }
  unfold api_answer in Hans. unfold file_answer in Hgoal.
  destruct x' as [response | e].
  - destruct (status_in (status_code response) [201; 200]).
    + destruct Hans as [-> ->].
      destruct (json_body response) as [v |]; simpl then_.
      * destruct (Py.truthy v) eqn:Hv; simpl.
        -- apply always_Vis. intros []. apply always_Vis. intros [].
           apply always_any. intros tr o. apply Hgoal. simpl. eexists. reflexivity.
        -- apply always_Vis. intros []. apply always_Exit.
           apply Hgoal. split; reflexivity.
      * rewrite <- (app_nil_r [_]). apply Hgoal. split; reflexivity.
    + destruct Hans as [-> ->]. simpl.
      apply always_Vis. intros []. apply always_Exit.
      apply Hgoal. split; reflexivity.
  - destruct Hans as [-> ->]. simpl.
    rewrite <- (app_nil_r [_]). apply Hgoal. split; reflexivity.
Qed.

Transparent generate_branch_name.

Lemma pr_reaches_clock py_repr ctx b :
  configured ctx ->
  always (pr_command py_repr ctx b)
    (given_that (answered (configured_password ctx)) (after_first is_clock reached)).
Proof.
  intros Hcfg. unfold pr_command, configured_password.
  with_configuration ctx Hcfg.
  repeat go_far.
Qed.

Opaque generate_branch_name.

(** X17. [pr] names its branch after the time it reads, and looks for the
    PipelineRun file right after that.  When the file is missing the run
    prints the error and exits with status 1, and nothing is committed.
    Otherwise the file is read and committed in one request to the path
    [.tekton/pr-noop.yaml] of the repository: its content in base 64, the
    target branch as the branch to fork from and the new branch to commit
    to.  The run goes on to the pull request only when the answer has
    status 200 or 201 and a body that is true in Python: under any other
    status, and also under 200 or 201 with an empty object for a body, it
    prints ["Error: Failed to create file on branch"] and exits with
    status 1.  A run that never reads the clock ended with status 1;
    and a run reads it when the configuration is complete and every
    request is answered, the token request with a token. *)
Theorem pr_commits_the_file :
  forall (py_repr : value -> string) (W : Type) (h : handler W) (w : W)
         (ctx : context) (b : pr_options),
    let r := run h (pr_command py_repr ctx b) w in
    match from_first is_clock (trace_of r) with
    | [] => exit_status (outcome_of r) = 1
    | asked :: post =>
        exists (t : Q) (found : bool) (post0 : list event),
          asked = Event Now t
          /\ post = Event (PathExists (pipelinerun_file b)) found :: post0
          /\ if found then
               exists c post',
                 post0 = Event (ReadText (pipelinerun_file b)) c :: post'
                 /\ match c with
                    | inl content =>
                        exists rq x post'',
                          post' = Event (Echo false ("Creating branch '" ++ branch_at t
                                                     ++ "' with PipelineRun file...")%string)
                                    tt
                                  :: Event (Http rq) x :: post''
                          /\ rq_method rq = POST
                          /\ rq_endpoint rq
                             = EpContents (configured_owner ctx) (pr_repo b)
                                 ".tekton/pr-noop.yaml"
                          /\ rq_json rq
                             = Some (file_data content (branch_at t) (target_branch b)
                                       "Add Tekton PipelineRun")
                          /\ file_answer (branch_at t) x post'' (outcome_of r)
                    | inr e => post' = [] /\ outcome_of r = Uncaught e
                    end
             else
               post0 = [Event (Echo true ("Error: PipelineRun file not found: "
                                          ++ pipelinerun_file b)%string) tt]
               /\ outcome_of r = Exited 1
    end
    /\ (configured ctx ->
        forallb (answered (configured_password ctx)) (trace_of r) = true ->
        from_first is_clock (trace_of r) <> []).
Proof.
  intros py_repr W h w ctx b r. split.
  - assert (H := always_run _ _ (pr_file_shape py_repr ctx b) h w).
    fold r in H. unfold on_first, after_clock in H.
    destruct (from_first is_clock (trace_of r)) as [| asked post]; [exact H |].
    destruct H as (t & Hasked & found & post0 & Hpost & H).
    exists t, found, post0. auto.
  - intros Hcfg HA.
    exact (after_first_reached _ _ _ _
             (always_run _ _ (pr_reaches_clock py_repr ctx b Hcfg) h w HA)).
Qed.

(* ------------------------------------------------------------------ *)
(** ** The pull request of [pr] *)
(* ------------------------------------------------------------------ *)

Ltac pull_answered :=
  unfold on_first; simpl;
  eexists _, _; (split; [reflexivity |]); simpl;
  repeat match goal with
         | H : status_in _ _ = _ |- _ => rewrite H
         | H : json_body _ = _ |- _ => rewrite H
         | H : Py.truthy _ = _ |- _ => rewrite H
         | H : no_open _ = _ |- _ => rewrite H
         end;
  simpl.

Lemma pr_pull_shape py_repr ctx b :
  always (pr_command py_repr ctx b) (on_first is_clock (after_clock (pull_after py_repr b))).
Proof.
  unfold pr_command, after_clock.
  repeat skip_step.
  all: try reflexivity.
  apply always_bind.
  eapply always_mono; [apply generate_branch_name_shape |].
  intros tr1 o1 (t & -> & ->). simpl then_.
  apply always_mono with (Q := on_first is_pull_post (pull_step py_repr b t)); cycle 1.
  { intros tr o Hq. unfold on_first. simpl. exists t. split; [reflexivity | exact Hq]. }
  unfold pull_step.
  repeat skip_step.
  all: try reflexivity.
  apply always_bind.
  eapply always_mono; [apply create_pull_request_api_answer |].
  intros tr1 o1 (x' & post1 & -> & Hans).
  unfold api_answer in Hans.
  destruct x' as [response | e].
  - destruct (status_in (status_code response) [201; 200]) eqn:Hst.
    + destruct Hans as [-> ->].
      destruct (json_body response) as [v |] eqn:Hbody; simpl then_.
      * destruct (Py.truthy v) eqn:Hv; simpl.
        -- destruct v; simpl;
             try (apply always_Raise; pull_answered; split; reflexivity).
           destruct (no_open b) eqn:Hopen; simpl.
           ++ repeat (apply always_Vis; intros []). apply always_Ret.
              pull_answered. exists true. split; reflexivity.
           ++ apply always_Vis. intros opened.
              repeat (apply always_Vis; intros []). apply always_Ret.
              pull_answered. exists opened. split; reflexivity.
        -- apply always_Vis. intros []. apply always_Exit.
           pull_answered. split; reflexivity.
      * pull_answered. split; reflexivity.
    + destruct Hans as [-> ->]. simpl.
      apply always_Vis. intros []. apply always_Exit.
      pull_answered. split; reflexivity.
  - destruct Hans as [-> ->]. simpl.
    pull_answered. split; reflexivity.
Qed.

Lemma pr_no_open_shape py_repr ctx b :
  no_open b = true ->
  behaves (fun ev => negb (is_browser ev)) (fun _ => True) (pr_command py_repr ctx b).
Proof.
  intros Hopen. unfold pr_command. rewrite Hopen.
  repeat walk_step ltac:(solve [by_event_cases]) accepted.
Qed.

Transparent generate_branch_name create_file_on_branch create_pull_request_api.

Lemma pr_reaches_pull_request py_repr ctx b :
  configured ctx ->
  always (pr_command py_repr ctx b)
    (given_that
       (fun ev => answered (configured_password ctx) ev && (readable ev && committed ev))%bool
       (after_first is_clock (after_first is_pull_post reached))).
Proof.
  intros Hcfg. unfold pr_command, configured_password.
  with_configuration ctx Hcfg.
  repeat go_far.
Qed.

Opaque generate_branch_name create_file_on_branch create_pull_request_api.

(** X18. In [pr], the answer to the request for the pull request decides
    the end of the run.  Under a status other than 200 and 201 the run
    prints the error of the forge and ["Error: Failed to create pull
    request"] and exits with status 1; it does the same, without the first
    line, under 200 or 201 with a body that is false in Python, as an
    empty object is.  With a JSON object that is not empty the run opens
    the address of the pull request in the browser, unless [--no-open] is
    given, ignores what the browser answers, prints the five lines of the
    summary, with the branch named after the time the run read, and
    returns.  With [--no-open] no run of [pr] opens the browser.  The
    request for the pull request is sent, after the clock was read, in
    every run with a complete configuration in which every request is
    answered, the token request with a token, the PipelineRun file is
    there and can be read, and its commit is answered with status 200 or
    201 and a body that is true in Python. *)
Theorem pr_opens_the_pull_request :
  forall (py_repr : value -> string) (W : Type) (h : handler W) (w : W)
         (ctx : context) (b : pr_options),
    let r := run h (pr_command py_repr ctx b) w in
    match from_first is_clock (trace_of r) with
    | [] => exit_status (outcome_of r) = 1
    | asked :: post =>
        exists t,
          asked = Event Now t
          /\ pull_step py_repr b t (from_first is_pull_post post) (outcome_of r)
    end
    /\ (no_open b = true -> never is_browser (trace_of r) = true)
    /\ (configured ctx ->
        forallb (answered (configured_password ctx)) (trace_of r) = true ->
        forallb readable (trace_of r) = true ->
        forallb committed (trace_of r) = true ->
        from_first is_pull_post (from_first is_clock (trace_of r)) <> []).
Proof.
  intros py_repr W h w ctx b r. split; [| split].
  - exact (always_run _ _ (pr_pull_shape py_repr ctx b) h w).
  - intros Hopen.
    apply (always_run _ _ (pr_no_open_shape py_repr ctx b Hopen) h w).
  - intros Hcfg HA HR HC.
    assert (H := always_run _ _ (pr_reaches_pull_request py_repr ctx b Hcfg) h w
                   (forallb_both _ _ _ HA (forallb_both _ _ _ HR HC))).
    fold r in H.
    apply (after_first_from _ _ _ _ _ clock_not_pull_post) in H.
    exact (after_first_reached _ _ _ _ H).
Qed.

(* ------------------------------------------------------------------ *)
(** ** The clone of [checkout] *)
(* ------------------------------------------------------------------ *)

Lemma contains_cons (needle : string) (a : ascii) (s : string) :
  PyStr.contains needle s = true -> PyStr.contains needle (String a s) = true.
Proof.
  intros H.
  change (PyStr.contains needle (String a s))
    with (if prefix needle (String a s) then true else PyStr.contains needle s).
  rewrite H. destruct (prefix needle (String a s)); reflexivity.
Qed.

Lemma prefix_contains (needle s : string) :
  prefix needle s = true -> PyStr.contains needle s = true.
Proof.
  intros H. destruct s as [| a s].
  - change (PyStr.contains needle EmptyString)
      with (if prefix needle EmptyString then true else false).
    rewrite H. reflexivity.
  - change (PyStr.contains needle (String a s))
      with (if prefix needle (String a s) then true else PyStr.contains needle s).
    rewrite H. reflexivity.
Qed.

Lemma prefix_app_contains (a b s : string) :
  prefix (a ++ b) s = true -> PyStr.contains b s = true.
Proof.
  revert s. induction a as [| c a IH]; intros s H.
  - apply prefix_contains. exact H.
  - destruct s as [| c' s]; [discriminate H |].
    change (String c a ++ b)%string with (String c (a ++ b)) in H.
    cbn [prefix] in H. destruct (ascii_dec c c'); [| discriminate H].
    apply contains_cons. apply IH. exact H.
Qed.

Lemma contains_app (a b s : string) :
  PyStr.contains (a ++ b) s = true -> PyStr.contains b s = true.
Proof.
  induction s as [| c s IH].
  - change (PyStr.contains (a ++ b) EmptyString)
      with (if prefix (a ++ b) EmptyString then true else false).
    destruct (prefix (a ++ b) EmptyString) eqn:Hp; [| discriminate].
    intros _. apply (prefix_app_contains a b). exact Hp.
  - change (PyStr.contains (a ++ b) (String c s))
      with (if prefix (a ++ b) (String c s) then true else PyStr.contains (a ++ b) s).
    destruct (prefix (a ++ b) (String c s)) eqn:Hp.
    + intros _. apply (prefix_app_contains a b). exact Hp.
    + intros H. apply contains_cons. apply IH. exact H.
Qed.

(** The second test of the hint never adds a case to the first. *)
Lemma not_found_hint (s : string) :
  (PyStr.contains "not found" s || PyStr.contains "repository not found" s)%bool
  = PyStr.contains "not found" s.
Proof.
  destruct (PyStr.contains "not found" s) eqn:H1; [reflexivity |].
  destruct (PyStr.contains "repository not found" s) eqn:H2; [| reflexivity].
  apply (contains_app "repository " "not found") in H2. congruence.
Qed.

Ltac checkout_failure e :=
  destruct e as [| ? [err |] ? | | | | |]; simpl;
  try (apply always_Raise; split; reflexivity);
  apply always_Vis; intros []; simpl;
  try (destruct (PyStr.truthy err); simpl;
       [ apply always_Vis; intros []; rewrite not_found_hint;
         destruct (PyStr.contains "not found" (PyStr.lower err)); simpl |]);
  repeat (apply always_Vis; intros []);
  apply always_Exit; split; reflexivity.

Lemma checkout_clone_shape py_repr urlparse ctx repo destination :
  always (checkout_command py_repr urlparse ctx repo destination)
    (on_first is_path
       (from_resolution destination (clone_step py_repr urlparse ctx repo))).
Proof.
  unfold checkout_command, from_resolution.
  repeat skip_step.
  all: try reflexivity.
  all: apply on_first_Vis_hit; [intros; reflexivity |]; intros dest_path.
  all: eapply always_mono; cycle 1;
    [ intros tr o' Hq; exists dest_path; split; [reflexivity | exact Hq] |].
  all: unfold clone_step, configured_password, configured_url, checkout_target,
         configured_owner;
    repeat match goal with
           | H : ctx_password _ = _ |- _ => rewrite H
           | H : ctx_forgejo_url _ = _ |- _ => rewrite H
           | H : ctx_repo_owner _ = _ |- _ => rewrite H
           | H : PyStr.contains _ _ = _ |- _ => rewrite H
           | H : PyStr.partition _ _ = _ |- _ => rewrite H
           end.
  all: repeat skip_step.
  all: try reflexivity.
  all: apply after_token_request;
    [ reflexivity | intros; reflexivity | intros token0 ].
  all: unfold clone_call, configured_url, checkout_target, configured_owner;
    repeat match goal with
           | H : ctx_forgejo_url _ = _ |- _ => rewrite H
           | H : ctx_repo_owner _ = _ |- _ => rewrite H
           | H : PyStr.contains _ _ = _ |- _ => rewrite H
           | H : PyStr.partition _ _ = _ |- _ => rewrite H
           end.
  all: repeat skip_step.
  all: try reflexivity.
  all: apply on_first_Vis_hit; [intros; reflexivity |]; intros x'.
  all: apply always_any; intros tr o'; eexists _, x'; split; reflexivity.
Qed.

Lemma checkout_end_shape py_repr urlparse ctx repo destination :
  always (checkout_command py_repr urlparse ctx repo destination)
    (on_first is_subprocess (clone_end urlparse ctx repo destination)).
Proof.
  unfold checkout_command, clone_end, checkout_target, configured_owner, configured_url.
  repeat skip_step.
  all: try reflexivity.
  all: apply on_first_Vis_hit; [intros; reflexivity |]; intros x'.
  all: eapply always_mono; cycle 1;
    [ intros tr o' Hq; eexists _, _, x'; split; [reflexivity | exact Hq] |].
  all: destruct x' as [done | e]; simpl; [| checkout_failure e].
  all: repeat (apply always_Vis; intros []); apply always_Ret;
    eexists; split; [reflexivity | split; reflexivity].
Qed.

Lemma path_not_token_post ev : is_path ev = true -> is_token_post ev = false.
Proof. revert ev. by_event_cases. Qed.

Lemma token_post_not_subprocess ev : is_token_post ev = true -> is_subprocess ev = false.
Proof. revert ev. by_event_cases. Qed.

Lemma checkout_reaches_clone py_repr urlparse ctx repo destination parsed :
  configured ctx ->
  urlparse (configured_url ctx) = inl parsed ->
  always (checkout_command py_repr urlparse ctx repo destination)
    (given_that (fun ev => answered (configured_password ctx) ev && destination_free ev)%bool
       (after_first is_path (after_first is_token_post (after_first is_subprocess reached)))).
Proof.
  intros Hcfg Hparse. unfold checkout_command.
  unfold configured_password. unfold configured_url in Hparse.
  with_configuration ctx Hcfg.
  repeat go_step.
Qed.

Lemma checkout_runs_clone py_repr urlparse ctx repo destination parsed :
  configured ctx ->
  urlparse (configured_url ctx) = inl parsed ->
  always (checkout_command py_repr urlparse ctx repo destination)
    (given_that (fun ev => answered (configured_password ctx) ev && destination_free ev)%bool
       (after_first is_subprocess reached)).
Proof.
  intros Hcfg Hparse. unfold checkout_command.
  unfold configured_password. unfold configured_url in Hparse.
  with_configuration ctx Hcfg.
  repeat go_step.
Qed.

Lemma checkout_target_split (ctx : context) (repo : string) :
  if PyStr.contains "/" repo then
    (fst (checkout_target ctx repo) ++ "/" ++ snd (checkout_target ctx repo))%string = repo
    /\ PyStr.contains "/" (fst (checkout_target ctx repo)) = false
  else checkout_target ctx repo = (configured_owner ctx, repo).
Proof.
  unfold checkout_target.
  destruct (PyStr.contains "/" repo) eqn:Hc; [| reflexivity].
  destruct (partition_slash repo) as (H1 & H2 & H3).
  specialize (H3 Hc).
  destruct (PyStr.partition "/" repo) as [o [r |]]; simpl in *.
  - split; [symmetry; exact H2 | exact H1].
  - contradiction.
Qed.

(** X19. [checkout] reads the owner and the name of the repository from
    its argument: an argument with a [/] is split at the first one, so
    that the two parts joined by a [/] give the argument back and the
    owner holds no [/]; an argument without one names a repository of the
    configured owner.  Its first look at the file system resolves the
    destination.  The token it asks for after that is named
    [checkout-<name>], and the first program it then runs is [git clone],
    into the resolved destination, from the address of the forge with
    [/<owner>/<name>.git] as path and with [git] and the token of the
    run, the password when the creation of the token failed, as user
    information.  A run that stops before one of these steps ended with
    status 1; and a run does all three, in this order, when the
    configuration is complete, the address of the forge can be parsed,
    every request is answered, the token request with a token, and the
    destination is free. *)
Theorem checkout_clones_with_the_token :
  forall (py_repr : value -> string) (urlparse : string -> parse_result + exn)
         (W : Type) (h : handler W) (w : W) (ctx : context)
         (repo destination : string),
    let r := run h (checkout_command py_repr urlparse ctx repo destination) w in
    let target := checkout_target ctx repo in
    (if PyStr.contains "/" repo then
       (fst target ++ "/" ++ snd target)%string = repo
       /\ PyStr.contains "/" (fst target) = false
     else target = (configured_owner ctx, repo))
    /\ match from_first is_path (trace_of r) with
       | [] => exit_status (outcome_of r) = 1
       | resolved :: after =>
           exists dest_path,
             resolved = Event (PathResolve destination) dest_path
             /\ match from_first is_token_post after with
                | [] => exit_status (outcome_of r) = 1
                | asked :: post =>
                    exists rq x,
                      asked = Event (Http rq) x
                      /\ rq_json rq
                         = Some (VDict [("name", VStr ("checkout-" ++ snd target));
                                        ("scopes", VList [VStr "all"])]%string)
                      /\ match from_first is_subprocess post with
                         | [] => exit_status (outcome_of r) = 1
                         | first :: _ =>
                             exists parsed y,
                               urlparse (configured_url ctx) = inl parsed
                               /\ first
                                  = Event (Subprocess
                                             (git ["clone";
                                                   token_url py_repr
                                                     (token_of (configured_password ctx) x)
                                                     parsed target;
                                                   dest_path]%string None)) y
                         end
                end
       end
    /\ (configured ctx ->
        (exists parsed, urlparse (configured_url ctx) = inl parsed) ->
        forallb (answered (configured_password ctx)) (trace_of r) = true ->
        forallb destination_free (trace_of r) = true ->
        from_first is_subprocess (from_first is_token_post (from_first is_path (trace_of r)))
        <> []).
Proof.
  intros py_repr urlparse W h w ctx repo destination r target. subst target.
  split; [apply checkout_target_split |].
  split;
    [ exact (always_run _ _
               (checkout_clone_shape py_repr urlparse ctx repo destination) h w) |].
  intros Hcfg [parsed Hparse] HA HF.
  assert (H := always_run _ _
                 (checkout_reaches_clone py_repr urlparse ctx repo destination parsed
                    Hcfg Hparse) h w (forallb_both _ _ _ HA HF)).
  fold r in H.
  apply (after_first_from _ _ _ _ _ path_not_token_post) in H.
  apply (after_first_from _ _ _ _ _ token_post_not_subprocess) in H.
  exact (after_first_reached _ _ _ _ H).
Qed.

(** [checkout alice/demo /tmp/demo] on the machine of the examples
    resolves the destination, asks for the token and runs a program. *)
Lemma checkout_clones_on_served_forge :
  configured Sim.ctx
  /\ (exists parsed, Sim.urlparse (configured_url Sim.ctx) = inl parsed)
  /\ forallb (answered (configured_password Sim.ctx)) (trace_of CheckoutExamples.cloned) = true
  /\ forallb destination_free (trace_of CheckoutExamples.cloned) = true
  /\ from_first is_subprocess
       (from_first is_token_post (from_first is_path (trace_of CheckoutExamples.cloned)))
     <> [].
Proof.
  assert (Hcfg : configured Sim.ctx) by (repeat split; reflexivity).
  assert (Hparse : exists parsed, Sim.urlparse (configured_url Sim.ctx) = inl parsed)
    by (eexists; vm_compute; reflexivity).
  assert (HA : forallb (answered (configured_password Sim.ctx))
                 (trace_of CheckoutExamples.cloned) = true)
    by (vm_compute; reflexivity).
  assert (HF : forallb destination_free (trace_of CheckoutExamples.cloned) = true)
    by (vm_compute; reflexivity).
  split; [exact Hcfg |]. split; [exact Hparse |]. split; [exact HA |]. split; [exact HF |].
  exact (proj2 (proj2 (checkout_clones_with_the_token Sim.repr Sim.urlparse unit
                         (Sim.answer CheckoutExamples.machine) tt Sim.ctx
                         "alice/demo" "/tmp/demo")) Hcfg Hparse HA HF).
Defined.

(** X20. The first program [checkout] runs is [git clone], and the run
    ends with it.  After a [git clone] that returns it prints two lines,
    the destination and the address of the repository without the token,
    and returns.  A failure of [git clone] is reported on the error
    stream, with what [git] printed, and ends the run with status 1; the
    hint that the repository may not exist is added exactly when what
    [git] printed holds [not found], in any case: the second test of the
    source, for [repository not found], never adds a case.  An exception
    of another kind, as when [git] is not installed, is not caught.  A
    run that runs no program ended with status 1; and a run does run
    [git clone] when the configuration is complete, the address of the
    forge can be parsed, every request is answered, the token request
    with a token, and the destination is free. *)
Theorem checkout_reports_clone_failure :
  forall (py_repr : value -> string) (urlparse : string -> parse_result + exn)
         (W : Type) (h : handler W) (w : W) (ctx : context)
         (repo destination : string),
    let r := run h (checkout_command py_repr urlparse ctx repo destination) w in
    match from_first is_subprocess (trace_of r) with
    | [] => exit_status (outcome_of r) = 1
    | first :: post =>
        exists auth_url dest_path x,
          first = Event (Subprocess (git ["clone"; auth_url; dest_path]%string None)) x
          /\ match x with
             | inl _ =>
                 exists parsed,
                   urlparse (configured_url ctx) = inl parsed
                   /\ post = [ Event (Echo false ("Repository cloned successfully to: "
                                                  ++ destination)%string) tt;
                               Event (Echo false
                                        ("Repository URL: "
                                         ++ public_url parsed
                                              (checkout_target ctx repo))%string) tt ]
                   /\ outcome_of r = Returned tt
             | inr e => checkout_failed (checkout_target ctx repo) e post (outcome_of r)
             end
    end
    /\ (configured ctx ->
        (exists parsed, urlparse (configured_url ctx) = inl parsed) ->
        forallb (answered (configured_password ctx)) (trace_of r) = true ->
        forallb destination_free (trace_of r) = true ->
        from_first is_subprocess (trace_of r) <> []).
Proof.
  intros py_repr urlparse W h w ctx repo destination r.
  split;
    [ exact (always_run _ _
               (checkout_end_shape py_repr urlparse ctx repo destination) h w) |].
  intros Hcfg [parsed Hparse] HA HF.
  exact (after_first_reached _ _ _ _
           (always_run _ _
              (checkout_runs_clone py_repr urlparse ctx repo destination parsed Hcfg Hparse)
              h w (forallb_both _ _ _ HA HF))).
Qed.

(** [checkout alice/demo /tmp/demo] on the machine of the examples runs
    [git clone]. *)
Lemma checkout_runs_git_on_served_forge :
  configured Sim.ctx
  /\ (exists parsed, Sim.urlparse (configured_url Sim.ctx) = inl parsed)
  /\ forallb (answered (configured_password Sim.ctx)) (trace_of CheckoutExamples.cloned) = true
  /\ forallb destination_free (trace_of CheckoutExamples.cloned) = true
  /\ from_first is_subprocess (trace_of CheckoutExamples.cloned) <> [].
Proof.
  assert (Hcfg : configured Sim.ctx) by (repeat split; reflexivity).
  assert (Hparse : exists parsed, Sim.urlparse (configured_url Sim.ctx) = inl parsed)
    by (eexists; vm_compute; reflexivity).
  assert (HA : forallb (answered (configured_password Sim.ctx))
                 (trace_of CheckoutExamples.cloned) = true)
    by (vm_compute; reflexivity).
  assert (HF : forallb destination_free (trace_of CheckoutExamples.cloned) = true)
    by (vm_compute; reflexivity).
  split; [exact Hcfg |]. split; [exact Hparse |]. split; [exact HA |]. split; [exact HF |].
  exact (proj2 (checkout_reports_clone_failure Sim.repr Sim.urlparse unit
                  (Sim.answer CheckoutExamples.machine) tt Sim.ctx
                  "alice/demo" "/tmp/demo") Hcfg Hparse HA HF).
Defined.
